(** * Personal Expense Tracker: the data logic of PersonalExpenseTracker.py

    The script keeps its expenses in one CSV file and works on it through
    pandas.  This development embeds the four functions of the script
    ([adds_expense], [view_report], [predict_the_next_month],
    [calculate_the_monthly_budget]), the two module-level budget blocks
    (the sidebar and the remaining-budget section) and what the three tabs
    show.

    Modelling conventions.
    - Numbers are the numbers of the program.  A Python float and an element
      of a float64 column is a binary64 double ([float], with the IEEE
      operations of the kernel); an element of an int64 column is an integer
      kept within 64 bits by wrap-around ([wrap_int64]).  [num] holds one or
      the other.  [f"{x:.2f}"] rounds the exact binary value, ties to even.
    - A file is missing, unreadable for [pd.read_csv], or a table of lines
      under the fixed header Date,Amount,Category,Description.  A line holds
      the text of its four fields (CSV quoting is not modelled).
    - [read_csv] types each column as a whole, trying int64, float64 and bool
      in that order and keeping the text otherwise; NA markers are read as
      NaN.  A frame row carries its index label.
    - What pandas does below that level is a parameter of the development,
      the class [Pandas]: which texts are NA markers, integers, floats and
      booleans; how a float is printed; what [pd.to_datetime] makes of a
      whole Date column (it settles on one format for the column, so the
      result for one cell depends on the other cells); the number
      [pd.to_numeric] reads in one text; how the values of one group are
      summed by [groupby(...).sum()], how [Series.sum()] adds up a numeric
      series and how [Series.mean()] averages one.
      [pd.to_datetime(..., errors="coerce")] is taken not to raise.
    - [ReferencePandas] is one instance, following pandas 2.2: the default NA
      markers, the integer and float converters of the C parser, the shortest
      round-trip printing of doubles, dates in the shapes YYYY-MM-DD and
      MM/DD/YYYY with the format taken from the first non-missing cell,
      compensated summation for group sums and pairwise summation for the
      sums and means of a series.  The examples run on it. *)

From Stdlib Require Import List String Ascii ZArith QArith Qcanon Lia Bool.
From Stdlib Require Import DecimalString DecimalPos Sorted Permutation Floats.
Import ListNotations.
Local Open Scope list_scope.
Local Open Scope string_scope.
Set Warnings "-inexact-float".

(** ** Numbers *)

(** Arithmetic on int64 wraps around. *)
Definition wrap_int64 (z : Z) : Z := ((z + 2 ^ 63) mod 2 ^ 64 - 2 ^ 63)%Z.

(** An element of a numeric column: of an int64 or of a float64 column. *)
Inductive num : Type :=
| Int (z : Z)
| Flt (f : float).

Definition is_Int (x : num) : bool :=
  match x with
  | Int _ => true
  | Flt _ => false
  end.

(** The double nearest to an integer, as a cast from int64 to float64 gives
    it. *)
Definition float_of_int (z : Z) : float :=
  SF2Prim (binary_normalize prec emax z 0 false).

Definition to_float (x : num) : float :=
  match x with
  | Int z => float_of_int z
  | Flt f => f
  end.

(** [x + y] and [x - y] on numbers: within int64 when both are integers, in
    doubles otherwise. *)
Definition num_add (x y : num) : num :=
  match x, y with
  | Int a, Int b => Int (wrap_int64 (a + b))
  | _, _ => Flt (to_float x + to_float y)
  end.

Definition num_sub (x y : num) : num :=
  match x, y with
  | Int a, Int b => Int (wrap_int64 (a - b))
  | _, _ => Flt (to_float x - to_float y)
  end.

Definition Qc_of_Z (z : Z) : Qc := Q2Qc (inject_Z z).

(** The rational a finite double stands for. *)
Definition SF_exact (x : spec_float) : option Qc :=
  match x with
  | S754_zero _ => Some 0%Qc
  | S754_finite s m e =>
      let v := if (0 <=? e)%Z then Qc_of_Z (Zpos m * 2 ^ e)
               else Q2Qc (Zpos m # Z.to_pos (2 ^ (- e))) in
      Some (if s then (- v)%Qc else v)
  | S754_infinity _ => None
  | S754_nan => None
  end.

(** The rational a number stands for; infinities and NaN stand for none. *)
Definition exact (x : num) : option Qc :=
  match x with
  | Int z => Some (Qc_of_Z z)
  | Flt f => SF_exact (Prim2SF f)
  end.

(** ** Decimal text *)

Definition str_Z (z : Z) : string := NilZero.string_of_int (Z.to_int z).

Definition pad2 (z : Z) : string :=
  if (z <? 10)%Z then "0" ++ str_Z z else str_Z z.

Definition pad4 (z : Z) : string :=
  if (z <? 10)%Z then "000" ++ str_Z z
  else if (z <? 100)%Z then "00" ++ str_Z z
  else if (z <? 1000)%Z then "0" ++ str_Z z
  else str_Z z.

(** Nearest integer to [n / d], ties to even, for [0 < d]. *)
Definition round_half_even (n d : Z) : Z :=
  let fl := (n / d)%Z in
  match (2 * (n mod d) ?= d)%Z with
  | Lt => fl
  | Gt => (fl + 1)%Z
  | Eq => if Z.even fl then fl else (fl + 1)%Z
  end.

(** A count of hundredths written with two decimals. *)
Definition hundredths (c : Z) : string :=
  str_Z (c / 100) ++ "." ++ pad2 (c mod 100).

(** Python's [f"{x:.2f}"] on a float. *)
Definition format_2f (x : float) : string :=
  match Prim2SF x with
  | S754_nan => "nan"
  | S754_infinity s => if s then "-inf" else "inf"
  | S754_zero s => (if s then "-" else EmptyString) ++ "0.00"
  | S754_finite s m e =>
      let c := if (0 <=? e)%Z then (Zpos m * 2 ^ e * 100)%Z
               else round_half_even (Zpos m * 100) (2 ^ (- e)) in
      (if s then "-" else EmptyString) ++ hundredths c
  end.

(** [f"{n:.2f}"] on an integer. *)
Definition format_int_2f (z : Z) : string :=
  (if (z <? 0)%Z then "-" else EmptyString) ++ str_Z (Z.abs z) ++ ".00".

(** ** Dates and monthly periods *)

Record date := mkDate { year : Z; month : Z; day : Z }.

(** [datetime.date.isoformat], which is what [to_csv] writes for a date. *)
Definition isoformat (d : date) : string :=
  pad4 (year d) ++ "-" ++ pad2 (month d) ++ "-" ++ pad2 (day d).

(** A pandas [Period] of frequency "M" is a count of months since 1970-01. *)
Definition period := Z.

Definition to_period (d : date) : period :=
  ((year d - 1970) * 12 + (month d - 1))%Z.

Definition period_year (p : period) : Z := (1970 + p / 12)%Z.
Definition period_month (p : period) : Z := (p mod 12 + 1)%Z.

(** [str] of a period of frequency "M". *)
Definition period_str (p : period) : string :=
  pad4 (period_year p) ++ "-" ++ pad2 (period_month p).

(** [Series.astype(str)] on a Month column that may hold NaT. *)
Definition month_astype_str (m : option period) : string :=
  match m with
  | Some p => period_str p
  | None => "NaT"
  end.

(** [date.strftime("%Y-%m")]. *)
Definition strftime_Y_m (d : date) : string :=
  pad4 (year d) ++ "-" ++ pad2 (month d).

(** ** Python values, exceptions *)

(** The values a cell of the frame can hold. *)
Inductive value : Type :=
| NaN
| Num (x : num)
| Str (s : string)
| Bool (b : bool)
| DateObj (d : date).

Inductive exn : Type :=
| FileNotFoundError (msg : string)
| ParserError (msg : string)
| TypeError (msg : string)
| ValueError (msg : string)
| NameError (name : string).

(** [str(e)]. *)
Definition str_exn (e : exn) : string :=
  match e with
  | FileNotFoundError m => m
  | ParserError m => m
  | TypeError m => m
  | ValueError m => m
  | NameError n => "name '" ++ n ++ "' is not defined"
  end.

Inductive result (A : Type) : Type :=
| Ok (a : A)
| Raise (e : exn).

Arguments Ok {A} a.
Arguments Raise {A} e.

Definition bind {A B : Type} (m : result A) (k : A -> result B) : result B :=
  match m with
  | Ok a => k a
  | Raise e => Raise e
  end.

Notation "x <- m ;; k" := (bind m (fun x => k))
  (at level 61, m at next level, right associativity).

(** [try: body  except Exception as e: handler e]. *)
Definition try_except {A : Type} (body : result A) (handler : exn -> A) : A :=
  match body with
  | Ok a => a
  | Raise e => handler e
  end.

Definition type_name (v : value) : string :=
  match v with
  | NaN => "float"
  | Num (Int _) => "int"
  | Num (Flt _) => "float"
  | Str _ => "str"
  | Bool _ => "bool"
  | DateObj _ => "datetime.date"
  end.

Definition unsupported (op : string) (a b : value) : exn :=
  TypeError ("unsupported operand type(s) for " ++ op ++ ": '"
             ++ type_name a ++ "' and '" ++ type_name b ++ "'").

(** The number a value is in arithmetic: NaN is a float, a bool is 0 or 1. *)
Definition as_number (v : value) : option num :=
  match v with
  | NaN => Some (Flt nan)
  | Num x => Some x
  | Bool b => Some (Int (Z.b2z b))
  | Str _ => None
  | DateObj _ => None
  end.

(** Python's [a + b] on the values a column can hold. *)
Definition py_add (a b : value) : result value :=
  match a, b with
  | Str s, Str t => Ok (Str (s ++ t))
  | _, _ =>
      match as_number a, as_number b with
      | Some x, Some y => Ok (Num (num_add x y))
      | _, _ => Raise (unsupported "+" a b)
      end
  end.

(** Python's [a - b]. *)
Definition py_sub (a b : value) : result value :=
  match as_number a, as_number b with
  | Some x, Some y => Ok (Num (num_sub x y))
  | _, _ => Raise (unsupported "-" a b)
  end.

(** Python's [f"{v:.2f}"]. *)
Definition py_format_2f (v : value) : result string :=
  match v with
  | Num (Int z) => Ok (format_int_2f z)
  | Num (Flt f) => Ok (format_2f f)
  | NaN => Ok "nan"
  | Bool b => Ok (format_int_2f (Z.b2z b))
  | Str _ =>
      Raise (ValueError "Unknown format code 'f' for object of type 'str'")
  | DateObj _ => Raise (ValueError "Invalid format specifier")
  end.

(** [Series.sum()] on a series of dtype object: missing entries count as 0
    and the rest is added up with Python's [+] from the first entry on; the
    sum of no entry is 0. *)
Definition nan_to_zero (v : value) : value :=
  match v with
  | NaN => Num (Int 0)
  | _ => v
  end.

Definition object_sum (s : list value) : result value :=
  match s with
  | [] => Ok (Num (Int 0))
  | v :: rest =>
      fold_left (fun acc w => a <- acc ;; py_add a (nan_to_zero w))
                rest (Ok (nan_to_zero v))
  end.

(** The numbers of a series of numbers and missing values, a missing value
    counting 0; [None] when the series holds anything else. *)
Fixpoint numbers_of (s : list value) : option (list num) :=
  match s with
  | [] => Some []
  | NaN :: rest => option_map (cons (Flt 0)) (numbers_of rest)
  | Num x :: rest => option_map (cons x) (numbers_of rest)
  | _ :: _ => None
  end.

(** ** Group keys and [groupby] *)

(** The order in which pandas sorts the keys of a group-by. *)
Class KeyOrder (K : Type) : Type := key_compare : K -> K -> comparison.

#[export] Instance period_order : KeyOrder period := Z.compare.

(** The label of a Category column: a number when the whole column was read
    as numeric (by its value, infinities apart), a boolean when it was read
    as bool, a text otherwise. *)
Inductive label : Type :=
| LNum (q : Qc)
| LInf (negative : bool)
| LBool (b : bool)
| LStr (s : string).

(** Labels of one kind are ordered among themselves; minus infinity comes
    before the numbers and plus infinity after them. *)
Definition label_rank (a : label) : Z :=
  match a with
  | LInf true => 0
  | LNum _ => 1
  | LInf false => 2
  | LBool _ => 3
  | LStr _ => 4
  end.

Definition label_compare (a b : label) : comparison :=
  match a, b with
  | LNum x, LNum y => (x ?= y)%Qc
  | LBool x, LBool y => Bool.compare x y
  | LStr s, LStr t => String.compare s t
  | _, _ => Z.compare (label_rank a) (label_rank b)
  end.

#[export] Instance label_order : KeyOrder label := label_compare.

(** Keys of a group-by on two columns are ordered by the first column, then
    by the second. *)
#[export] Instance pair_order {A B : Type} `{KeyOrder A} `{KeyOrder B}
  : KeyOrder (A * B) :=
  fun x y =>
    match key_compare (fst x) (fst y) with
    | Eq => key_compare (snd x) (snd y)
    | c => c
    end.

Section Grouping.
Context {K V : Type} `{KeyOrder K}.

(** Put one value into the group of its key, after the values the group
    already holds, keeping the groups sorted by key. *)
Fixpoint collect (k : K) (v : V) (groups : list (K * list V))
  : list (K * list V) :=
  match groups with
  | [] => [(k, [v])]
  | (k', vs) :: rest =>
      match key_compare k k' with
      | Eq => (k', (vs ++ [v])%list) :: rest
      | Lt => (k, [v]) :: groups
      | Gt => (k', vs) :: collect k v rest
      end
  end.

(** [groupby(keys)[column]] on the (key, value) pairs of the rows: each group
    holds its values in the order of the rows. *)
Definition groupby (rows : list (K * V)) : list (K * list V) :=
  fold_left (fun groups kv => collect (fst kv) (snd kv) groups) rows [].

(** What an aggregation makes of each group. *)
Definition aggregate {W : Type} (f : list V -> W) (groups : list (K * list V))
  : list (K * W) :=
  map (fun g => (fst g, f (snd g))) groups.

Fixpoint find_group {W : Type} (k : K) (groups : list (K * W)) : option W :=
  match groups with
  | [] => None
  | (k', v) :: rest =>
      match key_compare k k' with
      | Eq => Some v
      | _ => find_group k rest
      end
  end.

(** Sorted insertion of a key, without duplicates. *)
Fixpoint insert_key (k : K) (keys : list K) : list K :=
  match keys with
  | [] => [k]
  | k' :: rest =>
      match key_compare k k' with
      | Eq => keys
      | Lt => k :: keys
      | Gt => k' :: insert_key k rest
      end
  end.

(** The distinct keys of a list, sorted. *)
Definition sorted_keys (keys : list K) : list K :=
  fold_left (fun acc k => insert_key k acc) keys [].

(** Position of a key in a list of keys. *)
Fixpoint position (k : K) (keys : list K) : option nat :=
  match keys with
  | [] => None
  | k' :: rest =>
      match key_compare k k' with
      | Eq => Some O
      | _ => option_map S (position k rest)
      end
  end.
End Grouping.

(** ** The table [unstack] builds *)

(** A frame with an index (one entry per row), column labels and a matrix of
    cells. *)
Record pivot : Type := mkPivot {
  index : list period;
  columns : list label;
  cells : list (list num)
}.

(** The 0 of [fill_value=0] in the type of the sums: an int64 0 among int64
    sums, a float64 0.0 otherwise. *)
Definition zero_like (sums : list num) : num :=
  if forallb is_Int sums then Int 0 else Flt 0.

(** [Series.unstack(fill_value=fill)] on a series indexed by (Month, Category):
    rows are the months, columns the categories, absent pairs get [fill]. *)
Definition unstack (fill : num) (groups : list ((period * label) * num))
  : pivot :=
  let months := sorted_keys (map (fun g => fst (fst g)) groups) in
  let cats := sorted_keys (map (fun g => snd (fst g)) groups) in
  mkPivot months cats
    (map (fun m =>
            map (fun c =>
                   match find_group (m, c) groups with
                   | Some v => v
                   | None => fill
                   end) cats) months).

(** The cell of a table at a row label and a column label. *)
Definition cell (t : pivot) (m : period) (c : label) : option num :=
  match position m (index t), position c (columns t) with
  | Some i, Some j =>
      match nth_error (cells t) i with
      | Some r => nth_error r j
      | None => None
      end
  | _, _ => None
  end.

(** The row of a table at a row label. *)
Definition table_row (t : pivot) (m : period) : option (list num) :=
  match position m (index t) with
  | Some i => nth_error (cells t) i
  | None => None
  end.

(** ** What is taken from pandas *)

Class Pandas : Type := {
  (** the text is one of the NA markers of [read_csv] *)
  na_text : string -> bool;
  (** the int64 a text denotes for [read_csv] *)
  parse_int : string -> option Z;
  (** the float64 a text denotes for [read_csv] *)
  parse_float : string -> option float;
  (** the bool a text denotes for [read_csv] *)
  parse_bool : string -> option bool;
  (** the text [to_csv] writes for a float that is not NaN *)
  repr_float : float -> string;
  (** [pd.to_datetime(column, errors="coerce")] on a whole column; [None] is
      NaT *)
  to_datetime : list value -> list (option date);
  to_datetime_length :
    forall col, List.length (to_datetime col) = List.length col;
  (** the number [pd.to_numeric] reads in one text *)
  number_of_text : string -> option num;
  (** [groupby(...)[column].sum()] on the values of one group, in the order
      of the rows *)
  group_sum : list num -> num;
  (** [Series.sum()] on a numeric series that is not empty *)
  series_total : list num -> num;
  (** [Series.mean()] on a numeric series that is not empty *)
  series_mean : list num -> float
}.

(** ** The expenses file and the frames read from it *)

Record line : Type := mkLine {
  l_Date : string;
  l_Amount : string;
  l_Category : string;
  l_Description : string
}.

Definition FILE_NAME : string := "expenses.csv".

(** State of FILE_NAME on disk. *)
Inductive file : Type :=
| Missing
| Unreadable (msg : string)
| Csv (lines : list line).

(** [os.path.exists(FILE_NAME)]. *)
Definition path_exists (f : file) : bool :=
  match f with
  | Missing => false
  | _ => true
  end.

(** A row of the frame, under its index label; the types of the Date, Month
    and Amount columns change as the script reassigns them. *)
Record row (D M A : Type) : Type := mkRow {
  Index : nat;
  Date : D;
  Month : M;
  Amount : A;
  Category : value;
  Description : value
}.

Arguments mkRow {D M A} _ _ _ _ _ _.
Arguments Index {D M A} _.
Arguments Date {D M A} _.
Arguments Month {D M A} _.
Arguments Amount {D M A} _.
Arguments Category {D M A} _.
Arguments Description {D M A} _.

Definition frame (D M A : Type) : Type := list (row D M A).

(** [df["Date"] = col], the column aligned with the rows by position. *)
Definition set_Date {D D' M A : Type} (col : list D') (df : frame D M A)
  : frame D' M A :=
  map (fun rc : row D M A * D' =>
         mkRow (Index (fst rc)) (snd rc) (Month (fst rc)) (Amount (fst rc))
               (Category (fst rc)) (Description (fst rc)))
      (combine df col).

(** [df["Month"] = f(df["Date"])], element by element. *)
Definition assign_Month {D M M' A : Type} (f : D -> M') (df : frame D M A)
  : frame D M' A :=
  map (fun r => mkRow (Index r) (Date r) (f (Date r)) (Amount r)
                      (Category r) (Description r)) df.

(** [df["Amount"] = col]. *)
Definition set_Amount {D M A A' : Type} (col : list A') (df : frame D M A)
  : frame D M A' :=
  map (fun rc : row D M A * A' =>
         mkRow (Index (fst rc)) (Date (fst rc)) (Month (fst rc)) (snd rc)
               (Category (fst rc)) (Description (fst rc)))
      (combine df col).

(** [df.dropna(subset=["Date"])]. *)
Definition dropna_Date {D M A : Type} (df : frame (option D) M A)
  : frame D M A :=
  flat_map (fun r =>
              match Date r with
              | Some d => [mkRow (Index r) d (Month r) (Amount r)
                                 (Category r) (Description r)]
              | None => []
              end) df.

(** [df.dropna(subset=["Amount"])]. *)
Definition dropna_Amount {D M A : Type} (df : frame D M (option A))
  : frame D M A :=
  flat_map (fun r =>
              match Amount r with
              | Some a => [mkRow (Index r) (Date r) (Month r) a
                                 (Category r) (Description r)]
              | None => []
              end) df.

(** The key a value gives to a group-by; a missing value gives none, and
    [groupby] leaves such rows out (its default [dropna=True]). *)
Definition group_key (v : value) : option label :=
  match v with
  | Num (Int z) => Some (LNum (Qc_of_Z z))
  | Num (Flt f) =>
      match Prim2SF f with
      | S754_nan => None
      | S754_infinity s => Some (LInf s)
      | sf => option_map LNum (SF_exact sf)
      end
  | Str s => Some (LStr s)
  | Bool b => Some (LBool b)
  | NaN => None
  | DateObj _ => None
  end.

(** The (key, Amount) pairs of [df.groupby(["Month", "Category"])["Amount"]]. *)
Definition by_Month_Category {D : Type} (df : frame D period num)
  : list ((period * label) * num) :=
  flat_map (fun r =>
              match group_key (Category r) with
              | Some c => [((Month r, c), Amount r)]
              | None => []
              end) df.

(** The (key, Amount) pairs of [df.groupby("Month")["Amount"]]. *)
Definition by_Month {D : Type} (df : frame D period num)
  : list (period * num) :=
  map (fun r => (Month r, Amount r)) df.

(** The types [read_csv] gives a column. *)
Inductive dtype : Type := int64 | float64 | bool_ | object.

Definition is_some {A : Type} (o : option A) : bool :=
  match o with
  | Some _ => true
  | None => false
  end.

(** The rows of a list with their positions. *)
Definition enumerate {A : Type} (l : list A) : list (nat * A) :=
  combine (seq 0 (List.length l)) l.

Section Program.
Context `{Pandas}.

(** *** [pd.read_csv] and [DataFrame.to_csv] *)

(** The parser tries the types in this order on the whole column: int64 when
    every cell is an integer, float64 when every cell is a number or missing,
    bool when every cell is a boolean or missing, text otherwise. *)
Definition column_dtype (col : list string) : dtype :=
  if forallb (fun s => negb (na_text s) && is_some (parse_int s)) col
  then int64
  else if forallb (fun s => na_text s || is_some (parse_float s)) col
  then float64
  else if forallb (fun s => na_text s || is_some (parse_bool s)) col
  then bool_
  else object.

Definition read_cell (t : dtype) (s : string) : value :=
  if na_text s then NaN
  else match t with
       | int64 =>
           match parse_int s with Some z => Num (Int z) | None => Str s end
       | float64 =>
           match parse_float s with Some f => Num (Flt f) | None => Str s end
       | bool_ =>
           match parse_bool s with Some b => Bool b | None => Str s end
       | object => Str s
       end.

Definition read_table (ls : list line) : frame value unit value :=
  let td := column_dtype (map l_Date ls) in
  let ta := column_dtype (map l_Amount ls) in
  let tc := column_dtype (map l_Category ls) in
  let ts := column_dtype (map l_Description ls) in
  map (fun il : nat * line =>
         mkRow (fst il) (read_cell td (l_Date (snd il))) tt
               (read_cell ta (l_Amount (snd il)))
               (read_cell tc (l_Category (snd il)))
               (read_cell ts (l_Description (snd il))))
      (enumerate ls).

(** [pd.read_csv(FILE_NAME)]. *)
Definition read_csv (f : file) : result (frame value unit value) :=
  match f with
  | Missing =>
      Raise (FileNotFoundError
               ("[Errno 2] No such file or directory: '" ++ FILE_NAME ++ "'"))
  | Unreadable msg => Raise (ParserError msg)
  | Csv ls => Ok (read_table ls)
  end.

(** The text [to_csv] writes for a cell: a missing value is written as the
    empty field, an integer in decimal, a float as [repr_float] prints it, a
    date in ISO form. *)
Definition cell_text (v : value) : string :=
  match v with
  | NaN => EmptyString
  | Num (Int z) => str_Z z
  | Num (Flt f) => if is_nan f then EmptyString else repr_float f
  | Str s => s
  | Bool b => if b then "True" else "False"
  | DateObj d => isoformat d
  end.

(** [df.to_csv(FILE_NAME, index=False)]: the whole file is rewritten, without
    the index. *)
Definition to_csv {M : Type} (df : frame value M value) : file :=
  Csv (map (fun r => mkLine (cell_text (Date r)) (cell_text (Amount r))
                            (cell_text (Category r))
                            (cell_text (Description r))) df).

(** *** [pd.to_numeric], with [errors="coerce"] *)

Definition not_nan (x : num) : option num :=
  match x with
  | Int _ => Some x
  | Flt f => if is_nan f then None else Some x
  end.

(** One element: [None] is NaN. *)
Definition coerce_number (v : value) : option num :=
  match v with
  | Num x => not_nan x
  | Str s => match number_of_text s with Some x => not_nan x | None => None end
  | Bool b => Some (Int (Z.b2z b))
  | NaN => None
  | DateObj _ => None
  end.

Definition is_int_entry (o : option num) : bool :=
  match o with
  | Some (Int _) => true
  | _ => false
  end.

(** The column: int64 when every element is an integer, float64 otherwise. *)
Definition to_numeric (col : list value) : list (option num) :=
  let xs := map coerce_number col in
  if forallb is_int_entry xs then xs
  else map (option_map (fun x => Flt (to_float x))) xs.

(** *** adds_expense *)

(** In a frame with a float next to it, an int64 Amount becomes a float64. *)
Definition promote_Amount (v : value) : value :=
  match v with
  | Num (Int z) => Num (Flt (float_of_int z))
  | _ => v
  end.

(** [pd.concat([df, pd.DataFrame([expense])], ignore_index=True)]: the
    Amount column takes the common type of the two frames, the other columns
    keep their values, and the rows are numbered anew. *)
Definition concat_expense (df : frame value unit value)
           (expense : row value unit value) : frame value unit value :=
  (map (fun r => mkRow (Index r) (Date r) tt (promote_Amount (Amount r))
                       (Category r) (Description r)) df
   ++ [mkRow (List.length df) (Date expense) tt (Amount expense)
             (Category expense) (Description expense)])%list.

(** The script's [adds_expense]; the file is threaded through as state:
    the result is the file afterwards and the message returned. *)
Definition adds_expense (date : date) (amount : float)
           (category description : string) (f : file) : file * string :=
  try_except
    (let expense := mkRow O (DateObj date) tt (Num (Flt amount))
                          (Str category) (Str description) in
     df <- (if path_exists f
            then df <- read_csv f ;; Ok (concat_expense df expense)
            else Ok [expense]) ;;
     Ok (to_csv df, "Expense added successfully!"))
    (fun e => (f, "Error adding expense: " ++ str_exn e)).

(** *** view_report *)

(** [groupby(keys)["Amount"].sum()]. *)
Definition groupby_sum {K : Type} `{KeyOrder K} (rows : list (K * num))
  : list (K * num) :=
  aggregate group_sum (groupby rows).

(** Lines 51 to 66: the report built from the frame just read. *)
Definition report_table (df : frame value unit value) : pivot :=
  let df := set_Date (to_datetime (map Date df)) df in
  let df := dropna_Date df in
  let df := assign_Month to_period df in
  let df := set_Amount (to_numeric (map Amount df)) df in
  let df := dropna_Amount df in
  let sums := groupby_sum (by_Month_Category df) in
  unstack (zero_like (map snd sums)) sums.

(** The pair returned is (error message or None, report or None). *)
Definition view_report (f : file) : option string * option pivot :=
  try_except
    (if negb (path_exists f)
     then Ok (Some "No expenses recorded yet!", None)
     else df <- read_csv f ;;
          Ok (None, Some (report_table df)))
    (fun e => (Some ("Error generating report: " ++ str_exn e), None)).

(** *** predict_the_next_month *)

(** Lines 86 to 101: the totals per month of the frame just read. *)
Definition monthly_totals (df : frame value unit value)
  : list (period * num) :=
  let df := set_Date (to_datetime (map Date df)) df in
  let df := dropna_Date df in
  let df := assign_Month to_period df in
  let df := set_Amount (to_numeric (map Amount df)) df in
  let df := dropna_Amount df in
  groupby_sum (by_Month df).

(** [Series.mean()]: NaN on an empty series. *)
Definition mean (s : list num) : float :=
  match s with
  | [] => nan
  | _ => series_mean s
  end.

Definition prediction_message (prediction : float) : string :=
  "Based on your spending history, your predicted total expenses for next month are: $"
    ++ format_2f prediction.

Definition predict_the_next_month (f : file) : string :=
  try_except
    (if negb (path_exists f)
     then Ok "No expenses recorded yet!"
     else df <- read_csv f ;;
          let prediction := mean (map snd (monthly_totals df)) in
          Ok (prediction_message prediction))
    (fun e => "Error predicting expenses: " ++ str_exn e).
End Program.

(** *** calculate_the_monthly_budget *)

Definition calculate_the_monthly_budget (yearly_income savings_goal : float)
  : float * float :=
  let monthly_income := (yearly_income / 12)%float in
  let remaining_budget := (monthly_income - savings_goal)%float in
  (monthly_income, remaining_budget).

(** ** The module-level budget blocks *)

(** What the page shows. *)
Inductive widget : Type :=
| st_header (s : string)
| st_success (s : string)
| st_warning (s : string)
| st_error (s : string).

(** The two numbers of the sidebar. *)
Record sidebar : Type := mkSidebar {
  yearly_income : float;
  savings_goal : float
}.

(** The module-level names the sidebar block may bind; [None] is a name that
    was never assigned. *)
Record globals : Type := mkGlobals {
  monthly_income : option float;
  remaining_budget : option float
}.

(** Reading a module-level name. *)
Definition load_name (name : string) (v : option float) : result float :=
  match v with
  | Some x => Ok x
  | None => Raise (NameError name)
  end.

(** Lines 132 to 140. *)
Definition set_your_budget (inp : sidebar) : globals * list widget :=
  if (0 <? yearly_income inp)%float then
    let (mi, rb) :=
      calculate_the_monthly_budget (yearly_income inp) (savings_goal inp) in
    (mkGlobals (Some mi) (Some rb),
     [st_success ("Your monthly income: $" ++ format_2f mi);
      st_success ("Budget after savings: $" ++ format_2f rb)])
  else
    (mkGlobals None None,
     [st_warning "Please enter your yearly income to calculate your budget."]).

Section RemainingBudget.
Context `{Pandas}.

(** [Series.sum()], with its default [skipna=True]: a series of numbers and
    missing values is summed as numbers, and the sum of no entry is 0; any
    other series is of dtype object. *)
Definition series_sum (s : list value) : result value :=
  match numbers_of s with
  | Some [] => Ok (Num (Int 0))
  | Some xs => Ok (Num (series_total xs))
  | None => object_sum s
  end.

(** Lines 211 to 219: [total_expenses], 0 unless the file exists. *)
Definition total_expenses (f : file) (now : date) : result value :=
  if path_exists f then
    df <- read_csv f ;;
    let df := set_Date (to_datetime (map Date df)) df in
    let df := assign_Month (option_map to_period) df in
    let current_month := strftime_Y_m now in
    series_sum
      (map Amount
           (filter (fun r => String.eqb (month_astype_str (Month r))
                                        current_month) df))
  else Ok (Num (Int 0)).

(** Lines 213 to 222: the body of the [try]. *)
Definition remaining_budget_try (g : globals) (f : file) (now : date)
  : result (list widget) :=
  spent <- total_expenses f now ;;
  rb <- load_name "remaining_budget" (remaining_budget g) ;;
  remaining_budget_after_expenses <- py_sub (Num (Flt rb)) spent ;;
  shown <- py_format_2f remaining_budget_after_expenses ;;
  Ok [st_success ("Remaining budget for this month: $" ++ shown)].

(** Line 209: the section runs its [try] when the yearly income is positive,
    and does nothing otherwise. *)
Definition remaining_section (inp : sidebar) (g : globals)
           (f : file) (now : date) : option (result (list widget)) :=
  if (0 <? yearly_income inp)%float
  then Some (remaining_budget_try g f now)
  else None.

(** Lines 209 to 225, run with the module-level names as [g] holds them. *)
Definition remaining_monthly_budget (inp : sidebar) (g : globals)
           (f : file) (now : date) : list widget :=
  match remaining_section inp g f now with
  | Some body =>
      st_header "Remaining Monthly Budget"
      :: try_except
           body
           (fun e =>
              [st_error ("An error occurred while calculating the remaining budget: "
                         ++ str_exn e)])
  | None => []
  end.

(** The budget parts of one run of the script: the sidebar block first, the
    remaining-budget section last, on the names the first one bound.  The
    tabs in between bind [date], [amount], [category], [description],
    [message], [error], [report] and [prediction] only. *)
Definition budget_page (inp : sidebar) (f : file) (now : date)
  : list widget :=
  let (g, shown) := set_your_budget inp in
  (shown ++ remaining_monthly_budget inp g f now)%list.
End RemainingBudget.

(** ** Laws of a key order *)

Class KeyLaws (K : Type) `{KeyOrder K} : Prop := {
  key_eq : forall a b : K, key_compare a b = Eq <-> a = b;
  key_antisym : forall a b : K, key_compare b a = CompOpp (key_compare a b);
  key_trans : forall a b c : K,
      key_compare a b = Lt -> key_compare b c = Lt -> key_compare a c = Lt
}.

(** ** Vocabulary of the statements *)

(** Two keys are the same key. *)
Definition key_eqb {K : Type} `{KeyOrder K} (a b : K) : bool :=
  match key_compare a b with Eq => true | _ => false end.

(** The values a list of (key, value) pairs holds under one key, in the order
    of the list. *)
Definition amounts_of {K V : Type} `{KeyOrder K} (k : K) (rows : list (K * V))
  : list V :=
  map snd (filter (fun kv => key_eqb k (fst kv)) rows).

(** Keys in strictly increasing order. *)
Definition keys_sorted {K : Type} `{KeyOrder K} (keys : list K) : Prop :=
  StronglySorted (fun a b => key_compare a b = Lt) keys.

(** What a group holds after more values were put into it. *)
Definition extend {V : Type} (old : option (list V)) (more : list V)
  : option (list V) :=
  match old, more with
  | None, [] => None
  | None, _ => Some more
  | Some a, _ => Some (a ++ more)%list
  end.

(** What [unstack] puts in the cell of a month and a category. *)
Definition cell_value (fill : num) (groups : list ((period * label) * num))
           (m : period) (c : label) : num :=
  match find_group (m, c) groups with
  | Some v => v
  | None => fill
  end.

(** Equality of labels. *)
Definition label_eqb (a b : label) : bool :=
  match a, b with
  | LNum x, LNum y => Qc_eq_bool x y
  | LInf x, LInf y => Bool.eqb x y
  | LBool x, LBool y => Bool.eqb x y
  | LStr s, LStr t => String.eqb s t
  | _, _ => false
  end.

(** The Category cell holds the label [c]. *)
Definition category_is (c : label) (v : value) : bool :=
  match group_key v with
  | Some c' => label_eqb c' c
  | None => false
  end.

(** The Category cell holds a label at all. *)
Definition has_category (v : value) : bool :=
  match group_key v with
  | Some _ => true
  | None => false
  end.

Section Readings.
Context `{Pandas}.

(** The frame after line 51 (or 86): every row, with what [pd.to_datetime]
    made of its Date within the Date column. *)
Definition dated (df : frame value unit value)
  : frame (option date) unit value :=
  set_Date (to_datetime (map Date df)) df.

(** The frame after line 60 (or 95): the rows that kept a date, with their
    month and with what [pd.to_numeric] made of their Amount within the
    Amount column of those rows. *)
Definition priced (df : frame value unit value)
  : frame date period (option num) :=
  let df := assign_Month to_period (dropna_Date (dated df)) in
  set_Amount (to_numeric (map Amount df)) df.

(** The frame after line 63 (or 98): the rows whose Date and Amount both
    survived coercion. *)
Definition valid_rows (df : frame value unit value) : frame date period num :=
  dropna_Amount (priced df).

(** The row of index label [i] has a Date that failed coercion. *)
Definition date_fails (df : frame value unit value) (i : nat) : Prop :=
  exists r, In r (dated df) /\ Index r = i /\ Date r = None.

(** The row of index label [i] has an Amount that failed coercion. *)
Definition amount_fails (df : frame value unit value) (i : nat) : Prop :=
  exists r, In r (priced df) /\ Index r = i /\ Amount r = None.
End Readings.

(** Amounts of the rows of month [m]. *)
Definition amounts_in (vr : frame date period num) (m : period) : list num :=
  map Amount (filter (fun r => Z.eqb (Month r) m) vr).

(** Amounts of the rows of month [m] and category [c]. *)
Definition amounts_at (vr : frame date period num) (m : period) (c : label)
  : list num :=
  map Amount
      (filter (fun r => Z.eqb (Month r) m && category_is c (Category r)) vr).

(** Amounts of the rows of month [m] that have a category at all. *)
Definition categorised_in (vr : frame date period num) (m : period)
  : list num :=
  map Amount
      (filter (fun r => Z.eqb (Month r) m && has_category (Category r)) vr).

(** *** Sums as the specification words them: exact *)

Definition total (l : list Qc) : Qc := fold_right Qcplus 0%Qc l.

Definition finite (x : num) : bool := is_some (exact x).

Definition value_of (x : num) : Qc :=
  match exact x with
  | Some q => q
  | None => 0%Qc
  end.

(** The exact sum of numbers, when they are all finite. *)
Definition exact_total (l : list num) : option Qc :=
  if forallb finite l then Some (total (map value_of l)) else None.

(** The cell of the table is the exact sum of the Amounts of its rows. *)
Definition cell_is_exact_sum (t : pivot) (vr : frame date period num)
           (m : period) (c : label) : Prop :=
  match cell t m c with
  | Some z => exact z = exact_total (amounts_at vr m c)
  | None => False
  end.

(** pandas' sum of the group is its exact sum: no addition was rounded, none
    wrapped around. *)
Definition sums_exactly `{Pandas} (l : list num) : bool :=
  match l with
  | [] => true
  | _ =>
      match exact (group_sum l), exact_total l with
      | Some a, Some b => Qc_eq_bool a b
      | _, _ => false
      end
  end.

(** The report and the forecast agree on a file: each row of the report adds
    up to the forecaster's total of its month. *)
Definition totals_agree `{Pandas} (ls : list line) : Prop :=
  forall (t : pivot) (m : period) (cells_m : list num),
    view_report (Csv ls) = (None, Some t) ->
    table_row t m = Some cells_m ->
    exists total_m,
      find_group m (monthly_totals (read_table ls)) = Some total_m
      /\ exact total_m = exact_total cells_m.

(** One expense as the form hands it to [adds_expense]. *)
Record expense : Type := mkExpense {
  e_date : date;
  e_amount : float;
  e_category : string;
  e_description : string
}.

Section Store.
Context `{Pandas}.

(** One call of [adds_expense], keeping the file it leaves. *)
Definition append (f : file) (e : expense) : file :=
  fst (adds_expense (e_date e) (e_amount e) (e_category e)
                    (e_description e) f).

(** The calls of [adds_expense] one after the other. *)
Definition append_all (es : list expense) (f : file) : file :=
  fold_left append es f.

(** Reading the file back the way every reader of the script does:
    [pd.read_csv] if the file exists, no record otherwise. *)
Definition read_back (f : file) : result (frame value unit value) :=
  if path_exists f then read_csv f else Ok [].

(** A text [read_csv] keeps as text in whatever column it stands: not an NA
    marker, not an integer, not a float, not a boolean. *)
Definition reads_as_text (s : string) : bool :=
  negb (na_text s)
  && negb (is_some (parse_int s))
  && negb (is_some (parse_float s))
  && negb (is_some (parse_bool s)).

(** An amount whose printed form is read back as the same float. *)
Definition amount_round_trips (a : float) : bool :=
  negb (is_nan a)
  && negb (na_text (repr_float a))
  && negb (is_some (parse_int (repr_float a)))
  && match parse_float (repr_float a) with
     | Some b => PrimFloat.Leibniz.eqb b a
     | None => false
     end.

(** A valid expense: a date and a category that are kept as text, an amount
    that survives printing and reading, and a description that is free text
    or an NA marker such as the empty text. *)
Definition valid_expense (e : expense) : bool :=
  reads_as_text (isoformat (e_date e))
  && amount_round_trips (e_amount e)
  && reads_as_text (e_category e)
  && (na_text (e_description e) || reads_as_text (e_description e)).

(** The record with the values that were appended, the date as its text. *)
Definition appended (i : nat) (e : expense) : row value unit value :=
  mkRow i (Str (isoformat (e_date e))) tt (Num (Flt (e_amount e)))
        (Str (e_category e)) (Str (e_description e)).

(** The record as it is read back: a description that is an NA marker comes
    back missing. *)
Definition stored (i : nat) (e : expense) : row value unit value :=
  mkRow i (Str (isoformat (e_date e))) tt (Num (Flt (e_amount e)))
        (Str (e_category e))
        (if na_text (e_description e) then NaN
         else Str (e_description e)).

(** Appending the expenses to no file and reading back gives the appended
    records, in order, field by field. *)
Definition round_trip (es : list expense) : Prop :=
  read_back (append_all es Missing)
  = Ok (map (fun ie => appended (fst ie) (snd ie)) (enumerate es)).

(** The line of the file holds the expense. *)
Definition line_holds (l : line) (e : expense) : Prop :=
  l_Date l = isoformat (e_date e)
  /\ l_Amount l = repr_float (e_amount e)
  /\ l_Category l = e_category e
  /\ (l_Description l = e_description e
      \/ (na_text (e_description e) = true
          /\ l_Description l = EmptyString)).

(** The file holds the expenses, one line each, in order. *)
Definition file_holds (f : file) (es : list expense) : Prop :=
  match f with
  | Missing => es = []
  | Unreadable _ => False
  | Csv ls => Forall2 line_holds ls es
  end.
End Store.

(** ** The remaining budget of the current month, with the tolerance of the
    report *)

(** A sum that has met a text is a text or has failed. *)
Definition text_or_failed (acc : result value) : Prop :=
  (exists t, acc = Ok (Str t)) \/ (exists msg, acc = Raise (TypeError msg)).

(** The remaining budget as the specification words it, with the tolerance
    of the report and the forecast: the budget after savings minus the sum of
    the valid Amounts of the current month. *)
Definition tolerant_remaining_budget `{Pandas}
           (rb : float) (ls : list line) (now : date) : float :=
  (rb - to_float
          (match amounts_in (valid_rows (read_table ls)) (to_period now) with
           | [] => Int 0
           | l => group_sum l
           end))%float.

(** ** A reference instance, after pandas 2.2 *)

(** *** Texts *)

(** The default NA markers of [read_csv]. *)
Definition default_na_values : list string :=
  [EmptyString; "#N/A"; "#N/A N/A"; "#NA"; "-1.#IND"; "-1.#QNAN"; "-NaN";
   "-nan"; "1.#IND"; "1.#QNAN"; "<NA>"; "N/A"; "NA"; "NULL"; "NaN"; "None";
   "n/a"; "nan"; "null"].

Definition ref_na_text (s : string) : bool :=
  existsb (String.eqb s) default_na_values.

Definition digit_of (c : ascii) : option Z :=
  let n := nat_of_ascii c in
  if (48 <=? n)%nat && (n <=? 57)%nat then Some (Z.of_nat (n - 48)) else None.

(** Value of a run of decimal digits, read after [acc]. *)
Fixpoint digits_value (acc : Z) (cs : list ascii) : option Z :=
  match cs with
  | [] => Some acc
  | c :: rest =>
      match digit_of c with
      | Some d => digits_value (acc * 10 + d) rest
      | None => None
      end
  end.

(** White space as the C parser sees it. *)
Definition is_space (c : ascii) : bool :=
  let n := nat_of_ascii c in
  (n =? 32)%nat || ((9 <=? n)%nat && (n <=? 13)%nat).

Fixpoint skip_spaces (cs : list ascii) : list ascii :=
  match cs with
  | c :: rest => if is_space c then skip_spaces rest else cs
  | [] => []
  end.

Definition trim (cs : list ascii) : list ascii :=
  rev (skip_spaces (rev (skip_spaces cs))).

(** An optional sign in front. *)
Definition split_sign (cs : list ascii) : bool * list ascii :=
  match cs with
  | c :: rest =>
      if Ascii.eqb c "-"%char then (true, rest)
      else if Ascii.eqb c "+"%char then (false, rest)
      else (false, cs)
  | [] => (false, [])
  end.

(** The integer converter of the C parser: spaces, a sign, digits, spaces;
    a value outside int64 is not an int64. *)
Definition ref_parse_int (s : string) : option Z :=
  let (neg, body) := split_sign (trim (list_ascii_of_string s)) in
  match body with
  | [] => None
  | _ =>
      match digits_value 0 body with
      | Some n =>
          let z := if neg then (- n)%Z else n in
          if ((- 2 ^ 63 <=? z) && (z <=? 2 ^ 63 - 1))%Z then Some z else None
      | None => None
      end
  end.

(** *** The float converter of the C parser

    The digits are accumulated in a double, seventeen of them at most (a
    leading zero counts), and the result is scaled by a power of ten from a
    table of doubles. *)

Definition max_digits : nat := 17.

(** The digits before the point: beyond the seventeenth, a digit only moves
    the exponent. *)
Fixpoint integer_digits (cs : list ascii) (number : float) (num_digits : nat)
         (exponent : Z) : float * nat * Z * list ascii :=
  match cs with
  | c :: rest =>
      match digit_of c with
      | Some d =>
          if (num_digits <? max_digits)%nat
          then integer_digits rest (number * 10 + float_of_int d)%float
                              (S num_digits) exponent
          else integer_digits rest number num_digits (exponent + 1)%Z
      | None => (number, num_digits, exponent, cs)
      end
  | [] => (number, num_digits, exponent, [])
  end.

(** The digits after the point: beyond the seventeenth, a digit is dropped. *)
Fixpoint decimal_digits (cs : list ascii) (number : float) (num_digits : nat)
         (num_decimals : Z) : float * nat * Z * list ascii :=
  match cs with
  | c :: rest =>
      match digit_of c with
      | Some d =>
          if (num_digits <? max_digits)%nat
          then decimal_digits rest (number * 10 + float_of_int d)%float
                              (S num_digits) (num_decimals + 1)%Z
          else decimal_digits rest number num_digits num_decimals
      | None => (number, num_digits, num_decimals, cs)
      end
  | [] => (number, num_digits, num_decimals, [])
  end.

(** The digits of an exponent, seventeen at most. *)
Fixpoint exponent_digits (cs : list ascii) (n : Z) (num_digits : nat)
  : Z * nat * list ascii :=
  match cs with
  | c :: rest =>
      match digit_of c with
      | Some d =>
          if (num_digits <? max_digits)%nat
          then exponent_digits rest (n * 10 + d)%Z (S num_digits)
          else (n, num_digits, cs)
      | None => (n, num_digits, cs)
      end
  | [] => (n, num_digits, [])
  end.

(** An exponent part, if there is one; [None] when the letter is followed by
    no digit. *)
Definition exponent_part (cs : list ascii) : option (Z * list ascii) :=
  match cs with
  | c :: rest =>
      if Ascii.eqb c "e"%char || Ascii.eqb c "E"%char then
        let (neg, body) := split_sign rest in
        match exponent_digits body 0 O with
        | (n, O, _) => None
        | (n, _, rest') => Some (if neg then (- n)%Z else n, rest')
        end
      else Some (0%Z, cs)
  | [] => Some (0%Z, [])
  end.

(** The table of powers of ten. *)
Definition pow10 (k : Z) : float := float_of_int (10 ^ k).

Definition scale_by_pow10 (number : float) (exponent : Z) : option float :=
  if (308 <? exponent)%Z then None
  else
    let x :=
      if (0 <? exponent)%Z then (number * pow10 exponent)%float
      else if (exponent <? -308)%Z then
             if (exponent <? -616)%Z then 0%float
             else (number / pow10 (- 308 - exponent) / pow10 308)%float
           else (number / pow10 (- exponent))%float in
    if is_infinity x then None else Some x.

Definition lower (c : ascii) : ascii :=
  let n := nat_of_ascii c in
  if (65 <=? n)%nat && (n <=? 90)%nat then ascii_of_nat (n + 32) else c.

(** The names of the infinities the parser accepts. *)
Definition infinity_name (s : string) : option float :=
  let t := string_of_list_ascii (map lower (list_ascii_of_string s)) in
  if String.eqb t "inf" || String.eqb t "+inf" || String.eqb t "infinity"
     || String.eqb t "+infinity"
  then Some infinity
  else if String.eqb t "-inf" || String.eqb t "-infinity"
       then Some neg_infinity
       else None.

Definition ref_parse_float (s : string) : option float :=
  let (neg, body) := split_sign (skip_spaces (list_ascii_of_string s)) in
  let '(number, num_digits, exponent, rest) :=
    integer_digits body 0%float O 0%Z in
  let '(number, num_digits, num_decimals, rest) :=
    match rest with
    | c :: rest' =>
        if Ascii.eqb c "."%char
        then decimal_digits rest' number num_digits 0%Z
        else (number, num_digits, 0%Z, rest)
    | [] => (number, num_digits, 0%Z, [])
    end in
  let converted :=
    match num_digits with
    | O => None
    | _ =>
        match exponent_part rest with
        | Some (n, rest') =>
            match skip_spaces rest' with
            | [] =>
                scale_by_pow10 (if neg then (- number)%float else number)
                               (exponent - num_decimals + n)
            | _ => None
            end
        | None => None
        end
    end in
  match converted with
  | Some x => Some x
  | None => infinity_name s
  end.

Definition ref_parse_bool (s : string) : option bool :=
  if String.eqb s "True" || String.eqb s "TRUE" || String.eqb s "true"
  then Some true
  else if String.eqb s "False" || String.eqb s "FALSE" || String.eqb s "false"
       then Some false
       else None.

(** [pd.to_numeric] on a text: an integer if it is one, a float otherwise. *)
Definition ref_number_of_text (s : string) : option num :=
  match ref_parse_int s with
  | Some z => Some (Int z)
  | None => option_map Flt (ref_parse_float s)
  end.

(** *** Printing a float: the shortest decimal that reads back as the same
    double *)

(** The double nearest to [n / d], for positive [n] and [d]: the quotient is
    taken with enough bits and a sticky bit below them. *)
Definition nearest_ratio (n d : Z) : float :=
  let s := Z.max 0 (64 + Z.log2 d - Z.log2 n) in
  let q := (n * 2 ^ s / d)%Z in
  let r := ((n * 2 ^ s) mod d)%Z in
  let m := (2 * q + (if (r =? 0)%Z then 0 else 1))%Z in
  SF2Prim (binary_normalize prec emax m (- (s + 1)) false).

(** The double nearest to [digits * 10 ^ scale]. *)
Definition nearest_decimal (digits scale : Z) : float :=
  if (0 <=? scale)%Z then float_of_int (digits * 10 ^ scale)
  else nearest_ratio digits (10 ^ (- scale)).

Definition count_digits (n : Z) : Z := Z.of_nat (String.length (str_Z n)).

(** [10 ^ k <= n / d]. *)
Definition pow10_le (k n d : Z) : bool :=
  if (0 <=? k)%Z then (10 ^ k * d <=? n)%Z else (d <=? n * 10 ^ (- k))%Z.

(** The exponent [k] with [10 ^ k <= n / d < 10 ^ (k + 1)]. *)
Definition floor_log10 (n d : Z) : Z :=
  let k := (count_digits n - count_digits d)%Z in
  if pow10_le (k + 1) n d then (k + 1)%Z
  else if pow10_le k n d then k else (k - 1)%Z.

(** [n / d] rounded to a multiple of [10 ^ scale], in units of it. *)
Definition round_to_scale (n d scale : Z) : Z :=
  if (0 <=? scale)%Z then round_half_even n (d * 10 ^ scale)
  else round_half_even (n * 10 ^ (- scale)) d.

(** Distance from [digits * 10 ^ scale] to [n / d], up to a common factor. *)
Definition distance (n d digits scale : Z) : Z :=
  if (0 <=? scale)%Z then Z.abs (digits * 10 ^ scale * d - n)
  else Z.abs (digits * d - n * 10 ^ (- scale)).

(** Among the decimals of [p] digits next to [n / d], the nearest one that
    reads back as [x]. *)
Definition candidate (x : float) (n d k : Z) (p : nat) : option (Z * Z) :=
  let scale := (k - Z.of_nat p + 1)%Z in
  let c := round_to_scale n d scale in
  let reads_back v :=
    (0 <? v)%Z && PrimFloat.Leibniz.eqb (nearest_decimal v scale) x in
  if reads_back c then Some (c, scale)
  else
    match reads_back (c - 1)%Z, reads_back (c + 1)%Z with
    | true, true =>
        if (distance n d (c - 1) scale <=? distance n d (c + 1) scale)%Z
        then Some ((c - 1)%Z, scale) else Some ((c + 1)%Z, scale)
    | true, false => Some ((c - 1)%Z, scale)
    | false, true => Some ((c + 1)%Z, scale)
    | false, false => None
    end.

(** The shortest such decimal, looked for from [p] digits on. *)
Fixpoint shortest (fuel : nat) (x : float) (n d k : Z) (p : nat) : Z * Z :=
  match fuel with
  | O => (round_to_scale n d (k - 16), (k - 16)%Z)
  | S fuel' =>
      match candidate x n d k p with
      | Some c => c
      | None => shortest fuel' x n d k (S p)
      end
  end.

(** Digits without their trailing zeros. *)
Fixpoint strip_zeros (fuel : nat) (digits scale : Z) : Z * Z :=
  match fuel with
  | O => (digits, scale)
  | S fuel' =>
      if ((0 <? digits) && (digits mod 10 =? 0))%Z
      then strip_zeros fuel' (digits / 10)%Z (scale + 1)%Z
      else (digits, scale)
  end.

Fixpoint zeros (n : nat) : string :=
  match n with
  | O => EmptyString
  | S n' => "0" ++ zeros n'
  end.

(** The digits [ds], with the decimal point after the first [decpt] of them,
    the way [repr] lays a float out. *)
Definition lay_out (ds : string) (decpt : Z) : string :=
  let len := Z.of_nat (String.length ds) in
  if ((-4 <? decpt) && (decpt <=? 16))%Z then
    if (decpt <=? 0)%Z then "0." ++ zeros (Z.to_nat (- decpt)) ++ ds
    else if (len <=? decpt)%Z
         then ds ++ zeros (Z.to_nat (decpt - len)) ++ ".0"
         else substring 0 (Z.to_nat decpt) ds ++ "."
              ++ substring (Z.to_nat decpt) (Z.to_nat (len - decpt)) ds
  else
    substring 0 1 ds
    ++ (if (1 <? len)%Z
        then "." ++ substring 1 (Z.to_nat (len - 1)) ds
        else EmptyString)
    ++ "e" ++ (if (decpt - 1 <? 0)%Z then "-" else "+")
    ++ pad2 (Z.abs (decpt - 1)).

Definition ref_repr_float (x : float) : string :=
  match Prim2SF x with
  | S754_nan => "nan"
  | S754_infinity s => if s then "-inf" else "inf"
  | S754_zero s => if s then "-0.0" else "0.0"
  | S754_finite s m e =>
      let n := if (0 <=? e)%Z then (Zpos m * 2 ^ e)%Z else Zpos m in
      let d := if (0 <=? e)%Z then 1%Z else (2 ^ (- e))%Z in
      let k := floor_log10 n d in
      let (digits, scale) := shortest 17 (abs x) n d k 1 in
      let (digits, scale) := strip_zeros 400 digits scale in
      (if s then "-" else EmptyString)
        ++ lay_out (str_Z digits) (scale + count_digits digits)
  end.

(** *** Dates *)

Definition is_leap (y : Z) : bool :=
  ((y mod 4 =? 0) && negb (y mod 100 =? 0) || (y mod 400 =? 0))%Z.

Definition days_in_month (y m : Z) : Z :=
  if (m =? 2)%Z then (if is_leap y then 29 else 28)%Z
  else if ((m =? 4) || (m =? 6) || (m =? 9) || (m =? 11))%Z then 30%Z
  else 31%Z.

(** A day of the calendar within the years a pandas timestamp covers. *)
Definition calendar_date (y m d : Z) : option date :=
  if ((1678 <=? y) && (y <=? 2261) && (1 <=? m) && (m <=? 12)
      && (1 <=? d) && (d <=? days_in_month y m))%Z
  then Some (mkDate y m d) else None.

(** Dates written YYYY-MM-DD. *)
Definition parse_iso_date (s : string) : option date :=
  match list_ascii_of_string s with
  | [y1; y2; y3; y4; s1; m1; m2; s2; d1; d2] =>
      if Ascii.eqb s1 "-"%char && Ascii.eqb s2 "-"%char then
        match digits_value 0 [y1; y2; y3; y4],
              digits_value 0 [m1; m2], digits_value 0 [d1; d2] with
        | Some y, Some m, Some d => calendar_date y m d
        | _, _, _ => None
        end
      else None
  | _ => None
  end.

(** Dates written MM/DD/YYYY. *)
Definition parse_us_date (s : string) : option date :=
  match list_ascii_of_string s with
  | [m1; m2; s1; d1; d2; s2; y1; y2; y3; y4] =>
      if Ascii.eqb s1 "/"%char && Ascii.eqb s2 "/"%char then
        match digits_value 0 [y1; y2; y3; y4],
              digits_value 0 [m1; m2], digits_value 0 [d1; d2] with
        | Some y, Some m, Some d => calendar_date y m d
        | _, _, _ => None
        end
      else None
  | _ => None
  end.

(** Nanoseconds in a day. *)
Definition day_ns : Z := 86400000000000.

(** The day of the calendar that lies [z] days after 1970-01-01. *)
Definition date_of_days (z : Z) : date :=
  let z := (z + 719468)%Z in
  let era := (z / 146097)%Z in
  let doe := (z - era * 146097)%Z in
  let yoe := ((doe - doe / 1460 + doe / 36524 - doe / 146096) / 365)%Z in
  let doy := (doe - (365 * yoe + yoe / 4 - yoe / 100))%Z in
  let mp := ((5 * doy + 2) / 153)%Z in
  let d := (doy - (153 * mp + 2) / 5 + 1)%Z in
  let m := if (mp <? 10)%Z then (mp + 3)%Z else (mp - 9)%Z in
  let y := (yoe + era * 400 + (if (m <=? 2)%Z then 1 else 0))%Z in
  mkDate y m d.

(** A number counts nanoseconds from 1970-01-01; what an int64 cannot hold
    is out of bounds. *)
Definition date_of_ns (ns : Z) : option date :=
  if ((- 2 ^ 63 <? ns) && (ns <? 2 ^ 63))%Z
  then Some (date_of_days (ns / day_ns)) else None.

Inductive date_format : Type := year_first | month_first.

(** The format [pd.to_datetime] guesses from one text. *)
Definition guess_format (s : string) : option date_format :=
  if is_some (parse_iso_date s) then Some year_first
  else if is_some (parse_us_date s) then Some month_first
  else None.

(** One element, under the format of the column; without a format each text
    is read on its own. *)
Definition ref_datetime (fmt : option date_format) (v : value) : option date :=
  match v with
  | Str s =>
      match fmt with
      | Some year_first => parse_iso_date s
      | Some month_first => parse_us_date s
      | None =>
          match parse_iso_date s with
          | Some d => Some d
          | None => parse_us_date s
          end
      end
  | Num (Int z) => date_of_ns z
  | Num (Flt f) =>
      match SF_exact (Prim2SF f) with
      | Some q => date_of_ns (Qnum q / Zpos (Qden q))
      | None => None
      end
  | DateObj d => calendar_date (year d) (month d) (day d)
  | NaN => None
  | Bool _ => None
  end.

Definition not_missing (v : value) : bool :=
  match v with
  | NaN => false
  | _ => true
  end.

(** The column: the format is guessed from the first cell that is not
    missing, and every cell is read under it. *)
Definition ref_to_datetime (col : list value) : list (option date) :=
  let fmt := match find not_missing col with
             | Some (Str s) => guess_format s
             | _ => None
             end in
  map (ref_datetime fmt) col.

(** *** Sums and means *)

(** One step of the compensated summation of [groupby(...).sum()]. *)
Definition kahan_step (st : float * float) (val : float) : float * float :=
  let (sumx, compensation) := st in
  let y := (val - compensation)%float in
  let t := (sumx + y)%float in
  let c := (t - sumx - y)%float in
  (t, if is_nan c then 0%float else c).

Definition int_of (x : num) : Z :=
  match x with
  | Int z => z
  | Flt _ => 0%Z
  end.

(** int64 groups wrap around; float64 groups are added with compensation. *)
Definition ref_group_sum (l : list num) : num :=
  if forallb is_Int l
  then Int (fold_left (fun acc x => wrap_int64 (acc + int_of x)) l 0%Z)
  else Flt (fst (fold_left kahan_step (map to_float l) (0%float, 0%float))).

Definition add_all (acc : float) (l : list float) : float :=
  fold_left PrimFloat.add l acc.

(** Eight running sums over the blocks of eight of a list, and what is left
    over. *)
Fixpoint eight_lanes (fuel : nat) (r l : list float)
  : list float * list float :=
  match fuel with
  | O => (r, l)
  | S fuel' =>
      if (8 <=? List.length l)%nat
      then eight_lanes fuel'
                       (map (fun ab => (fst ab + snd ab)%float)
                            (combine r (firstn 8 l)))
                       (skipn 8 l)
      else (r, l)
  end.

(** The pairwise summation of numpy. *)
Fixpoint pairwise_sum (fuel : nat) (l : list float) : float :=
  let n := List.length l in
  if (n <? 8)%nat then add_all 0%float l
  else if (n <=? 128)%nat then
         match eight_lanes n (firstn 8 l) (skipn 8 l) with
         | ([r0; r1; r2; r3; r4; r5; r6; r7], rest) =>
             add_all ((r0 + r1) + (r2 + r3) + ((r4 + r5) + (r6 + r7)))%float
                     rest
         | (_, _) => nan
         end
       else
         match fuel with
         | O => nan
         | S fuel' =>
             let n2 := (n / 2 - (n / 2) mod 8)%nat in
             (pairwise_sum fuel' (firstn n2 l)
              + pairwise_sum fuel' (skipn n2 l))%float
         end.

(** int64 series wrap around; float64 series are added pairwise. *)
Definition ref_series_total (l : list num) : num :=
  if forallb is_Int l
  then Int (fold_left (fun acc x => wrap_int64 (acc + int_of x)) l 0%Z)
  else Flt (pairwise_sum (List.length l) (map to_float l)).

(** The sum of the values as doubles, over their count. *)
Definition ref_series_mean (l : list num) : float :=
  (pairwise_sum (List.length l) (map to_float l)
   / float_of_int (Z.of_nat (List.length l)))%float.

Definition ReferencePandas : Pandas := {|
  na_text := ref_na_text;
  parse_int := ref_parse_int;
  parse_float := ref_parse_float;
  parse_bool := ref_parse_bool;
  repr_float := ref_repr_float;
  to_datetime := ref_to_datetime;
  to_datetime_length := fun col => length_map _ col;
  number_of_text := ref_number_of_text;
  group_sum := ref_group_sum;
  series_total := ref_series_total;
  series_mean := ref_series_mean
|}.

(** ** Files and expenses of the examples *)

Definition jan15 : date := mkDate 2024 1 15.
Definition feb03 : date := mkDate 2024 2 3.
Definition feb10 : date := mkDate 2024 2 10.

(** A file with two good rows, a row with a bad date and a row with a bad
    amount. *)
Definition mixed_lines : list line :=
  [mkLine "2024-01-15" "100" "Food" "lunch";
   mkLine "2024-02-03" "300" "Rent" "flat";
   mkLine "not-a-date" "5" "Food" "x";
   mkLine "2024-02-04" "abc" "Food" "y"].

(** A file whose second row has no category. *)
Definition uncategorised_lines : list line :=
  [mkLine "2024-01-15" "10" "Food" "lunch";
   mkLine "2024-01-20" "5" EmptyString "cash"].

(** A file of good rows only: 100 in one month, 300 in the next. *)
Definition clean_lines : list line :=
  [mkLine "2024-01-15" "100" "Food" "lunch";
   mkLine "2024-02-03" "300" "Rent" "flat"].

(** One month, one category, amounts 0.1 and 0.2. *)
Definition tenths_lines : list line :=
  [mkLine "2024-01-15" "0.1" "Food" "bread";
   mkLine "2024-01-20" "0.2" "Food" "milk"].

(** One month, amounts 0.1 and 0.025. *)
Definition one_month_lines : list line :=
  [mkLine "2024-01-15" "0.1" "Food" "bread";
   mkLine "2024-01-20" "0.025" "Food" "salt"].

(** Two rows of January and one of February, in three categories. *)
Definition three_rows_lines : list line :=
  [mkLine "2024-01-15" "0.1" "Food" "bread";
   mkLine "2024-02-03" "300" "Rent" "flat";
   mkLine "2024-01-20" "0.025" "Bills" "stamp"].

(** One month, 0.1 and 0.4 of Food around 0.1 of Rent. *)
Definition rounding_lines : list line :=
  [mkLine "2024-01-15" "0.1" "Food" "bread";
   mkLine "2024-01-16" "0.1" "Rent" "key";
   mkLine "2024-01-17" "0.4" "Food" "milk"].

(** One month, one category, the largest int64 and 1. *)
Definition wrapping_lines : list line :=
  [mkLine "2024-01-15" "9223372036854775807" "Food" "feast";
   mkLine "2024-01-20" "1" "Food" "mint"].

(** A first row dated month first, with a bad amount, before two rows dated
    year first. *)
Definition month_first_lines : list line :=
  [mkLine "02/03/2024" "abc" "Food" "x";
   mkLine "2024-01-15" "100" "Food" "lunch";
   mkLine "2024-02-03" "300" "Rent" "flat"].

(** A row dated month first before a row dated year first. *)
Definition two_formats_lines : list line :=
  [mkLine "02/03/2024" "300" "Rent" "flat";
   mkLine "2024-01-15" "100" "Food" "lunch"].

Definition lunch : expense := mkExpense jan15 12.5 "Food" "lunch".
Definition undescribed : expense := mkExpense feb03 300 "Rent" EmptyString.

(** An expense of 0.1 + 0.2, a double with seventeen significant digits. *)
Definition three_tenths : expense :=
  mkExpense jan15 0.30000000000000004 "Food" "snack".

Definition salary : sidebar := mkSidebar 120000 500.

(** ** Vocabulary of the further properties *)

(** The line [to_csv] writes for a new expense. *)
Definition expense_line `{Pandas} (e : expense) : line :=
  mkLine (isoformat (e_date e))
         (if is_nan (e_amount e) then EmptyString
          else repr_float (e_amount e))
         (e_category e) (e_description e).

(** What rewriting the file does to the text of one field of an older row: an
    NA marker becomes the empty field, a text that reads as text stays. *)
Definition rewritten `{Pandas} (old new : string) : Prop :=
  (na_text old = true -> new = EmptyString)
  /\ (reads_as_text old = true -> new = old).

(** The column was read as numbers. *)
Definition numeric_dtype (t : dtype) : bool :=
  match t with
  | int64 => true
  | float64 => true
  | _ => false
  end.

(** A cell of a numeric column. *)
Definition number_or_missing (v : value) : Prop :=
  v = NaN \/ exists x, v = Num x.

(** The Amounts of the rows of a frame just read whose Date, within the Date
    column, is read as a date of the month of [now]. *)
Definition current_month_amounts `{Pandas}
           (df : frame value unit value) (now : date) : list value :=
  map Amount
      (filter (fun r =>
                 match Date r with
                 | Some d => Z.eqb (to_period d) (to_period now)
                 | None => false
                 end) (dated df)).

(** The number a text of decimal digits denotes; [None] on any other text. *)
Definition digits_Z (s : string) : option Z :=
  option_map Z.of_uint (NilEmpty.uint_of_string s).

(** ** The three tabs *)

(** [s.startswith(p)]. *)
Fixpoint starts_with (p s : string) : bool :=
  match p, s with
  | EmptyString, _ => true
  | String _ _, EmptyString => false
  | String a p', String b s' => Ascii.eqb a b && starts_with p' s'
  end.

(** Python's [needle in hay] on two strings. *)
Fixpoint contains (needle hay : string) : bool :=
  starts_with needle hay
  || match hay with
     | EmptyString => false
     | String _ rest => contains needle rest
     end.

(** The character occurs in the string. *)
Fixpoint has_char (c : ascii) (s : string) : bool :=
  match s with
  | EmptyString => false
  | String b rest => Ascii.eqb c b || has_char c rest
  end.

(** Truth value of [error], which is [None] or a string. *)
Definition truthy (error : option string) : bool :=
  match error with
  | Some (String _ _) => true
  | _ => false
  end.

(** What a tab shows: the widgets of the budget blocks and three more. *)
Inductive element : Type :=
| shown (w : widget)
| st_write (s : string)
| st_dataframe (report : option pivot)
| st_info (s : string).

Section Tabs.
Context `{Pandas}.

(** Lines 145 to 177; [pressed] is what [st.button] returns and [e] holds the
    values of the four input widgets.  The result is the file afterwards and
    what the tab shows. *)
Definition add_expense_tab (pressed : bool) (e : expense) (f : file)
  : file * list widget :=
  if pressed then
    let (f', message) :=
      adds_expense (e_date e) (e_amount e) (e_category e)
                   (e_description e) f in
    (f', [st_header "Add a New Expense";
          if contains "successfully" message
          then st_success message else st_error message])
  else (f, [st_header "Add a New Expense"]).

(** Lines 179 to 192. *)
Definition view_report_tab (f : file) : list element :=
  shown (st_header "Monthly Expense Report")
  :: try_except
       (let (error, report) := view_report f in
        if truthy error
        then Ok [shown (st_warning (match error with
                                    | Some s => s
                                    | None => EmptyString
                                    end))]
        else Ok [st_write "Here is your monthly report:";
                 st_dataframe report])
       (fun e =>
          [shown (st_error ("An error occurred while generating the report: "
                            ++ str_exn e))]).

(** Lines 194 to 206. *)
Definition predict_expenses_tab (f : file) : list element :=
  shown (st_header "Predict Next Month's Expenses")
  :: try_except
       (let prediction := predict_the_next_month f in
        if contains "Error" prediction
        then Ok [shown (st_error prediction)]
        else Ok [st_info prediction])
       (fun e =>
          [shown (st_error ("An error occurred while predicting expenses: "
                            ++ str_exn e))]).
End Tabs.

(** * Properties *)

(** ** Laws of the key orders *)

#[export] Instance period_laws : KeyLaws period.
Proof.
  split; unfold key_compare, period_order, period.
  - intros a b. apply Z.compare_eq_iff.
  - intros a b. apply Z.compare_antisym.
  - intros a b c Hab Hbc. rewrite Z.compare_lt_iff in *. lia.
Qed.

Lemma ascii_compare_refl (c : ascii) : Ascii.compare c c = Eq.
Proof. unfold Ascii.compare. apply N.compare_refl. Qed.

Lemma ascii_compare_trans (a b c : ascii) :
  Ascii.compare a b = Lt -> Ascii.compare b c = Lt -> Ascii.compare a c = Lt.
Proof.
  unfold Ascii.compare. rewrite !N.compare_lt_iff. intros. lia.
Qed.

Lemma string_compare_refl (s : string) : String.compare s s = Eq.
Proof.
  induction s as [|c s IH]; simpl; [reflexivity|].
  now rewrite ascii_compare_refl.
Qed.

Lemma string_compare_trans (s t u : string) :
  String.compare s t = Lt -> String.compare t u = Lt -> String.compare s u = Lt.
Proof.
  revert t u. induction s as [|a s IH]; intros [|b t] [|c u]; simpl;
    try congruence.
  destruct (Ascii.compare a b) eqn:Hab; try discriminate;
    destruct (Ascii.compare b c) eqn:Hbc; try discriminate; intros Hst Htu.
  - apply Ascii.compare_eq_iff in Hab, Hbc. subst.
    rewrite ascii_compare_refl. eauto.
  - apply Ascii.compare_eq_iff in Hab. subst. now rewrite Hbc.
  - apply Ascii.compare_eq_iff in Hbc. subst. now rewrite Hab.
  - now rewrite (ascii_compare_trans _ _ _ Hab Hbc).
Qed.

#[export] Instance label_laws : KeyLaws label.
Proof.
  split; unfold key_compare, label_order.
  - intros [x|[|]|[|]|s] [y|[|]|[|]|t]; cbn;
      (split; intros Hx; try reflexivity; try discriminate Hx).
    + apply Qceq_alt in Hx. now subst.
    + injection Hx as ->. now apply Qceq_alt.
    + apply String.compare_eq_iff in Hx. now subst.
    + injection Hx as ->. apply string_compare_refl.
  - intros [x|[|]|[|]|s] [y|[|]|[|]|t]; cbn; try reflexivity.
    + unfold Qccompare. symmetry. apply Qcompare_antisym.
    + apply String.compare_antisym.
  - intros [x|[|]|[|]|s] [y|[|]|[|]|t] [z|[|]|[|]|u]; cbn;
      intros Hab Hbc; try reflexivity; try discriminate Hab;
      try discriminate Hbc.
    + rewrite <- Qclt_alt in *. eapply Qclt_trans; eauto.
    + eapply string_compare_trans; eauto.
Qed.

#[export] Instance pair_laws {A B : Type} `{KeyLaws A} `{KeyLaws B}
  : KeyLaws (A * B).
Proof.
  split; unfold key_compare, pair_order.
  - intros [a1 b1] [a2 b2]; simpl. split.
    + destruct (key_compare a1 a2) eqn:Ha; try discriminate.
      intros Hb. apply key_eq in Ha, Hb. now subst.
    + intros [= -> ->]. rewrite (proj2 (key_eq a2 a2) eq_refl).
      now apply key_eq.
  - intros [a1 b1] [a2 b2]; simpl.
    rewrite (key_antisym a1 a2). destruct (key_compare a1 a2); simpl; auto.
    apply key_antisym.
  - intros [a1 b1] [a2 b2] [a3 b3]; simpl.
    destruct (key_compare a1 a2) eqn:H12; try discriminate;
      destruct (key_compare a2 a3) eqn:H23; try discriminate; intros Hb1 Hb2.
    + apply key_eq in H12, H23. subst.
      rewrite (proj2 (key_eq a3 a3) eq_refl). eauto using key_trans.
    + apply key_eq in H12. subst. now rewrite H23.
    + apply key_eq in H23. subst. now rewrite H12.
    + now rewrite (key_trans _ _ _ H12 H23).
Qed.

(** ** Facts about grouping *)

Section GroupingFacts.
Context {K V : Type} `{KeyLaws K}.

Lemma key_refl (a : K) : key_compare a a = Eq.
Proof. now apply key_eq. Qed.

Lemma key_gt_lt (a b : K) : key_compare a b = Gt -> key_compare b a = Lt.
Proof. intros Hab. rewrite (key_antisym a b), Hab. reflexivity. Qed.

Lemma key_eqb_eq (a b : K) : key_eqb a b = true <-> a = b.
Proof.
  unfold key_eqb. rewrite <- key_eq.
  destruct (key_compare a b); split; congruence.
Qed.

Lemma key_eqb_refl (a : K) : key_eqb a a = true.
Proof. now apply key_eqb_eq. Qed.

Lemma key_eqb_neq (a b : K) : key_eqb a b = false <-> a <> b.
Proof.
  rewrite <- key_eqb_eq. destruct (key_eqb a b); split; congruence.
Qed.

Lemma keys_sorted_NoDup (keys : list K) : keys_sorted keys -> NoDup keys.
Proof.
  induction 1 as [|k keys Hs IH Hall]; constructor; auto.
  intros Hin. rewrite Forall_forall in Hall.
  specialize (Hall _ Hin). rewrite key_refl in Hall. discriminate.
Qed.

(** *** collect *)

Lemma collect_keys (P : K -> Prop) k (v : V) groups :
  P k -> Forall P (map fst groups) ->
  Forall P (map fst (collect k v groups)).
Proof.
  intros Hk. induction groups as [|[k' vs] rest IH]; simpl; intros Hall.
  - auto.
  - inversion Hall; subst.
    destruct (key_compare k k'); simpl; auto.
Qed.

Lemma collect_sorted k (v : V) groups :
  keys_sorted (map fst groups) -> keys_sorted (map fst (collect k v groups)).
Proof.
  unfold keys_sorted.
  induction groups as [|[k' vs] rest IH]; simpl; intros Hs.
  - repeat constructor.
  - inversion Hs as [|? ? Hrest Hall]; subst.
    destruct (key_compare k k') eqn:Hc; simpl.
    + constructor; auto.
    + constructor; auto. constructor; auto.
      eapply Forall_impl; [|exact Hall]. simpl. intros x Hx.
      eapply key_trans; eauto.
    + constructor; auto.
      apply collect_keys; auto. now apply key_gt_lt.
Qed.

Lemma find_group_below {W : Type} k (groups : list (K * W)) :
  Forall (fun x => key_compare k x = Lt) (map fst groups) ->
  find_group k groups = None.
Proof.
  induction groups as [|[k' v'] rest IH]; simpl; intros Hall; auto.
  inversion Hall as [|? ? Hk Hrest]; subst. simpl in Hk. rewrite Hk. auto.
Qed.

Lemma find_collect k k' (v : V) groups :
  keys_sorted (map fst groups) ->
  find_group k (collect k' v groups)
  = if key_eqb k k' then extend (find_group k groups) [v]
    else find_group k groups.
Proof.
  unfold keys_sorted.
  induction groups as [|[k0 vs] rest IH]; simpl; intros Hs.
  - unfold key_eqb. destruct (key_compare k k'); reflexivity.
  - inversion Hs as [|? ? Hrest Hall]; subst.
    destruct (key_compare k' k0) eqn:Hc; simpl.
    + apply key_eq in Hc. subst k0. unfold key_eqb.
      destruct (key_compare k k'); reflexivity.
    + destruct (key_eqb k k') eqn:Hkk.
      * apply key_eqb_eq in Hkk. subst k'. rewrite key_refl, Hc.
        rewrite find_group_below; [reflexivity|].
        eapply Forall_impl; [|exact Hall]. simpl. intros x Hx.
        eapply key_trans; eauto.
      * unfold key_eqb in Hkk. destruct (key_compare k k'); congruence.
    + rewrite (IH Hrest).
      destruct (key_eqb k k') eqn:Hkk.
      * apply key_eqb_eq in Hkk. subst k'. now rewrite Hc.
      * reflexivity.
Qed.

(** *** groupby *)

Lemma fold_collect_sorted (rows : list (K * V)) groups :
  keys_sorted (map fst groups) ->
  keys_sorted
    (map fst (fold_left (fun g kv => collect (fst kv) (snd kv) g)
                        rows groups)).
Proof.
  revert groups. induction rows as [|kv rows IH]; simpl; intros groups Hs.
  - exact Hs.
  - apply IH. now apply collect_sorted.
Qed.

Lemma groupby_sorted (rows : list (K * V)) :
  keys_sorted (map fst (groupby rows)).
Proof. apply fold_collect_sorted. constructor. Qed.

Lemma extend_extend (old : option (list V)) l1 l2 :
  extend (extend old l1) l2 = extend old (l1 ++ l2).
Proof.
  destruct old as [a|], l1 as [|x l1], l2 as [|y l2]; simpl;
    rewrite ?app_nil_r, <- ?app_assoc; reflexivity.
Qed.

Lemma find_fold_collect k (rows : list (K * V)) groups :
  keys_sorted (map fst groups) ->
  find_group k (fold_left (fun g kv => collect (fst kv) (snd kv) g)
                          rows groups)
  = extend (find_group k groups) (amounts_of k rows).
Proof.
  revert groups. induction rows as [|[k' v] rows IH]; simpl; intros groups Hs.
  - unfold amounts_of. simpl. destruct (find_group k groups); simpl; auto.
    now rewrite app_nil_r.
  - rewrite IH by now apply collect_sorted.
    rewrite find_collect by assumption.
    unfold amounts_of. simpl.
    destruct (key_eqb k k'); simpl; auto.
    apply extend_extend.
Qed.

(** The group of a key holds the values of the rows under that key, in the
    order of the rows. *)
Lemma find_groupby k (rows : list (K * V)) :
  find_group k (groupby rows)
  = match amounts_of k rows with
    | [] => None
    | l => Some l
    end.
Proof.
  unfold groupby. rewrite find_fold_collect by constructor.
  simpl. destruct (amounts_of k rows); reflexivity.
Qed.

Lemma find_aggregate {W : Type} (f : list V -> W) k
      (groups : list (K * list V)) :
  find_group k (aggregate f groups) = option_map f (find_group k groups).
Proof.
  induction groups as [|[k' vs] rest IH]; simpl; [reflexivity|].
  destruct (key_compare k k'); auto.
Qed.

Lemma aggregate_keys {W : Type} (f : list V -> W)
      (groups : list (K * list V)) :
  map fst (aggregate f groups) = map fst groups.
Proof. unfold aggregate. rewrite map_map. reflexivity. Qed.

Lemma find_group_In {W : Type} k (v : W) (groups : list (K * W)) :
  keys_sorted (map fst groups) ->
  (In (k, v) groups <-> find_group k groups = Some v).
Proof.
  unfold keys_sorted.
  induction groups as [|[k' v'] rest IH]; simpl; intros Hs.
  - split; [tauto | discriminate].
  - inversion Hs as [|? ? Hrest Hall]; subst.
    destruct (key_compare k k') eqn:Hc.
    + apply key_eq in Hc. subst k'. split.
      * intros [[= ->]|Hin]; auto.
        exfalso. rewrite Forall_forall in Hall.
        specialize (Hall k (in_map fst _ _ Hin)).
        rewrite key_refl in Hall. discriminate.
      * intros [= ->]. auto.
    + rewrite <- (IH Hrest). split; auto.
      intros [[= -> ->]|Hin]; auto.
      rewrite key_refl in Hc. discriminate.
    + rewrite <- (IH Hrest). split; auto.
      intros [[= -> ->]|Hin]; auto.
      rewrite key_refl in Hc. discriminate.
Qed.

Lemma amounts_of_nil k (rows : list (K * V)) :
  amounts_of k rows = [] <-> ~ In k (map fst rows).
Proof.
  unfold amounts_of. induction rows as [|[k' v] rows IH]; simpl.
  - tauto.
  - destruct (key_eqb k k') eqn:Hkk; simpl.
    + apply key_eqb_eq in Hkk. subst. split; [discriminate | tauto].
    + apply key_eqb_neq in Hkk. rewrite IH. split.
      * intros Hn [He|Hin]; auto.
      * tauto.
Qed.

Lemma amounts_of_occurs k (rows : list (K * V)) :
  amounts_of k rows <> [] -> In k (map fst rows).
Proof.
  unfold amounts_of. induction rows as [|[k' v] rows IH]; simpl.
  - congruence.
  - destruct (key_eqb k k') eqn:Hkk; simpl; auto.
    apply key_eqb_eq in Hkk. auto.
Qed.

(** The groups are those of the keys that occur. *)
Lemma groupby_keys k (rows : list (K * V)) :
  In k (map fst (groupby rows)) <-> In k (map fst rows).
Proof.
  split.
  - intros Hin. apply in_map_iff in Hin. destruct Hin as [[k' v] [Hk Hin]].
    simpl in Hk. subst k'.
    apply find_group_In in Hin; [|apply groupby_sorted].
    rewrite find_groupby in Hin.
    apply amounts_of_occurs. intros Ha. rewrite Ha in Hin. discriminate.
  - intros Hin.
    destruct (find_group k (groupby rows)) as [v|] eqn:Hf.
    + apply find_group_In in Hf; [|apply groupby_sorted].
      apply in_map_iff. exists (k, v). auto.
    + rewrite find_groupby in Hf.
      destruct (amounts_of k rows) eqn:Ha; [|discriminate].
      apply amounts_of_nil in Ha. tauto.
Qed.
End GroupingFacts.

Section KeyListFacts.
Context {K : Type} `{KeyLaws K}.

Lemma insert_key_In x k (keys : list K) :
  In x (insert_key k keys) <-> x = k \/ In x keys.
Proof.
  induction keys as [|k' rest IH]; simpl.
  - intuition.
  - destruct (key_compare k k') eqn:Hc; simpl.
    + apply key_eq in Hc. subst. intuition.
    + intuition.
    + rewrite IH. intuition.
Qed.

Lemma insert_key_sorted k (keys : list K) :
  keys_sorted keys -> keys_sorted (insert_key k keys).
Proof.
  unfold keys_sorted. induction keys as [|k' rest IH]; simpl; intros Hs.
  - repeat constructor.
  - inversion Hs as [|? ? Hrest Hall]; subst.
    destruct (key_compare k k') eqn:Hc.
    + exact Hs.
    + constructor; auto. constructor; auto.
      eapply Forall_impl; [|exact Hall]. simpl. intros x Hx.
      eapply key_trans; eauto.
    + constructor; auto. apply Forall_forall. intros x Hx.
      apply insert_key_In in Hx. destruct Hx as [->|Hx].
      * now apply key_gt_lt.
      * rewrite Forall_forall in Hall. auto.
Qed.

Lemma sorted_keys_spec (keys : list K) :
  keys_sorted (sorted_keys keys)
  /\ forall x, In x (sorted_keys keys) <-> In x keys.
Proof.
  unfold sorted_keys.
  assert (Hgen : forall acc,
             keys_sorted acc ->
             keys_sorted (fold_left (fun a k => insert_key k a) keys acc)
             /\ forall x, In x (fold_left (fun a k => insert_key k a) keys acc)
                          <-> In x acc \/ In x keys).
  { induction keys as [|k keys IH]; simpl; intros acc Hs.
    - split; auto. intuition.
    - destruct (IH (insert_key k acc) (insert_key_sorted k acc Hs))
        as [Hsorted Hin].
      split; auto. intros x. rewrite Hin, insert_key_In. intuition. }
  destruct (Hgen [] ltac:(constructor)) as [Hs Hin].
  split; auto. intros x. rewrite Hin. simpl. intuition.
Qed.

Lemma sorted_keys_sorted (keys : list K) : keys_sorted (sorted_keys keys).
Proof. apply sorted_keys_spec. Qed.

Lemma sorted_keys_In x (keys : list K) :
  In x (sorted_keys keys) <-> In x keys.
Proof. apply sorted_keys_spec. Qed.

Lemma sorted_keys_NoDup (keys : list K) : NoDup (sorted_keys keys).
Proof. apply keys_sorted_NoDup, sorted_keys_sorted. Qed.

Lemma position_In k (keys : list K) :
  In k keys -> exists i, position k keys = Some i.
Proof.
  induction keys as [|k' rest IH]; simpl; [tauto|].
  intros Hin. destruct (key_compare k k') eqn:Hc; eauto.
  - destruct Hin as [->|Hin]; [rewrite key_refl in Hc; discriminate|].
    destruct (IH Hin) as [i ->]. simpl. eauto.
  - destruct Hin as [->|Hin]; [rewrite key_refl in Hc; discriminate|].
    destruct (IH Hin) as [i ->]. simpl. eauto.
Qed.

Lemma position_nth k (keys : list K) i :
  position k keys = Some i -> nth_error keys i = Some k.
Proof.
  revert i. induction keys as [|k' rest IH]; simpl; intros i; [discriminate|].
  destruct (key_compare k k') eqn:Hc.
  - intros [= <-]. apply key_eq in Hc. now subst.
  - destruct (position k rest); simpl; [|discriminate].
    intros [= <-]. simpl. auto.
  - destruct (position k rest); simpl; [|discriminate].
    intros [= <-]. simpl. auto.
Qed.
End KeyListFacts.

(** ** Facts about the table *)

Lemma table_row_unstack fill groups m :
  In m (index (unstack fill groups)) ->
  table_row (unstack fill groups) m
  = Some (map (cell_value fill groups m) (columns (unstack fill groups))).
Proof.
  unfold table_row, unstack. simpl. intros Hin.
  destruct (position_In _ _ Hin) as [i Hi]. rewrite Hi.
  apply position_nth in Hi.
  rewrite nth_error_map, Hi. reflexivity.
Qed.

Lemma cell_unstack fill groups m c :
  In m (index (unstack fill groups)) ->
  In c (columns (unstack fill groups)) ->
  cell (unstack fill groups) m c = Some (cell_value fill groups m c).
Proof.
  intros Hm Hc. pose proof (table_row_unstack fill groups m Hm) as Hrow.
  unfold table_row in Hrow. unfold cell.
  destruct (position m (index (unstack fill groups))) as [i|]; [|discriminate].
  destruct (position_In _ _ Hc) as [j Hj]. rewrite Hj, Hrow.
  apply position_nth in Hj.
  rewrite nth_error_map, Hj. reflexivity.
Qed.

(** ** Sums of groups *)

Section SumFacts.
Context `{Pandas} {K : Type} `{KeyLaws K}.

(** The sum of a group is pandas' sum of the Amounts under its key, in the
    order of the rows. *)
Lemma find_groupby_sum (k : K) (rows : list (K * num)) :
  find_group k (groupby_sum rows)
  = match amounts_of k rows with
    | [] => None
    | l => Some (group_sum l)
    end.
Proof.
  unfold groupby_sum. rewrite find_aggregate, find_groupby.
  destruct (amounts_of k rows); reflexivity.
Qed.

Lemma groupby_sum_sorted (rows : list (K * num)) :
  keys_sorted (map fst (groupby_sum rows)).
Proof. unfold groupby_sum. rewrite aggregate_keys. apply groupby_sorted. Qed.

Lemma groupby_sum_keys (k : K) (rows : list (K * num)) :
  In k (map fst (groupby_sum rows)) <-> In k (map fst rows).
Proof. unfold groupby_sum. rewrite aggregate_keys. apply groupby_keys. Qed.
End SumFacts.

(** ** The rows the report and the forecast are computed from *)

Lemma label_eqb_eq (a b : label) : label_eqb a b = true <-> a = b.
Proof.
  destruct a as [x|x|x|s], b as [y|y|y|t]; simpl; split; try congruence.
  - intros Hq. apply Qc_eq_bool_correct in Hq. now subst.
  - intros [= ->]. unfold Qc_eq_bool. destruct (Qc_eq_dec y y); congruence.
  - intros Hb. apply Bool.eqb_prop in Hb. now subst.
  - intros [= ->]. apply Bool.eqb_reflx.
  - intros Hb. apply Bool.eqb_prop in Hb. now subst.
  - intros [= ->]. apply Bool.eqb_reflx.
  - intros Hs. apply String.eqb_eq in Hs. now subst.
  - intros [= ->]. apply String.eqb_refl.
Qed.

Lemma period_key_eqb (a b : period) : key_eqb a b = Z.eqb b a.
Proof.
  unfold key_eqb, key_compare, period_order.
  destruct (Z.compare_spec a b), (Z.eqb_spec b a); auto; lia.
Qed.

Lemma label_key_eqb (a b : label) : key_eqb a b = label_eqb b a.
Proof.
  destruct (label_eqb b a) eqn:Hl.
  - apply label_eqb_eq in Hl. subst. apply key_eqb_refl.
  - apply key_eqb_neq. intros ->.
    rewrite (proj2 (label_eqb_eq b b) eq_refl) in Hl. discriminate.
Qed.

Lemma pair_key_eqb (m m' : period) (c c' : label) :
  key_eqb (m, c) (m', c') = Z.eqb m' m && label_eqb c' c.
Proof.
  rewrite <- period_key_eqb, <- label_key_eqb.
  unfold key_eqb at 1. unfold key_compare at 1. unfold pair_order. simpl.
  unfold key_eqb. destruct (key_compare m m'); reflexivity.
Qed.

Section PipelineFacts.
Context `{Pandas}.

(** Both functions work on the rows whose Date and Amount survived. *)
Lemma report_table_valid (df : frame value unit value) :
  report_table df
  = unstack (zero_like
               (map snd (groupby_sum (by_Month_Category (valid_rows df)))))
            (groupby_sum (by_Month_Category (valid_rows df))).
Proof. reflexivity. Qed.

Lemma monthly_totals_valid (df : frame value unit value) :
  monthly_totals df = groupby_sum (by_Month (valid_rows df)).
Proof. reflexivity. Qed.
End PipelineFacts.

Lemma amounts_of_by_Month {D : Type} (vr : frame D period num) (m : period) :
  amounts_of m (by_Month vr)
  = map Amount (filter (fun r => Z.eqb (Month r) m) vr).
Proof.
  unfold amounts_of, by_Month, period in *.
  induction vr as [|r vr IH]; simpl; [reflexivity|].
  rewrite period_key_eqb.
  destruct (Z.eqb (Month r) m); cbn [map snd]; now rewrite IH.
Qed.

Lemma amounts_of_by_Month_Category {D : Type} (vr : frame D period num)
      (m : period) (c : label) :
  amounts_of (m, c) (by_Month_Category vr)
  = map Amount
        (filter (fun r => Z.eqb (Month r) m && category_is c (Category r)) vr).
Proof.
  unfold amounts_of, by_Month_Category, category_is, period in *.
  induction vr as [|r vr IH]; simpl; [reflexivity|].
  destruct (group_key (Category r)) as [c'|]; simpl.
  - rewrite pair_key_eqb.
    destruct (Z.eqb (Month r) m && label_eqb c' c); cbn [map snd];
      now rewrite IH.
  - rewrite andb_false_r. exact IH.
Qed.

Lemma by_Month_Category_keys {D : Type} (vr : frame D period num)
      (m : period) (c : label) :
  In (m, c) (map fst (by_Month_Category vr))
  <-> exists r, In r vr /\ Month r = m /\ group_key (Category r) = Some c.
Proof.
  unfold by_Month_Category. induction vr as [|r vr IH]; simpl.
  - split; [tauto | intros [r [[] _]]].
  - rewrite map_app, in_app_iff, IH. split.
    + intros [Hin|[r' [Hin Hr']]].
      * destruct (group_key (Category r)) as [c'|] eqn:Hg; simpl in Hin;
          [|tauto].
        destruct Hin as [[= <- <-]|[]]. exists r. auto.
      * exists r'. auto.
    + intros [r' [[<-|Hin] [Hm Hg]]].
      * left. rewrite Hg. simpl. left. now rewrite Hm.
      * right. exists r'. auto.
Qed.

Lemma by_Month_keys {D : Type} (vr : frame D period num) (m : period) :
  In m (map fst (by_Month vr)) <-> exists r, In r vr /\ Month r = m.
Proof.
  unfold by_Month. rewrite map_map. simpl. rewrite in_map_iff.
  split; intros [r Hr]; exists r; tauto.
Qed.

(** ** The budget calculator *)

(** C4. [calculate_the_monthly_budget] returns the yearly income divided by 12
    and that monthly income minus the savings goal, both computed in doubles,
    for every pair of arguments; on (120000, 500) the result is (10000, 9500),
    shown as 10000.00 and 9500.00.  Nothing checks the savings goal against
    the monthly income: on (1200, 500) the remainder is -400.  The quotient
    is the rounded one: 100 / 12 is the double 8.333333333333334, and with
    that very goal the remainder is 0. *)
Theorem monthly_budget_formula :
  (forall y s : float,
      calculate_the_monthly_budget y s
      = ((y / 12)%float, (y / 12 - s)%float))
  /\ calculate_the_monthly_budget 120000 500 = (10000%float, 9500%float)
  /\ format_2f (fst (calculate_the_monthly_budget 120000 500)) = "10000.00"
  /\ format_2f (snd (calculate_the_monthly_budget 120000 500)) = "9500.00"
  /\ calculate_the_monthly_budget 1200 500 = (100%float, (-400)%float)
  /\ calculate_the_monthly_budget 100 8.333333333333334
     = (8.333333333333334%float, 0%float).
Proof.
  split; [reflexivity|]. repeat split; vm_compute; reflexivity.
Qed.

(** ** The module-level budget blocks *)

(** Subtracting 0 leaves a double as it is. *)
Lemma float_sub_zero (x : float) : (x - 0)%float = x.
Proof.
  apply Prim2SF_inj. rewrite sub_spec.
  change (Prim2SF 0%float) with (S754_zero false).
  unfold SF64sub, SFsub.
  destruct (Prim2SF x) as [[|]|[|]| |s m e]; reflexivity.
Qed.

Lemma object_sum_fold_raise (rest : list value) (e : exn) :
  fold_left (fun acc w => a <- acc ;; py_add a (nan_to_zero w)) rest (Raise e)
  = Raise e.
Proof. induction rest as [|w rest IH]; simpl; auto. Qed.

Lemma py_add_raises (a b : value) (e : exn) :
  py_add a b = Raise e -> exists msg, e = TypeError msg.
Proof.
  unfold py_add.
  destruct a as [|x|s|p|d], b as [|y|t|q|d']; simpl; intros [= <-];
    unfold unsupported; eauto.
Qed.

(** The sum of a series of dtype object can only fail on operands that do
    not add. *)
Lemma object_sum_raises (s : list value) (e : exn) :
  object_sum s = Raise e -> exists msg, e = TypeError msg.
Proof.
  destruct s as [|v rest]; simpl; [discriminate|].
  generalize (nan_to_zero v). induction rest as [|w rest IH]; simpl.
  - discriminate.
  - intros acc. destruct (py_add acc (nan_to_zero w)) as [a|e'] eqn:Hadd.
    + apply IH.
    + rewrite object_sum_fold_raise. intros [= <-].
      eapply py_add_raises; eauto.
Qed.

Lemma series_sum_raises `{Pandas} (s : list value) (e : exn) :
  series_sum s = Raise e -> exists msg, e = TypeError msg.
Proof.
  unfold series_sum. destruct (numbers_of s) as [[|x xs]|].
  - discriminate.
  - discriminate.
  - apply object_sum_raises.
Qed.

Lemma total_expenses_raises `{Pandas} (f : file) (now : date) (e : exn) :
  total_expenses f now = Raise e -> forall n, e <> NameError n.
Proof.
  unfold total_expenses. destruct f as [|msg|ls]; simpl.
  - discriminate.
  - intros [= <-]. discriminate.
  - intros Hsum n. apply series_sum_raises in Hsum.
    destruct Hsum as [msg ->]. discriminate.
Qed.

Lemma py_add_text_left (t : string) (w : value) :
  text_or_failed (py_add (Str t) w).
Proof.
  destruct w; simpl; unfold text_or_failed, unsupported; eauto.
Qed.

Lemma py_add_text_right (a : value) (t : string) :
  text_or_failed (py_add a (Str t)).
Proof.
  destruct a as [|x|s|p|d]; simpl; unfold text_or_failed, unsupported; eauto.
Qed.

Lemma object_sum_fold_text (rest : list value) (acc : result value) :
  text_or_failed acc ->
  text_or_failed
    (fold_left (fun acc w => a <- acc ;; py_add a (nan_to_zero w)) rest acc).
Proof.
  revert acc. induction rest as [|w rest IH]; simpl; intros acc Hacc; auto.
  apply IH. destruct Hacc as [[t ->] | [msg ->]]; simpl.
  - apply py_add_text_left.
  - right. eauto.
Qed.

Lemma object_sum_text (s : list value) (t : string) :
  In (Str t) s -> text_or_failed (object_sum s).
Proof.
  destruct s as [|v rest]; simpl; [tauto|].
  intros [-> | Hin].
  - apply object_sum_fold_text. left. simpl. eauto.
  - generalize (nan_to_zero v). induction rest as [|w rest IH]; simpl in *.
    + tauto.
    + intros a. destruct Hin as [-> | Hin].
      * apply object_sum_fold_text. simpl. apply py_add_text_right.
      * destruct (py_add a (nan_to_zero w)) as [a'|e] eqn:Hadd.
        -- now apply IH.
        -- rewrite object_sum_fold_raise. right.
           destruct (py_add_raises _ _ _ Hadd) as [msg ->]. eauto.
Qed.

(** A series that holds a text is not a series of numbers. *)
Lemma numbers_of_text (s : list value) (t : string) :
  In (Str t) s -> numbers_of s = None.
Proof.
  induction s as [|v rest IH]; simpl; [tauto|].
  intros [-> | Hin]; [reflexivity|].
  destruct v as [|x|u|b|d]; try reflexivity; now rewrite (IH Hin).
Qed.

(** [Series.sum()] on a series that holds a text gives a text or fails. *)
Lemma series_sum_text `{Pandas} (s : list value) (t : string) :
  In (Str t) s -> text_or_failed (series_sum s).
Proof.
  intros Hin. unfold series_sum. rewrite (numbers_of_text s t Hin).
  now apply (object_sum_text s t).
Qed.

Lemma nth_error_combine {A B : Type} (l : list A) (l' : list B) (i : nat)
      (a : A) (b : B) :
  nth_error l i = Some a -> nth_error l' i = Some b ->
  nth_error (combine l l') i = Some (a, b).
Proof.
  revert l' i. induction l as [|x l IH]; intros [|y l'] [|i]; simpl;
    try discriminate.
  - now intros [= ->] [= ->].
  - apply IH.
Qed.

(** X16. Whenever a row of the current month carries a text in its Amount
    cell, the body of the remaining-budget section raises a TypeError: the
    section has no [pd.to_numeric] to turn the text into a number or drop the
    row.  The month of the row is the one [pd.to_datetime] gives it within
    the Date column of the file. *)
Lemma remaining_budget_try_text_amount
      `{Pandas} (g : globals) (ls : list line) (now : date)
      (rb : float) (i : nat) (r : row value unit value) (d : option date)
      (t : string) :
  remaining_budget g = Some rb ->
  nth_error (read_table ls) i = Some r ->
  nth_error (to_datetime (map Date (read_table ls))) i = Some d ->
  month_astype_str (option_map to_period d) = strftime_Y_m now ->
  Amount r = Str t ->
  exists msg, remaining_budget_try g (Csv ls) now = Raise (TypeError msg).
Proof.
  intros Hrb Hrow Hdate Hmonth Hamount.
  assert (Hsum : text_or_failed (total_expenses (Csv ls) now)).
  { unfold total_expenses. simpl. apply (series_sum_text _ t).
    rewrite <- Hamount.
    change (Amount r)
      with (Amount (mkRow (Index r) d (option_map to_period d)
                          (Amount r) (Category r) (Description r))).
    apply in_map. apply filter_In. split.
    - unfold assign_Month, set_Date. rewrite map_map. simpl.
      apply in_map_iff. exists (r, d). split; [reflexivity|].
      eapply nth_error_In. apply nth_error_combine; eauto.
    - simpl. rewrite Hmonth. apply String.eqb_refl. }
  unfold remaining_budget_try. rewrite Hrb.
  destruct Hsum as [[t' ->] | [msg ->]]; simpl; unfold unsupported; eauto.
Qed.

(** C10. The remaining-budget section reads the name [remaining_budget] only
    when it runs, and it runs under the test the sidebar block binds the name
    under, on a yearly income nothing changes in between.  For every pair of
    sidebar inputs: either the section runs, and then the sidebar block has
    bound the name (to the second result of
    [calculate_the_monthly_budget]) and the body of the section raises no
    NameError, whatever the file holds; or the section does not run, the name
    is unbound (reading it would raise the NameError), and the page shows the
    warning only. *)
Theorem remaining_budget_bound_when_read
        `{Pandas} (inp : sidebar) (f : file) (now : date) :
  let g := fst (set_your_budget inp) in
  match remaining_section inp g f now with
  | Some body =>
      remaining_budget g
      = Some (snd (calculate_the_monthly_budget (yearly_income inp)
                                                (savings_goal inp)))
      /\ body = remaining_budget_try g f now
      /\ (forall n, body <> Raise (NameError n))
  | None =>
      remaining_budget g = None
      /\ load_name "remaining_budget" (remaining_budget g)
         = Raise (NameError "remaining_budget")
      /\ budget_page inp f now
         = [st_warning
              "Please enter your yearly income to calculate your budget."]
  end.
Proof.
  unfold budget_page, remaining_monthly_budget, remaining_section,
    set_your_budget.
  destruct (0 <? yearly_income inp)%float; simpl.
  - split; [reflexivity|]. split; [reflexivity|].
    intros n. unfold remaining_budget_try. simpl.
    destruct (total_expenses f now) as [spent|e] eqn:Hspent; simpl.
    + destruct (py_sub _ spent) as [v|e] eqn:Hsub; simpl.
      * destruct (py_format_2f v) as [s|e] eqn:Hfmt; simpl; [discriminate|].
        destruct v as [|[z|x]|s|b|d]; simpl in Hfmt; try discriminate;
          injection Hfmt as <-; discriminate.
      * unfold py_sub in Hsub. simpl in Hsub.
        destruct (as_number spent); [discriminate|].
        injection Hsub as <-. discriminate.
    + intros [= ->]. eapply total_expenses_raises; eauto.
  - repeat split.
Qed.

(** C6. With no data file, [view_report] and [predict_the_next_month] return
    the no-data message (no error message, no exception), and the
    remaining-budget section takes 0 for the total expenses and shows the
    budget after savings. *)
Theorem missing_file_is_no_data `{Pandas} (now : date) :
  view_report Missing = (Some "No expenses recorded yet!", None)
  /\ predict_the_next_month Missing = "No expenses recorded yet!"
  /\ total_expenses Missing now = Ok (Num (Int 0))
  /\ forall (g : globals) (rb : float),
      remaining_budget g = Some rb ->
      remaining_budget_try g Missing now
      = Ok [st_success ("Remaining budget for this month: $" ++ format_2f rb)].
Proof.
  repeat split.
  intros g rb Hrb. unfold remaining_budget_try. rewrite Hrb. simpl.
  change (float_of_int 0) with 0%float.
  now rewrite float_sub_zero.
Qed.

(** X14. The budget parts of the page: without a positive yearly income the
    page shows the warning alone, and no remaining budget; with one it shows
    the monthly income, the budget after savings (both as the doubles of
    [calculate_the_monthly_budget], to two decimals), the header of the
    remaining-budget section and exactly one outcome of it, a value or an
    error. *)
Theorem budget_page_shape
        `{Pandas} (inp : sidebar) (f : file) (now : date) :
  ((0 <? yearly_income inp)%float = false ->
   budget_page inp f now
   = [st_warning "Please enter your yearly income to calculate your budget."])
  /\ ((0 <? yearly_income inp)%float = true ->
      exists s,
        (budget_page inp f now
         = [st_success ("Your monthly income: $"
                        ++ format_2f (yearly_income inp / 12)%float);
            st_success ("Budget after savings: $"
                        ++ format_2f (yearly_income inp / 12
                                      - savings_goal inp)%float);
            st_header "Remaining Monthly Budget";
            st_success ("Remaining budget for this month: $" ++ s)])
        \/ (budget_page inp f now
            = [st_success ("Your monthly income: $"
                           ++ format_2f (yearly_income inp / 12)%float);
               st_success ("Budget after savings: $"
                           ++ format_2f (yearly_income inp / 12
                                         - savings_goal inp)%float);
               st_header "Remaining Monthly Budget";
               st_error ("An error occurred while calculating the remaining budget: "
                         ++ s)])).
Proof.
  unfold budget_page, set_your_budget, remaining_monthly_budget,
    remaining_section.
  split; intros Hy; rewrite Hy; [reflexivity|].
  simpl. unfold remaining_budget_try. simpl.
  destruct (total_expenses f now) as [spent|e]; simpl.
  - destruct spent as [|[z|x]|t|b|d]; simpl; eexists; (left + right);
      reflexivity.
  - eexists. right. reflexivity.
Qed.

(** ** Index labels *)

Lemma map_fst_combine {A B : Type} (l : list A) (l' : list B) :
  List.length l = List.length l' -> map fst (combine l l') = l.
Proof.
  revert l'. induction l as [|a l IH]; intros [|b l']; simpl;
    try discriminate; auto.
  intros [= Hlen]. now rewrite IH.
Qed.

(** Filtering the rows of a frame keeps their labels distinct. *)
Lemma distinct_labels_filter {A B : Type} (label_of : A -> B)
      (keep : A -> bool) (rows : list A) :
  NoDup (map label_of rows) -> NoDup (map label_of (filter keep rows)).
Proof.
  induction rows as [|a rows IH]; simpl; intros Hnd; [constructor|].
  inversion Hnd as [|? ? Hnotin Hrest]; subst.
  destruct (keep a); simpl; auto.
  constructor; auto.
  intros Hin. apply Hnotin. apply in_map_iff in Hin.
  destruct Hin as [x [Hx Hin]]. apply filter_In in Hin.
  apply in_map_iff. exists x. tauto.
Qed.

(** Two rows of a frame with distinct labels are the same row when they have
    the same label. *)
Lemma same_label_same_row {A B : Type} (f : A -> B) (l : list A) (a b : A) :
  NoDup (map f l) -> In a l -> In b l -> f a = f b -> a = b.
Proof.
  induction l as [|x l IH]; simpl; intros Hnd Ha Hb Heq; [tauto|].
  inversion Hnd as [|? ? Hnotin Hrest]; subst.
  destruct Ha as [->|Ha], Hb as [->|Hb]; auto.
  - exfalso. apply Hnotin. rewrite Heq. now apply in_map.
  - exfalso. apply Hnotin. rewrite <- Heq. now apply in_map.
Qed.

Lemma enumerate_length {A : Type} (l : list A) :
  List.length (enumerate l) = List.length l.
Proof.
  unfold enumerate. rewrite length_combine, length_seq. apply Nat.min_id.
Qed.

Lemma map_fst_enumerate {A : Type} (l : list A) :
  map fst (enumerate l) = seq 0 (List.length l).
Proof. unfold enumerate. apply map_fst_combine. apply length_seq. Qed.

Lemma map_snd_enumerate {A : Type} (l : list A) :
  map snd (enumerate l) = l.
Proof.
  unfold enumerate. generalize 0%nat.
  induction l as [|a l IH]; intros n; simpl; [reflexivity|].
  now rewrite IH.
Qed.

Lemma set_Date_Index {D D' M A : Type} (col : list D') (df : frame D M A) :
  List.length col = List.length df ->
  map Index (set_Date col df) = map Index df.
Proof.
  intros Hlen. unfold set_Date. rewrite map_map. simpl.
  rewrite <- (map_map fst Index). now rewrite map_fst_combine.
Qed.

Lemma set_Amount_Index {D M A A' : Type} (col : list A') (df : frame D M A) :
  List.length col = List.length df ->
  map Index (set_Amount col df) = map Index df.
Proof.
  intros Hlen. unfold set_Amount. rewrite map_map. simpl.
  rewrite <- (map_map fst Index). now rewrite map_fst_combine.
Qed.

Lemma dropna_Date_Index {D M A : Type} (df : frame (option D) M A) :
  map Index (dropna_Date df)
  = map Index (filter (fun r => is_some (Date r)) df).
Proof.
  unfold dropna_Date. induction df as [|r df IH]; simpl; [reflexivity|].
  destruct (Date r); simpl; now rewrite IH.
Qed.

Lemma dropna_Date_In {D M A : Type} (df : frame (option D) M A)
      (r : row D M A) :
  In r (dropna_Date df)
  -> exists r', In r' df /\ Index r' = Index r /\ Date r' = Some (Date r).
Proof.
  unfold dropna_Date. rewrite in_flat_map. intros [r' [Hin Hr]].
  exists r'. destruct (Date r') as [d|]; [|destruct Hr].
  destruct Hr as [<-|[]]. auto.
Qed.

Lemma dropna_Amount_In {D M A : Type} (df : frame D M (option A))
      (r : row D M A) :
  In r (dropna_Amount df)
  -> exists r', In r' df /\ Index r' = Index r
                /\ Amount r' = Some (Amount r).
Proof.
  unfold dropna_Amount. rewrite in_flat_map. intros [r' [Hin Hr]].
  exists r'. destruct (Amount r') as [a|]; [|destruct Hr].
  destruct Hr as [<-|[]]. auto.
Qed.

Section IndexFacts.
Context `{Pandas}.

Lemma read_table_Index (ls : list line) :
  map Index (read_table ls) = seq 0 (List.length ls).
Proof.
  unfold read_table. rewrite map_map. simpl. apply map_fst_enumerate.
Qed.

Lemma read_table_length (ls : list line) :
  List.length (read_table ls) = List.length ls.
Proof. unfold read_table. rewrite length_map. apply enumerate_length. Qed.

Lemma to_numeric_length (col : list value) :
  List.length (to_numeric col) = List.length col.
Proof.
  unfold to_numeric. destruct (forallb _ _); now rewrite ?length_map.
Qed.

Lemma dated_Index (df : frame value unit value) :
  map Index (dated df) = map Index df.
Proof.
  unfold dated. apply set_Date_Index.
  now rewrite to_datetime_length, length_map.
Qed.

Lemma priced_Index (df : frame value unit value) :
  map Index (priced df)
  = map Index (filter (fun r => is_some (Date r)) (dated df)).
Proof.
  unfold priced. rewrite set_Amount_Index.
  - unfold assign_Month. rewrite map_map. simpl.
    apply dropna_Date_Index.
  - now rewrite to_numeric_length, length_map.
Qed.

(** A row that reaches the Amount coercion kept a date. *)
Lemma priced_dated (df : frame value unit value)
      (r : row date period (option num)) :
  In r (priced df)
  -> exists r', In r' (dated df) /\ Index r' = Index r
                /\ Date r' = Some (Date r).
Proof.
  unfold priced, set_Amount. intros Hin. apply in_map_iff in Hin.
  destruct Hin as [[r1 a] [<- Hin]]. apply in_combine_l in Hin.
  unfold assign_Month in Hin. apply in_map_iff in Hin.
  destruct Hin as [r2 [<- Hin]]. apply dropna_Date_In in Hin.
  exact Hin.
Qed.

(** The rows of a file that fail a coercion are not among the valid rows. *)
Lemma valid_rows_exclude (ls : list line) (i : nat) :
  date_fails (read_table ls) i \/ amount_fails (read_table ls) i ->
  ~ In i (map Index (valid_rows (read_table ls))).
Proof.
  intros Hbad Hin. apply in_map_iff in Hin. destruct Hin as [v [Hi Hv]].
  unfold valid_rows in Hv. apply dropna_Amount_In in Hv.
  destruct Hv as [p [Hp [Hpi Hpa]]].
  assert (Hnd : NoDup (map Index (dated (read_table ls)))).
  { rewrite dated_Index, read_table_Index. apply seq_NoDup. }
  destruct Hbad as [[r [Hr [Hri Hrd]]] | [r [Hr [Hri Hra]]]].
  - destruct (priced_dated _ _ Hp) as [r' [Hr' [Hri' Hrd']]].
    assert (r = r') by (eapply same_label_same_row; eauto; congruence).
    congruence.
  - assert (Hndp : NoDup (map Index (priced (read_table ls)))).
    { rewrite priced_Index. now apply distinct_labels_filter. }
    assert (r = p) by (eapply same_label_same_row; eauto; congruence).
    congruence.
Qed.

(** Every valid row is a row of the file whose Date and Amount were read. *)
Lemma valid_rows_origin (df : frame value unit value)
      (v : row date period num) :
  In v (valid_rows df)
  -> Month v = to_period (Date v)
     /\ (exists r, In r (dated df) /\ Index r = Index v
                   /\ Date r = Some (Date v))
     /\ (exists p, In p (priced df) /\ Index p = Index v
                   /\ Amount p = Some (Amount v)).
Proof.
  intros Hv. unfold valid_rows in Hv.
  unfold dropna_Amount in Hv. rewrite in_flat_map in Hv.
  destruct Hv as [p [Hp Hv]].
  destruct (Amount p) as [a|] eqn:Ha; [|destruct Hv].
  destruct Hv as [<-|[]]. simpl.
  destruct (priced_dated _ _ Hp) as [r Hr].
  split; [|split; [exists r; exact Hr | exists p; auto]].
  unfold priced, set_Amount in Hp. apply in_map_iff in Hp.
  destruct Hp as [[r1 a1] [<- Hin]]. simpl. apply in_combine_l in Hin.
  unfold assign_Month in Hin. apply in_map_iff in Hin.
  destruct Hin as [r2 [<- _]]. reflexivity.
Qed.
End IndexFacts.

(** ** The report and the forecast *)

Lemma zero_like_zero (sums : list num) :
  zero_like sums = Int 0 \/ zero_like sums = Flt 0.
Proof. unfold zero_like. destruct (forallb is_Int sums); auto. Qed.

Lemma position_occurs {K : Type} `{KeyLaws K} (k : K) (keys : list K) (i : nat) :
  position k keys = Some i -> In k keys.
Proof. intros Hp. eapply nth_error_In. eapply position_nth; eauto. Qed.

Lemma amounts_in_occurs (vr : frame date period num) (m : period)
      (r : row date period num) :
  In r vr -> Month r = m -> amounts_in vr m <> [].
Proof.
  unfold amounts_in. intros Hin Hm Hnil.
  apply map_eq_nil in Hnil.
  assert (Hf : In r (filter (fun r => Z.eqb (Month r) m) vr)).
  { apply filter_In. split; auto. apply Z.eqb_eq. exact Hm. }
  rewrite Hnil in Hf. inversion Hf.
Qed.

Lemma amounts_in_all (vr : frame date period num) (m : period) :
  (forall r, In r vr -> Month r = m) -> amounts_in vr m = map Amount vr.
Proof.
  unfold amounts_in, period in *. intros Hall. f_equal.
  induction vr as [|r vr IH]; simpl; [reflexivity|].
  rewrite (Hall r (or_introl eq_refl)), Z.eqb_refl, IH; auto.
  intros r' Hr'. apply Hall. now right.
Qed.

Lemma singleton_keys {A : Type} (m : A) (l : list A) :
  NoDup l -> l <> [] -> (forall x, In x l -> x = m) -> l = [m].
Proof.
  intros Hnd Hne Hall. destruct l as [|x [|y l]]; [congruence| |].
  - f_equal. apply Hall. now left.
  - exfalso. inversion Hnd as [|? ? Hnotin _]; subst. apply Hnotin.
    rewrite (Hall x), (Hall y); simpl; auto.
Qed.

Section ReportFacts.
Context `{Pandas}.

Lemma view_report_csv (ls : list line) :
  view_report (Csv ls) = (None, Some (report_table (read_table ls))).
Proof. reflexivity. Qed.

Lemma predict_csv (ls : list line) :
  predict_the_next_month (Csv ls)
  = prediction_message (mean (map snd (monthly_totals (read_table ls)))).
Proof. reflexivity. Qed.

Lemma report_cell_value (fill : num) (vr : frame date period num)
      (m : period) (c : label) :
  cell_value fill (groupby_sum (by_Month_Category vr)) m c
  = match amounts_at vr m c with
    | [] => fill
    | l => group_sum l
    end.
Proof.
  unfold cell_value, amounts_at. rewrite find_groupby_sum.
  rewrite amounts_of_by_Month_Category.
  destruct (map Amount _); reflexivity.
Qed.

(** The months of the report are those of the valid rows that have a
    category. *)
Lemma report_index (df : frame value unit value) (m : period) :
  In m (index (report_table df))
  <-> exists r, In r (valid_rows df) /\ Month r = m
                /\ has_category (Category r) = true.
Proof.
  rewrite report_table_valid. unfold unstack. simpl.
  rewrite sorted_keys_In, in_map_iff. split.
  - intros [[[m' c] v] [Hm Hin]]. simpl in Hm. subst m'.
    assert (Hk : In (m, c) (map fst (groupby_sum
                                       (by_Month_Category (valid_rows df))))).
    { apply in_map_iff. exists ((m, c), v). auto. }
    apply groupby_sum_keys, by_Month_Category_keys in Hk.
    destruct Hk as [r [Hr [Hm Hg]]]. exists r. unfold has_category.
    rewrite Hg. auto.
  - intros [r [Hr [Hm Hc]]]. unfold has_category in Hc.
    destruct (group_key (Category r)) as [c|] eqn:Hg; [|discriminate].
    assert (Hk : In (m, c) (map fst (groupby_sum
                                       (by_Month_Category (valid_rows df))))).
    { apply groupby_sum_keys, by_Month_Category_keys. exists r. auto. }
    apply in_map_iff in Hk. destruct Hk as [[k v] [Hk Hin]].
    simpl in Hk. subst k. exists ((m, c), v). auto.
Qed.

(** The columns of the report are the categories of the valid rows. *)
Lemma report_columns (df : frame value unit value) (c : label) :
  In c (columns (report_table df))
  <-> exists r, In r (valid_rows df) /\ group_key (Category r) = Some c.
Proof.
  rewrite report_table_valid. unfold unstack. simpl.
  rewrite sorted_keys_In, in_map_iff. split.
  - intros [[[m c'] v] [Hc Hin]]. simpl in Hc. subst c'.
    assert (Hk : In (m, c) (map fst (groupby_sum
                                       (by_Month_Category (valid_rows df))))).
    { apply in_map_iff. exists ((m, c), v). auto. }
    apply groupby_sum_keys, by_Month_Category_keys in Hk.
    destruct Hk as [r [Hr [Hm Hg]]]. exists r. auto.
  - intros [r [Hr Hg]].
    assert (Hk : In (Month r, c)
                    (map fst (groupby_sum
                                (by_Month_Category (valid_rows df))))).
    { apply groupby_sum_keys, by_Month_Category_keys. exists r. auto. }
    apply in_map_iff in Hk. destruct Hk as [[k v] [Hk Hin]].
    simpl in Hk. subst k. exists ((Month r, c), v). auto.
Qed.

(** A cell of the report is pandas' sum of the Amounts of its rows, or the
    fill value. *)
Lemma report_cell (df : frame value unit value) (m : period) (c : label) :
  In m (index (report_table df)) -> In c (columns (report_table df)) ->
  (amounts_at (valid_rows df) m c <> []
   -> cell (report_table df) m c
      = Some (group_sum (amounts_at (valid_rows df) m c)))
  /\ (amounts_at (valid_rows df) m c = []
      -> exists z, cell (report_table df) m c = Some z
                   /\ (z = Int 0 \/ z = Flt 0)).
Proof.
  rewrite report_table_valid. intros Hm Hc.
  rewrite cell_unstack by assumption. rewrite report_cell_value.
  split.
  - destruct (amounts_at (valid_rows df) m c); [congruence|reflexivity].
  - intros ->. eexists. split; [reflexivity|]. apply zero_like_zero.
Qed.

(** The forecaster's total of a month is pandas' sum of the valid Amounts of
    that month. *)
Lemma monthly_total_is_sum (df : frame value unit value) (m : period) :
  find_group m (monthly_totals df)
  = match amounts_in (valid_rows df) m with
    | [] => None
    | l => Some (group_sum l)
    end.
Proof.
  rewrite monthly_totals_valid, find_groupby_sum, amounts_of_by_Month.
  reflexivity.
Qed.

Lemma monthly_totals_sorted (df : frame value unit value) :
  keys_sorted (map fst (monthly_totals df)).
Proof. rewrite monthly_totals_valid. apply groupby_sum_sorted. Qed.

Lemma monthly_totals_months (df : frame value unit value) (m : period) :
  In m (map fst (monthly_totals df))
  <-> exists r, In r (valid_rows df) /\ Month r = m.
Proof.
  rewrite monthly_totals_valid, groupby_sum_keys. apply by_Month_keys.
Qed.

Lemma monthly_totals_nonempty (df : frame value unit value) :
  valid_rows df <> [] -> monthly_totals df <> [].
Proof.
  intros Hne Hnil. destruct (valid_rows df) as [|r vr] eqn:Hvr; [congruence|].
  assert (Hin : In (Month r) (map fst (monthly_totals df))).
  { apply monthly_totals_months. exists r. rewrite Hvr. simpl. auto. }
  rewrite Hnil in Hin. inversion Hin.
Qed.

(** What the forecast is made of, on a file with a valid row. *)
Lemma forecast_from_totals (ls : list line) :
  let vr := valid_rows (read_table ls) in
  let totals := monthly_totals (read_table ls) in
  vr <> [] ->
  totals <> []
  /\ keys_sorted (map fst totals)
  /\ (forall m, In m (map fst totals) <-> exists r, In r vr /\ Month r = m)
  /\ (forall m total_m,
         In (m, total_m) totals ->
         amounts_in vr m <> [] /\ total_m = group_sum (amounts_in vr m))
  /\ predict_the_next_month (Csv ls)
     = prediction_message (series_mean (map snd totals))
  /\ (forall m, (forall r, In r vr -> Month r = m) ->
                totals = [(m, group_sum (map Amount vr))]
                /\ predict_the_next_month (Csv ls)
                   = prediction_message
                       (series_mean [group_sum (map Amount vr)])).
Proof.
  intros vr totals Hne.
  assert (Hmt : totals <> []) by now apply monthly_totals_nonempty.
  assert (Hsorted : keys_sorted (map fst totals))
    by apply monthly_totals_sorted.
  assert (Hmonths : forall m, In m (map fst totals)
                              <-> exists r, In r vr /\ Month r = m)
    by apply monthly_totals_months.
  assert (Hsum : forall m total_m,
             In (m, total_m) totals ->
             amounts_in vr m <> [] /\ total_m = group_sum (amounts_in vr m)).
  { intros m total_m Hin. apply find_group_In in Hin; [|exact Hsorted].
    unfold totals in Hin. rewrite monthly_total_is_sum in Hin. fold vr in Hin.
    destruct (amounts_in vr m); [discriminate|].
    injection Hin as <-. split; [discriminate|reflexivity]. }
  assert (Hpred : predict_the_next_month (Csv ls)
                  = prediction_message (series_mean (map snd totals))).
  { rewrite predict_csv. fold totals. unfold mean.
    destruct totals; [congruence|reflexivity]. }
  repeat (split; [assumption|]).
  intros m Hall.
  assert (Hkeys : map fst totals = [m]).
  { apply singleton_keys.
    - now apply keys_sorted_NoDup.
    - destruct totals; [congruence|discriminate].
    - intros x Hx. apply Hmonths in Hx.
      destruct Hx as [r [Hr Hm]]. rewrite <- Hm. now apply Hall. }
  assert (Htotals : totals = [(m, group_sum (map Amount vr))]).
  { destruct totals as [|[m' v] [|g rest]]; try discriminate.
    injection Hkeys as ->.
    destruct (Hsum m v (or_introl eq_refl)) as [_ ->].
    now rewrite (amounts_in_all vr m Hall). }
  split; [exact Htotals|]. rewrite Hpred, Htotals. reflexivity.
Qed.
End ReportFacts.

(** C9. [view_report] returns a message and no table when the file is missing
    or cannot be read, and a table and no message otherwise; never both and
    never neither. *)
Theorem view_report_message_or_table `{Pandas} (f : file) :
  ((exists msg, view_report f = (Some msg, None))
   \/ (exists t, view_report f = (None, Some t)))
  /\ match f with
     | Missing => view_report f = (Some "No expenses recorded yet!", None)
     | Unreadable msg =>
         view_report f = (Some ("Error generating report: " ++ msg), None)
     | Csv ls => view_report f = (None, Some (report_table (read_table ls)))
     end.
Proof.
  destruct f as [|msg|ls]; (split; [|reflexivity]).
  - left. eexists. reflexivity.
  - left. eexists. reflexivity.
  - right. eexists. reflexivity.
Qed.

(** X5. The table of [view_report] is well formed: its months come in strictly
    increasing order, its categories too, so neither repeats, and it has one
    row of cells per month and one cell per category in each row. *)
Theorem report_is_sorted_and_rectangular
        `{Pandas} (f : file) (t : pivot) :
  view_report f = (None, Some t) ->
  keys_sorted (index t) /\ keys_sorted (columns t)
  /\ List.length (cells t) = List.length (index t)
  /\ Forall (fun r => List.length r = List.length (columns t)) (cells t).
Proof.
  destruct f as [|msg|ls]; simpl; try discriminate.
  intros [= <-]. rewrite report_table_valid. unfold unstack. simpl.
  repeat split; try apply sorted_keys_sorted.
  - apply length_map.
  - apply Forall_forall. intros r Hr. apply in_map_iff in Hr.
    destruct Hr as [m [<- _]]. apply length_map.
Qed.

(** X6. The months of the report are those in which some valid row has a
    category, and its columns are the categories of the valid rows: a row
    whose Date or Amount failed coercion, or whose Category is missing,
    brings neither a month nor a column.  The valid rows are those whose
    Date [pd.to_datetime] read within the Date column of the file, and whose
    Amount [pd.to_numeric] read. *)
Theorem report_months_and_categories
        `{Pandas} (ls : list line) (t : pivot) :
  view_report (Csv ls) = (None, Some t) ->
  (forall m, In m (index t)
             <-> exists r, In r (valid_rows (read_table ls)) /\ Month r = m
                           /\ has_category (Category r) = true)
  /\ (forall c, In c (columns t)
                <-> exists r, In r (valid_rows (read_table ls))
                              /\ group_key (Category r) = Some c).
Proof.
  rewrite view_report_csv. intros [= <-].
  split; intros x; [apply report_index | apply report_columns].
Qed.

(** X10. On a file that exists and holds no valid row (only the header, or only
    malformed rows), [predict_the_next_month] returns neither the no-data
    message nor an error message: it returns the prediction message with the
    mean of no month, which prints as nan. *)
Theorem forecast_without_valid_rows `{Pandas} (ls : list line) :
  valid_rows (read_table ls) = [] ->
  predict_the_next_month (Csv ls)
  = "Based on your spending history, your predicted total expenses for next month are: $nan".
Proof.
  intros Hnone. rewrite predict_csv, monthly_totals_valid, Hnone. reflexivity.
Qed.

(** ** The rows of a month, split by category *)

Lemma concat_map_app {A B : Type} (f g : A -> list B) (l : list A) :
  Permutation (List.concat (map (fun c => f c ++ g c)%list l))
              (List.concat (map f l) ++ List.concat (map g l))%list.
Proof.
  induction l as [|a l IH]; simpl; [constructor|].
  rewrite <- !app_assoc. apply Permutation_app_head.
  rewrite IH. apply Permutation_app_swap_app.
Qed.

Lemma concat_map_nil {A B : Type} (l : list A) :
  List.concat (map (fun _ => @nil B) l) = [].
Proof. induction l as [|a l IH]; simpl; auto. Qed.

Lemma concat_indicator_absent (c0 : label) (a : num) (cats : list label) :
  ~ In c0 cats ->
  List.concat (map (fun c => if label_eqb c0 c then [a] else []) cats) = [].
Proof.
  induction cats as [|c cats IH]; simpl; intros Hn; [reflexivity|].
  destruct (label_eqb c0 c) eqn:Hc.
  - apply label_eqb_eq in Hc. subst. tauto.
  - apply IH. tauto.
Qed.

Lemma concat_indicator (c0 : label) (a : num) (cats : list label) :
  NoDup cats -> In c0 cats ->
  List.concat (map (fun c => if label_eqb c0 c then [a] else []) cats) = [a].
Proof.
  induction 1 as [|c cats Hnotin Hnd IH]; simpl; [tauto|].
  intros [->|Hin].
  - rewrite (proj2 (label_eqb_eq c0 c0) eq_refl).
    now rewrite concat_indicator_absent.
  - destruct (label_eqb c0 c) eqn:Hc.
    + apply label_eqb_eq in Hc. subst. tauto.
    + now apply IH.
Qed.

(** Over a duplicate-free list of categories that covers the rows of a month,
    the Amounts of the month and each category, taken together, are the
    Amounts of the month: every row is counted once. *)
Lemma month_split_by_category (vr : frame date period num) (m : period)
      (cats : list label) :
  NoDup cats ->
  (forall r, In r vr -> Month r = m ->
             exists c, group_key (Category r) = Some c /\ In c cats) ->
  Permutation (List.concat (map (amounts_at vr m) cats)) (amounts_in vr m).
Proof.
  intros Hnd. unfold amounts_at, amounts_in, period in *.
  induction vr as [|r vr IH]; intros Hcover.
  - simpl. now rewrite concat_map_nil.
  - assert (IH' := IH (fun r' Hin => Hcover r' (or_intror Hin))). clear IH.
    cbn [filter].
    rewrite (map_ext
               (fun c => map Amount
                  (if (Month r =? m)%Z && category_is c (Category r)
                   then r :: filter (fun r0 => (Month r0 =? m)%Z
                                      && category_is c (Category r0)) vr
                   else filter (fun r0 => (Month r0 =? m)%Z
                                 && category_is c (Category r0)) vr))
               (fun c =>
                  (if (Month r =? m)%Z && category_is c (Category r)
                   then [Amount r] else [])
                  ++ map Amount
                       (filter (fun r0 => (Month r0 =? m)%Z
                                  && category_is c (Category r0)) vr))%list).
    2:{ intros c. destruct ((Month r =? m)%Z && category_is c (Category r));
        reflexivity. }
    rewrite concat_map_app, IH'.
    destruct (Z.eqb_spec (Month r) m) as [Hm|Hm]; cbn [andb map].
    + destruct (Hcover r (or_introl eq_refl) Hm) as [c0 [Hg Hin]].
      unfold category_is. rewrite Hg.
      rewrite concat_indicator by assumption. reflexivity.
    + rewrite concat_map_nil. reflexivity.
Qed.

(** ** Exact sums *)

Lemma total_app (l1 l2 : list Qc) :
  total (l1 ++ l2) = (total l1 + total l2)%Qc.
Proof.
  induction l1 as [|x l1 IH]; simpl.
  - now rewrite Qcplus_0_l.
  - rewrite IH. apply Qcplus_assoc.
Qed.

Lemma total_Permutation (l1 l2 : list Qc) :
  Permutation l1 l2 -> total l1 = total l2.
Proof.
  induction 1; simpl; try congruence.
  rewrite !Qcplus_assoc. f_equal. apply Qcplus_comm.
Qed.

Lemma forallb_Permutation {A : Type} (f : A -> bool) (l1 l2 : list A) :
  Permutation l1 l2 -> forallb f l1 = forallb f l2.
Proof.
  induction 1; simpl; try congruence.
  now rewrite !andb_assoc, (andb_comm (f y)).
Qed.

Lemma exact_total_Permutation (l1 l2 : list num) :
  Permutation l1 l2 -> exact_total l1 = exact_total l2.
Proof.
  intros Hperm. unfold exact_total.
  rewrite (forallb_Permutation finite _ _ Hperm).
  rewrite (total_Permutation _ _ (Permutation_map value_of Hperm)).
  reflexivity.
Qed.

Lemma exact_total_Some (l : list num) (q : Qc) :
  exact_total l = Some q ->
  forallb finite l = true /\ q = total (map value_of l).
Proof.
  unfold exact_total. destruct (forallb finite l); [|discriminate].
  intros [= <-]. auto.
Qed.

(** The exact sum of exact sums is the exact sum of everything. *)
Lemma exact_total_concat (parts : list (list num)) (sums : list num) :
  Forall2 (fun l z => finite z = true /\ forallb finite l = true
                      /\ value_of z = total (map value_of l)) parts sums ->
  exact_total sums = exact_total (List.concat parts).
Proof.
  unfold exact_total. induction 1 as [|l z parts sums [Hz [Hl Hv]] Hrest IH].
  - reflexivity.
  - simpl. rewrite forallb_app, Hz, Hl. simpl.
    destruct (forallb finite sums), (forallb finite (List.concat parts));
      try discriminate; [|reflexivity].
    injection IH as IH. rewrite map_app, total_app, Hv, IH. reflexivity.
Qed.

Section RowSum.
Context `{Pandas}.

Lemma sums_exactly_spec (l : list num) :
  l <> [] -> sums_exactly l = true ->
  finite (group_sum l) = true /\ forallb finite l = true
  /\ value_of (group_sum l) = total (map value_of l)
  /\ exact (group_sum l) = exact_total l.
Proof.
  intros Hne. unfold sums_exactly. destruct l as [|x l]; [congruence|].
  unfold finite at 1, value_of at 1.
  destruct (exact (group_sum (x :: l))) as [a|]; [|discriminate].
  destruct (exact_total (x :: l)) as [b|] eqn:Hb; [|discriminate].
  intros Heq. apply Qc_eq_bool_correct in Heq. subst b.
  destruct (exact_total_Some _ _ Hb) as [Hfin ->]. auto.
Qed.

(** The cells of a row whose sums are exact: each is finite and is worth the
    exact sum of its Amounts, the fill value being an empty sum. *)
Lemma cells_sum_exactly (fill : num) (vr : frame date period num)
      (m : period) (cols : list label) :
  fill = Int 0 \/ fill = Flt 0 ->
  (forall c, In c cols -> sums_exactly (amounts_at vr m c) = true) ->
  Forall2 (fun l z => finite z = true /\ forallb finite l = true
                      /\ value_of z = total (map value_of l))
          (map (amounts_at vr m) cols)
          (map (fun c => match amounts_at vr m c with
                         | [] => fill
                         | l => group_sum l
                         end) cols).
Proof.
  intros Hfill Hcells.
  induction cols as [|c cs IH]; simpl; constructor.
  - specialize (Hcells c (or_introl eq_refl)).
    destruct (amounts_at vr m c) as [|a l] eqn:Ha.
    + destruct Hfill as [->| ->]; repeat split.
    + assert (Hne' : a :: l <> []) by discriminate.
      destruct (sums_exactly_spec _ Hne' Hcells) as [Hf [Hl [Hv _]]]. auto.
  - apply IH. intros c' Hc'. apply Hcells. now right.
Qed.

(** C8, the general part: the forecaster's total of a month and the cells of
    the month's row in the report are pandas' sums of the same Amounts, which
    the report splits by category; they have the same exact value whenever
    those sums are exact. *)
Lemma report_row_and_monthly_total
      (ls : list line) (t : pivot) (m : period) (cells_m : list num) :
  let vr := valid_rows (read_table ls) in
  (forall r, In r vr -> Month r = m -> has_category (Category r) = true) ->
  view_report (Csv ls) = (None, Some t) ->
  table_row t m = Some cells_m ->
  exists total_m fill,
    find_group m (monthly_totals (read_table ls)) = Some total_m
    /\ total_m = group_sum (amounts_in vr m)
    /\ (fill = Int 0 \/ fill = Flt 0)
    /\ cells_m = map (fun c => match amounts_at vr m c with
                               | [] => fill
                               | l => group_sum l
                               end) (columns t)
    /\ Permutation (List.concat (map (amounts_at vr m) (columns t)))
                   (amounts_in vr m)
    /\ (sums_exactly (amounts_in vr m) = true ->
        forallb (fun c => sums_exactly (amounts_at vr m c)) (columns t) = true ->
        exact total_m = exact_total cells_m).
Proof.
  intros vr Hall. rewrite view_report_csv. intros [= <-] Hrow.
  assert (Hin : In m (index (report_table (read_table ls)))).
  { unfold table_row in Hrow.
    destruct (position m (index (report_table (read_table ls)))) eqn:Hp;
      [|discriminate].
    eapply position_occurs; eauto. }
  pose proof (report_columns (read_table ls)) as Hcols.
  pose proof (proj1 (report_index (read_table ls) m) Hin) as [r0 [Hr0 [Hm0 _]]].
  pose proof (amounts_in_occurs _ _ _ Hr0 Hm0) as Hne. fold vr in Hne.
  assert (Hperm : Permutation
                    (List.concat
                       (map (amounts_at vr m)
                            (columns (report_table (read_table ls)))))
                    (amounts_in vr m)).
  { apply month_split_by_category.
    - rewrite report_table_valid. unfold unstack. simpl.
      apply sorted_keys_NoDup.
    - intros r Hr Hm. specialize (Hall r Hr Hm). unfold has_category in Hall.
      destruct (group_key (Category r)) as [c|] eqn:Hg; [|discriminate].
      exists c. split; [reflexivity|]. apply Hcols. eauto. }
  set (sums := groupby_sum (by_Month_Category vr)).
  set (fill := zero_like (map snd sums)).
  assert (Hin' : In m (index (unstack fill sums))) by exact Hin.
  assert (Hrow' : table_row (unstack fill sums) m = Some cells_m)
    by exact Hrow.
  rewrite (table_row_unstack fill sums m Hin') in Hrow'.
  injection Hrow' as <-.
  change (columns (unstack fill sums))
    with (columns (report_table (read_table ls))).
  set (cols := columns (report_table (read_table ls))) in *.
  exists (group_sum (amounts_in vr m)), fill.
  split.
  { rewrite monthly_total_is_sum. fold vr.
    destruct (amounts_in vr m); [congruence|reflexivity]. }
  split; [reflexivity|]. split; [apply zero_like_zero|].
  split; [apply map_ext; intros c; apply report_cell_value|].
  split; [exact Hperm|].
  intros Hmonth Hcells.
  destruct (sums_exactly_spec _ Hne Hmonth) as [_ [_ [_ ->]]].
  rewrite <- (exact_total_Permutation _ _ Hperm).
  rewrite (map_ext (cell_value fill sums m) _
                   (fun c => report_cell_value fill vr m c)).
  symmetry. apply exact_total_concat.
  rewrite forallb_forall in Hcells.
  apply cells_sum_exactly; [apply zero_like_zero | exact Hcells].
Qed.
End RowSum.

(** ** The record store *)

Lemma map_enumerate_Forall2 {A B C : Type} (R : A -> B -> Prop)
      (f : nat * A -> C) (g : nat * B -> C) (la : list A) (lb : list B) :
  Forall2 R la lb ->
  (forall i a b, R a b -> f (i, a) = g (i, b)) ->
  map f (enumerate la) = map g (enumerate lb).
Proof.
  intros HR Hfg. unfold enumerate. generalize 0%nat.
  induction HR as [|a b la lb Hab Hrest IH]; intros n; simpl; [reflexivity|].
  rewrite (Hfg n a b Hab). f_equal. apply IH.
Qed.

Lemma Forall2_map_enumerate {B C : Type} (R : C -> B -> Prop)
      (h : nat * B -> C) (lb : list B) :
  (forall i b, In b lb -> R (h (i, b)) b) ->
  Forall2 R (map h (enumerate lb)) lb.
Proof.
  unfold enumerate. generalize 0%nat.
  induction lb as [|b lb IH]; intros n Hh; simpl; constructor.
  - apply Hh. now left.
  - apply IH. intros i b' Hb'. apply Hh. now right.
Qed.

Lemma Forall2_and_right {A B : Type} (R : A -> B -> Prop) (P : B -> Prop)
      (la : list A) (lb : list B) :
  Forall2 R la lb -> Forall P lb -> Forall2 (fun a b => R a b /\ P b) la lb.
Proof.
  induction 1 as [|a b la lb Hab Hrest IH]; intros HP; constructor;
    inversion HP; subst; auto.
Qed.

Section StoreFacts.
Context `{Pandas}.

Lemma reads_as_text_parts (s : string) :
  reads_as_text s = true ->
  na_text s = false /\ parse_int s = None /\ parse_float s = None
  /\ parse_bool s = None.
Proof.
  unfold reads_as_text. rewrite !andb_true_iff, !negb_true_iff.
  intros [[[Hna Hi] Hf] Hb].
  destruct (parse_int s), (parse_float s), (parse_bool s);
    try discriminate; auto.
Qed.

(** A text that reads as text is kept, whatever type the column is given. *)
Lemma read_cell_text (t : dtype) (s : string) :
  reads_as_text s = true -> read_cell t s = Str s.
Proof.
  intros Ht. destruct (reads_as_text_parts s Ht) as [Hna [Hi [Hf Hb]]].
  unfold read_cell. rewrite Hna, Hi, Hf, Hb. now destruct t.
Qed.

(** An NA marker is read as missing, whatever type the column is given. *)
Lemma read_cell_na (t : dtype) (s : string) :
  na_text s = true -> read_cell t s = NaN.
Proof. unfold read_cell. now intros ->. Qed.

Lemma amount_round_trips_parts (a : float) :
  amount_round_trips a = true ->
  is_nan a = false /\ na_text (repr_float a) = false
  /\ parse_int (repr_float a) = None
  /\ parse_float (repr_float a) = Some a.
Proof.
  unfold amount_round_trips. rewrite !andb_true_iff, !negb_true_iff.
  intros [[[Hnan Hna] Hi] Hf].
  destruct (parse_int (repr_float a)); [discriminate|].
  destruct (parse_float (repr_float a)) as [b|]; [|discriminate].
  apply Leibniz.eqb_spec in Hf. subst b. auto.
Qed.

Lemma read_cell_amount (a : float) :
  amount_round_trips a = true ->
  read_cell float64 (repr_float a) = Num (Flt a).
Proof.
  intros Ha. destruct (amount_round_trips_parts a Ha) as [_ [Hna [_ Hf]]].
  unfold read_cell. now rewrite Hna, Hf.
Qed.

Lemma valid_expense_parts (e : expense) :
  valid_expense e = true ->
  reads_as_text (isoformat (e_date e)) = true
  /\ amount_round_trips (e_amount e) = true
  /\ reads_as_text (e_category e) = true
  /\ (na_text (e_description e) = true
      \/ (na_text (e_description e) = false
          /\ reads_as_text (e_description e) = true)).
Proof.
  unfold valid_expense. rewrite !andb_true_iff, orb_true_iff.
  intros [[[Hd Ha] Hc] Hs]. repeat split; auto.
  destruct (na_text (e_description e)) eqn:Hna; auto.
  destruct Hs; [discriminate|auto].
Qed.

(** The Amount column of a file that holds valid expenses is read as
    float64. *)
Lemma amount_column_float (ls : list line) (es : list expense) :
  Forall2 line_holds ls es ->
  Forall (fun e => valid_expense e = true) es ->
  ls <> [] ->
  column_dtype (map l_Amount ls) = float64.
Proof.
  intros Hholds Hvalid Hne. unfold column_dtype.
  assert (Hfloat : forallb (fun s => na_text s || is_some (parse_float s))
                           (map l_Amount ls) = true).
  { clear Hne. induction Hholds as [|l e ls es Hl Hrest IH];
      [reflexivity|].
    inversion Hvalid as [|? ? He Hes]; subst. simpl.
    destruct Hl as [_ [Ha _]]. rewrite Ha.
    destruct (valid_expense_parts e He) as [_ [Va _]].
    destruct (amount_round_trips_parts _ Va) as [_ [_ [_ ->]]].
    rewrite orb_true_r. now apply IH. }
  rewrite Hfloat.
  destruct Hholds as [|l e ls es Hl Hrest]; [congruence|].
  inversion Hvalid as [|? ? He Hes]; subst. simpl.
  destruct Hl as [_ [Ha _]]. rewrite Ha.
  destruct (valid_expense_parts e He) as [_ [Va _]].
  destruct (amount_round_trips_parts _ Va) as [_ [_ [-> _]]].
  now rewrite andb_false_r.
Qed.

Lemma read_line_stored (td tc ts : dtype) (i : nat) (l : line) (e : expense) :
  na_text EmptyString = true ->
  line_holds l e -> valid_expense e = true ->
  mkRow i (read_cell td (l_Date l)) tt (read_cell float64 (l_Amount l))
        (read_cell tc (l_Category l)) (read_cell ts (l_Description l))
  = stored i e.
Proof.
  intros Hempty [Hd [Ha [Hc Hs]]] He.
  destruct (valid_expense_parts e He) as [Vd [Va [Vc Vs]]].
  unfold stored. rewrite Hd, Ha, Hc.
  rewrite (read_cell_text td _ Vd), (read_cell_amount _ Va),
    (read_cell_text tc _ Vc).
  f_equal.
  destruct Vs as [Hna | [Hna Ht]]; rewrite Hna.
  - destruct Hs as [-> | [_ ->]]; now apply read_cell_na.
  - destruct Hs as [-> | [Hna' _]]; [|congruence].
    now apply read_cell_text.
Qed.

(** Reading a file that holds valid expenses gives them as stored, numbered
    from 0. *)
Lemma read_table_stored (ls : list line) (es : list expense) :
  na_text EmptyString = true ->
  Forall2 line_holds ls es ->
  Forall (fun e => valid_expense e = true) es ->
  read_table ls = map (fun ie => stored (fst ie) (snd ie)) (enumerate es).
Proof.
  intros Hempty Hholds Hvalid.
  assert (Hcase : ls = [] \/ ls <> [])
    by (destruct ls; [now left | right; discriminate]).
  destruct Hcase as [-> | Hne].
  { inversion Hholds; subst. reflexivity. }
  unfold read_table.
  rewrite (amount_column_float ls es Hholds Hvalid Hne).
  generalize (column_dtype (map l_Date ls)),
    (column_dtype (map l_Category ls)),
    (column_dtype (map l_Description ls)).
  intros td tc ts.
  apply (map_enumerate_Forall2
           (fun l e => line_holds l e /\ valid_expense e = true)).
  - now apply Forall2_and_right.
  - intros i l e [Hl He]. simpl. now apply read_line_stored.
Qed.

Lemma stored_line_holds (i : nat) (e : expense) :
  valid_expense e = true ->
  line_holds
    (mkLine (cell_text (Date (stored i e)))
            (cell_text (promote_Amount (Amount (stored i e))))
            (cell_text (Category (stored i e)))
            (cell_text (Description (stored i e)))) e.
Proof.
  intros He. destruct (valid_expense_parts e He) as [_ [Va _]].
  destruct (amount_round_trips_parts _ Va) as [Hnan _].
  unfold line_holds, stored. simpl. rewrite Hnan. repeat split.
  destruct (na_text (e_description e)); simpl; auto.
Qed.

Lemma new_line_holds (e : expense) :
  valid_expense e = true ->
  line_holds
    (mkLine (isoformat (e_date e)) (cell_text (Num (Flt (e_amount e))))
            (e_category e) (e_description e)) e.
Proof.
  intros He. destruct (valid_expense_parts e He) as [_ [Va _]].
  destruct (amount_round_trips_parts _ Va) as [Hnan _].
  unfold line_holds. simpl. rewrite Hnan. auto.
Qed.

(** One more call of [adds_expense] keeps the file holding what was
    appended. *)
Lemma append_holds (f : file) (es : list expense) (e : expense) :
  na_text EmptyString = true ->
  file_holds f es ->
  Forall (fun e => valid_expense e = true) es ->
  valid_expense e = true ->
  file_holds (append f e) (es ++ [e])%list.
Proof.
  intros Hempty Hf Hvalid He. destruct f as [|msg|ls]; simpl in Hf.
  - subst es. simpl. constructor; [|constructor].
    now apply new_line_holds.
  - contradiction.
  - unfold append, adds_expense. simpl.
    rewrite (read_table_stored ls es Hempty Hf Hvalid).
    unfold concat_expense. rewrite map_app. apply Forall2_app.
    + rewrite !map_map. simpl.
      apply (Forall2_map_enumerate line_holds
               (fun ie => mkLine
                            (cell_text (Date (stored (fst ie) (snd ie))))
                            (cell_text (promote_Amount
                                          (Amount (stored (fst ie) (snd ie)))))
                            (cell_text (Category (stored (fst ie) (snd ie))))
                            (cell_text
                               (Description (stored (fst ie) (snd ie)))))).
      intros i b Hb. apply stored_line_holds.
      rewrite Forall_forall in Hvalid. auto.
    + simpl. constructor; [|constructor].
      now apply new_line_holds.
Qed.

Lemma append_all_holds (es es0 : list expense) (f : file) :
  na_text EmptyString = true ->
  file_holds f es0 ->
  Forall (fun e => valid_expense e = true) es0 ->
  Forall (fun e => valid_expense e = true) es ->
  file_holds (append_all es f) (es0 ++ es)%list.
Proof.
  intros Hempty. revert es0 f.
  induction es as [|e es IH]; simpl; intros es0 f Hf Hv0 Hv.
  - now rewrite app_nil_r.
  - inversion Hv as [|? ? He Hes]; subst.
    replace (es0 ++ e :: es)%list with ((es0 ++ [e]) ++ es)%list
      by now rewrite <- app_assoc.
    apply IH; auto.
    + now apply append_holds.
    + apply Forall_app. split; auto.
Qed.

Lemma read_back_holds (f : file) (es : list expense) :
  na_text EmptyString = true ->
  file_holds f es ->
  Forall (fun e => valid_expense e = true) es ->
  read_back f = Ok (map (fun ie => stored (fst ie) (snd ie)) (enumerate es)).
Proof.
  intros Hempty Hf Hvalid. destruct f as [|msg|ls]; simpl in Hf.
  - now subst.
  - contradiction.
  - unfold read_back. simpl. f_equal. now apply read_table_stored.
Qed.

Lemma stored_appended (i : nat) (e : expense) :
  reads_as_text (e_description e) = true -> stored i e = appended i e.
Proof.
  unfold stored, appended. intros Ht.
  destruct (reads_as_text_parts _ Ht) as [Hna _]. now rewrite Hna.
Qed.

(** The general part of C2. *)
Lemma valid_expenses_read_back (es : list expense) :
  na_text EmptyString = true ->
  Forall (fun e => valid_expense e = true) es ->
  file_holds (append_all es Missing) es
  /\ read_back (append_all es Missing)
     = Ok (map (fun ie => stored (fst ie) (snd ie)) (enumerate es))
  /\ (Forall (fun e => reads_as_text (e_description e) = true) es ->
      round_trip es).
Proof.
  intros Hempty Hvalid.
  assert (Hholds : file_holds (append_all es Missing) es).
  { apply (append_all_holds es [] Missing); auto. reflexivity. }
  assert (Hread : read_back (append_all es Missing)
                  = Ok (map (fun ie => stored (fst ie) (snd ie))
                            (enumerate es))).
  { apply read_back_holds; auto. }
  split; [exact Hholds|]. split; [exact Hread|].
  intros Hkept. unfold round_trip. rewrite Hread. f_equal.
  apply map_ext_in. intros [i e] Hie. simpl. apply stored_appended.
  rewrite Forall_forall in Hkept. apply Hkept.
  unfold enumerate in Hie. now apply in_combine_r in Hie.
Qed.

Lemma rewritten_cell (t : dtype) (s : string) :
  rewritten s (cell_text (read_cell t s)).
Proof.
  unfold rewritten. split; intros Hs.
  - now rewrite read_cell_na.
  - now rewrite read_cell_text.
Qed.

Lemma rewritten_amount (t : dtype) (s : string) :
  rewritten s (cell_text (promote_Amount (read_cell t s))).
Proof.
  unfold rewritten. split; intros Hs.
  - now rewrite read_cell_na.
  - now rewrite read_cell_text.
Qed.
End StoreFacts.

(** ** Month texts *)

Lemma digits_Z_zero (s : string) : digits_Z (String "0" s) = digits_Z s.
Proof.
  unfold digits_Z. simpl.
  destruct (NilEmpty.uint_of_string s); reflexivity.
Qed.

Lemma digits_Z_minus (a s : string) : digits_Z (a ++ String "-" s) = None.
Proof.
  unfold digits_Z. induction a as [|c a IH]; simpl.
  - destruct (NilEmpty.uint_of_string s); reflexivity.
  - destruct (NilEmpty.uint_of_string (a ++ String "-" s)); [discriminate|].
    reflexivity.
Qed.

Lemma digits_Z_str_Z (z : Z) : (0 <= z)%Z -> digits_Z (str_Z z) = Some z.
Proof.
  intros Hz. unfold digits_Z, str_Z. destruct z as [|p|p]; [reflexivity| |lia].
  simpl. unfold NilZero.string_of_uint.
  destruct (Pos.to_uint p) eqn:Hp;
    try (rewrite <- Hp, NilEmpty.usu; simpl; f_equal; unfold Z.of_uint;
         now rewrite DecimalPos.Unsigned.of_to).
  exfalso. revert Hp. apply DecimalPos.Unsigned.to_uint_nonnil.
Qed.

Lemma str_Z_negative (z : Z) :
  (z < 0)%Z -> exists s, str_Z z = String "-" s.
Proof.
  intros Hz. destruct z as [|p|p]; try lia.
  unfold str_Z. simpl. eauto.
Qed.

Lemma digits_Z_pad4 (z : Z) :
  digits_Z (pad4 z) = if (z <? 0)%Z then None else Some z.
Proof.
  destruct (Z.ltb_spec z 0) as [Hneg|Hpos].
  - destruct (str_Z_negative z Hneg) as [s Hs]. unfold pad4.
    destruct (Z.ltb_spec z 10); [|lia]. rewrite Hs.
    apply (digits_Z_minus "000").
  - unfold pad4.
    change ("000" ++ str_Z z)
      with (String "0" (String "0" (String "0" (str_Z z)))).
    change ("00" ++ str_Z z) with (String "0" (String "0" (str_Z z))).
    change ("0" ++ str_Z z) with (String "0" (str_Z z)).
    destruct (z <? 10)%Z; [|destruct (z <? 100)%Z; [|destruct (z <? 1000)%Z]];
      rewrite ?digits_Z_zero; now apply digits_Z_str_Z.
Qed.

Lemma digits_Z_pad2 (z : Z) :
  digits_Z (pad2 z) = if (z <? 0)%Z then None else Some z.
Proof.
  destruct (Z.ltb_spec z 0) as [Hneg|Hpos].
  - destruct (str_Z_negative z Hneg) as [s Hs]. unfold pad2.
    destruct (Z.ltb_spec z 10); [|lia]. rewrite Hs.
    apply (digits_Z_minus "0").
  - unfold pad2.
    change ("0" ++ str_Z z) with (String "0" (str_Z z)).
    destruct (z <? 10)%Z; rewrite ?digits_Z_zero; now apply digits_Z_str_Z.
Qed.

Lemma pad4_inj (a b : Z) : (0 <= b)%Z -> pad4 a = pad4 b -> a = b.
Proof.
  intros Hb Heq. apply (f_equal digits_Z) in Heq.
  rewrite !digits_Z_pad4 in Heq.
  destruct (Z.ltb_spec b 0); [lia|].
  destruct (a <? 0)%Z; congruence.
Qed.

Lemma pad2_inj (a b : Z) : (0 <= b)%Z -> pad2 a = pad2 b -> a = b.
Proof.
  intros Hb Heq. apply (f_equal digits_Z) in Heq.
  rewrite !digits_Z_pad2 in Heq.
  destruct (Z.ltb_spec b 0); [lia|].
  destruct (a <? 0)%Z; congruence.
Qed.

Lemma pad2_length (m : Z) :
  (1 <= m <= 12)%Z -> String.length (pad2 m) = 2%nat.
Proof.
  intros Hm.
  assert (Hcases : (m = 1 \/ m = 2 \/ m = 3 \/ m = 4 \/ m = 5 \/ m = 6
                    \/ m = 7 \/ m = 8 \/ m = 9 \/ m = 10 \/ m = 11
                    \/ m = 12)%Z) by lia.
  repeat destruct Hcases as [->|Hcases]; try reflexivity.
  now subst.
Qed.

Lemma string_length_append (a b : string) :
  String.length (a ++ b) = (String.length a + String.length b)%nat.
Proof. induction a as [|c a IH]; simpl; auto. Qed.

Lemma append_inj_tail (a a' b b' : string) :
  String.length b = String.length b' ->
  a ++ b = a' ++ b' -> a = a' /\ b = b'.
Proof.
  intros Hlen Heq.
  assert (Hla : String.length a = String.length a').
  { apply (f_equal String.length) in Heq.
    rewrite !string_length_append in Heq. lia. }
  clear Hlen. revert a' Hla Heq.
  induction a as [|c a IH]; intros [|c' a'] Hla Heq;
    simpl in *; try discriminate; auto.
  injection Heq as -> Heq. injection Hla as Hla.
  destruct (IH a' Hla Heq) as [-> ->]. auto.
Qed.

Lemma period_parts (d : date) :
  (1 <= month d <= 12)%Z ->
  period_year (to_period d) = year d /\ period_month (to_period d) = month d.
Proof.
  intros Hm. unfold period_year, period_month, to_period.
  replace ((year d - 1970) * 12 + (month d - 1))%Z
    with ((month d - 1) + (year d - 1970) * 12)%Z by lia.
  rewrite Z.div_add, Z.mod_add by lia.
  rewrite Z.div_small, Z.mod_small by lia. lia.
Qed.

(** The text of a period is the text of the current month exactly for the
    period of the current month; NaT never is. *)
Lemma current_month_test (m : option period) (now : date) :
  (0 <= year now)%Z -> (1 <= month now <= 12)%Z ->
  String.eqb (month_astype_str m) (strftime_Y_m now)
  = match m with
    | Some p => Z.eqb p (to_period now)
    | None => false
    end.
Proof.
  intros Hy Hm. unfold strftime_Y_m.
  assert (Htail : forall M, (1 <= M <= 12)%Z ->
                            String.length (String "-" (pad2 M)) = 3%nat).
  { intros M HM. simpl. now rewrite pad2_length. }
  change ("-" ++ pad2 (month now)) with (String "-" (pad2 (month now))).
  destruct m as [p|]; cbn [month_astype_str].
  - destruct (period_parts now Hm) as [Hpy Hpm].
    destruct (Z.eqb_spec p (to_period now)) as [->|Hne].
    + unfold period_str. rewrite Hpy, Hpm. apply String.eqb_refl.
    + apply String.eqb_neq. intros Heq. apply Hne. unfold period_str in Heq.
      change ("-" ++ pad2 (period_month p))
        with (String "-" (pad2 (period_month p))) in Heq.
      assert (HM : (1 <= period_month p <= 12)%Z).
      { unfold period_month. pose proof (Z.mod_pos_bound p 12). lia. }
      apply append_inj_tail in Heq;
        [|now rewrite (Htail _ HM), (Htail _ Hm)].
      destruct Heq as [Hyear Hmonth]. injection Hmonth as Hmonth.
      apply pad4_inj in Hyear; [|exact Hy].
      apply pad2_inj in Hmonth; [|lia].
      unfold period_year, period_month, to_period in *.
      pose proof (Z.div_mod p 12). lia.
  - apply String.eqb_neq. intros Heq.
    change "NaT" with (EmptyString ++ "NaT") in Heq.
    apply append_inj_tail in Heq; [|now rewrite (Htail _ Hm)].
    destruct Heq as [_ Heq]. discriminate.
Qed.

(** ** The remaining-budget section on a numeric Amount column *)

Lemma numbers_of_numeric (s : list value) :
  Forall number_or_missing s -> exists xs, numbers_of s = Some xs.
Proof.
  induction 1 as [|v rest Hv Hrest [xs IH]]; simpl; [eauto|].
  destruct Hv as [-> | [x ->]]; rewrite IH; simpl; eauto.
Qed.

(** The rows whose month, as a text, is the text of the current month are
    the rows dated in the month of [now]. *)
Lemma current_month_rows (fr : frame (option date) unit value) (now : date) :
  (0 <= year now)%Z -> (1 <= month now <= 12)%Z ->
  map Amount
      (filter (fun r => String.eqb (month_astype_str (Month r))
                                   (strftime_Y_m now))
              (assign_Month (option_map to_period) fr))
  = map Amount
        (filter (fun r =>
                   match Date r with
                   | Some d => Z.eqb (to_period d) (to_period now)
                   | None => false
                   end) fr).
Proof.
  intros Hy Hm. unfold assign_Month.
  induction fr as [|r fr IH]; [reflexivity|].
  cbn [map filter Month Date].
  rewrite (current_month_test _ now Hy Hm).
  destruct (Date r) as [d|]; cbn [option_map].
  - destruct (Z.eqb (to_period d) (to_period now)); cbn [map Amount];
      now rewrite IH.
  - exact IH.
Qed.

Section NumericAmounts.
Context `{Pandas}.

Lemma read_table_numeric_amounts (ls : list line) :
  numeric_dtype (column_dtype (map l_Amount ls)) = true ->
  Forall (fun r => number_or_missing (Amount r)) (read_table ls).
Proof.
  intros Hnum. apply Forall_forall. intros r Hr.
  unfold read_table in Hr. apply in_map_iff in Hr.
  destruct Hr as [[i l] [<- Hl]]. simpl.
  assert (Hin : In (l_Amount l) (map l_Amount ls)).
  { apply in_map. unfold enumerate in Hl. now apply in_combine_r in Hl. }
  revert Hnum. unfold column_dtype.
  destruct (forallb (fun s => negb (na_text s) && is_some (parse_int s))
                    (map l_Amount ls)) eqn:Hint.
  - intros _. rewrite forallb_forall in Hint. specialize (Hint _ Hin).
    apply andb_true_iff in Hint. destruct Hint as [Hna Hz].
    apply negb_true_iff in Hna. unfold read_cell. rewrite Hna.
    destruct (parse_int (l_Amount l)); [right; eauto | discriminate Hz].
  - destruct (forallb (fun s => na_text s || is_some (parse_float s))
                      (map l_Amount ls)) eqn:Hfloat.
    + intros _. rewrite forallb_forall in Hfloat. specialize (Hfloat _ Hin).
      unfold read_cell. destruct (na_text (l_Amount l)); [now left|].
      destruct (parse_float (l_Amount l)); [right; eauto | discriminate Hfloat].
    + intros Hx.
      destruct (forallb (fun s => na_text s || is_some (parse_bool s))
                        (map l_Amount ls)); discriminate Hx.
Qed.

Lemma dated_Amounts (df : frame value unit value) :
  Forall (fun r => number_or_missing (Amount r)) df ->
  Forall (fun r => number_or_missing (Amount r)) (dated df).
Proof.
  intros Hall. apply Forall_forall. intros r Hr.
  unfold dated, set_Date in Hr. apply in_map_iff in Hr.
  destruct Hr as [[r0 d] [<- Hin]]. simpl. apply in_combine_l in Hin.
  rewrite Forall_forall in Hall. now apply Hall.
Qed.

Lemma current_month_numbers (df : frame value unit value) (now : date) :
  Forall (fun r => number_or_missing (Amount r)) df ->
  Forall number_or_missing (current_month_amounts df now).
Proof.
  intros Hall. unfold current_month_amounts. apply Forall_map.
  apply Forall_forall. intros r Hr. apply filter_In in Hr.
  pose proof (dated_Amounts df Hall) as Hd.
  rewrite Forall_forall in Hd. now apply Hd.
Qed.

Lemma total_expenses_csv (ls : list line) (now : date) :
  (0 <= year now)%Z -> (1 <= month now <= 12)%Z ->
  total_expenses (Csv ls) now
  = series_sum (current_month_amounts (read_table ls) now).
Proof.
  intros Hy Hm. unfold total_expenses. cbn [path_exists read_csv bind].
  f_equal. apply (current_month_rows (dated (read_table ls)) now Hy Hm).
Qed.
End NumericAmounts.

(** X15. When [read_csv] gives the Amount column a numeric type (every cell a
    number or missing), the remaining-budget section does not fail on a date
    of the years 1000 to 9999: what it subtracts is pandas' sum of the
    Amounts, a missing one counting 0, of the rows whose Date is read, within
    the Date column, as a date of the current calendar month (0 when there
    is none), and the value shown is the budget after savings minus that
    sum as a double. *)
Theorem remaining_budget_on_numeric_amounts
        `{Pandas} (g : globals) (ls : list line) (now : date) (rb : float) :
  numeric_dtype (column_dtype (map l_Amount ls)) = true ->
  remaining_budget g = Some rb ->
  (1000 <= year now <= 9999)%Z -> (1 <= month now <= 12)%Z ->
  exists xs,
    numbers_of (current_month_amounts (read_table ls) now) = Some xs
    /\ let spent := match xs with
                    | [] => Int 0
                    | _ => series_total xs
                    end in
       total_expenses (Csv ls) now = Ok (Num spent)
       /\ remaining_budget_try g (Csv ls) now
          = Ok [st_success ("Remaining budget for this month: $"
                            ++ format_2f (rb - to_float spent)%float)].
Proof.
  intros Hnum Hrb Hy Hm.
  pose proof (read_table_numeric_amounts ls Hnum) as Hall.
  destruct (numbers_of_numeric _ (current_month_numbers _ now Hall))
    as [xs Hxs].
  exists xs. split; [exact Hxs|].
  assert (Htotal : total_expenses (Csv ls) now
                   = Ok (Num (match xs with
                              | [] => Int 0
                              | _ => series_total xs
                              end))).
  { rewrite total_expenses_csv by lia. unfold series_sum. rewrite Hxs.
    destruct xs; reflexivity. }
  split; [exact Htotal|].
  unfold remaining_budget_try. rewrite Htotal, Hrb.
  cbn [bind load_name]. unfold py_sub. cbn [as_number].
  destruct (match xs with [] => Int 0 | _ => series_total xs end);
    reflexivity.
Qed.

(** ** The tabs *)

Lemma has_char_append (c : ascii) (a b : string) :
  has_char c (a ++ b) = has_char c a || has_char c b.
Proof.
  induction a as [|x a IH]; simpl; [reflexivity|].
  now rewrite IH, orb_assoc.
Qed.

(** A needle whose first character does not occur is not found. *)
Lemma contains_first_char (c : ascii) (n s : string) :
  has_char c s = false -> contains (String c n) s = false.
Proof.
  induction s as [|b s IH]; simpl; [reflexivity|].
  intros Hc. apply orb_false_iff in Hc. destruct Hc as [Hb Hs].
  rewrite Hb, (IH Hs). reflexivity.
Qed.

Lemma no_E_uint (d : Decimal.uint) :
  has_char "E" (NilEmpty.string_of_uint d) = false.
Proof. induction d; simpl; auto. Qed.

Lemma no_E_str_Z (z : Z) : has_char "E" (str_Z z) = false.
Proof.
  unfold str_Z, NilZero.string_of_int, NilZero.string_of_uint.
  destruct (Z.to_int z) as [d|d]; destruct d; simpl;
    try reflexivity; apply no_E_uint.
Qed.

Lemma no_E_pad2 (z : Z) : has_char "E" (pad2 z) = false.
Proof.
  unfold pad2. destruct (z <? 10)%Z; rewrite ?has_char_append, no_E_str_Z;
    reflexivity.
Qed.

Lemma no_E_format_2f (x : float) : has_char "E" (format_2f x) = false.
Proof.
  unfold format_2f, hundredths.
  destruct (Prim2SF x) as [s|s| |s m e];
    try reflexivity; try (destruct s; reflexivity).
  cbv beta iota zeta. rewrite !has_char_append, no_E_str_Z, no_E_pad2.
  destruct s; reflexivity.
Qed.

Lemma prediction_message_no_Error (x : float) :
  contains "Error" (prediction_message x) = false.
Proof.
  apply contains_first_char. unfold prediction_message.
  rewrite has_char_append, no_E_format_2f. reflexivity.
Qed.

(** X17. The Add Expense tab, once the button is pressed: on a missing or
    readable file the expense is written and the success message is shown as
    a success.  On an unreadable file nothing is written, and the error
    message is shown as an error unless the text of the exception itself
    contains "successfully", in which case it is shown as a success. *)
Theorem add_expense_tab_outcome `{Pandas} (e : expense) (f : file) :
  match f with
  | Unreadable msg =>
      add_expense_tab true e f
      = (f, [st_header "Add a New Expense";
             if contains "successfully" msg
             then st_success ("Error adding expense: " ++ msg)
             else st_error ("Error adding expense: " ++ msg)])
  | _ =>
      add_expense_tab true e f
      = (append f e, [st_header "Add a New Expense";
                      st_success "Expense added successfully!"])
      /\ exists ls, append f e = Csv ls
  end.
Proof.
  destruct f as [|msg|ls].
  - split; [reflexivity | eexists; reflexivity].
  - reflexivity.
  - split; [reflexivity | eexists; reflexivity].
Qed.

(** X18. The View Report tab never shows an error: it shows the message of
    [view_report] as a warning when the file is missing or cannot be read,
    and the table otherwise. *)
Theorem view_report_tab_outcome `{Pandas} (f : file) :
  view_report_tab f
  = shown (st_header "Monthly Expense Report")
    :: match f with
       | Missing => [shown (st_warning "No expenses recorded yet!")]
       | Unreadable msg =>
           [shown (st_warning ("Error generating report: " ++ msg))]
       | Csv ls =>
           [st_write "Here is your monthly report:";
            st_dataframe (Some (report_table (read_table ls)))]
       end.
Proof. destruct f; reflexivity. Qed.

(** X19. The Predict Expenses tab shows an error exactly when the file cannot
    be read; the no-data message and every prediction, whatever its value,
    are shown as information: the test for "Error" never fires on them. *)
Theorem predict_expenses_tab_outcome `{Pandas} (f : file) :
  predict_expenses_tab f
  = shown (st_header "Predict Next Month's Expenses")
    :: match f with
       | Unreadable msg =>
           [shown (st_error ("Error predicting expenses: " ++ msg))]
       | _ => [st_info (predict_the_next_month f)]
       end.
Proof.
  destruct f as [|msg|ls]; try reflexivity.
  unfold predict_expenses_tab. rewrite predict_csv.
  rewrite prediction_message_no_Error. reflexivity.
Qed.

(** ** The record store, further *)

(** X1. [adds_expense] on a missing file creates it with the one expense; on a
    readable file it writes a file with one line more, the new expense last;
    in both cases it reports success.  On a file [pd.read_csv] cannot read it
    leaves the file as it is and returns the error text. *)
Theorem adds_expense_outcome `{Pandas} (e : expense) (f : file) :
  match f with
  | Missing =>
      adds_expense (e_date e) (e_amount e) (e_category e) (e_description e) f
      = (Csv [expense_line e], "Expense added successfully!")
  | Csv ls =>
      exists ls',
        adds_expense (e_date e) (e_amount e) (e_category e)
                     (e_description e) f
        = (Csv (ls' ++ [expense_line e])%list, "Expense added successfully!")
        /\ List.length ls' = List.length ls
  | Unreadable msg =>
      adds_expense (e_date e) (e_amount e) (e_category e) (e_description e) f
      = (f, "Error adding expense: " ++ msg)
  end.
Proof.
  destruct f as [|msg|ls]; try reflexivity.
  unfold adds_expense. simpl. unfold to_csv, concat_expense.
  rewrite map_app. simpl.
  eexists. split; [reflexivity|].
  rewrite !length_map. apply read_table_length.
Qed.

(** X2. Rewriting the file keeps every older row in its place.  In each of
    its four fields an NA marker (N/A, None, null, ...) is replaced by the
    empty field, and a text that [read_csv] reads as text in any column (no
    NA marker, integer, float or boolean) is kept as it is. *)
Theorem adds_expense_rewrites_older_rows
        `{Pandas} (e : expense) (ls : list line) (i : nat) (l : line) :
  nth_error ls i = Some l ->
  exists ls' l',
    append (Csv ls) e = Csv ls'
    /\ nth_error ls' i = Some l'
    /\ rewritten (l_Date l) (l_Date l')
    /\ rewritten (l_Amount l) (l_Amount l')
    /\ rewritten (l_Category l) (l_Category l')
    /\ rewritten (l_Description l) (l_Description l').
Proof.
  intros Hnth. unfold append, adds_expense. simpl.
  unfold to_csv, concat_expense.
  rewrite map_app. unfold read_table. rewrite !map_map. simpl.
  assert (Hi : nth_error (enumerate ls) i = Some (i, l)).
  { unfold enumerate. apply nth_error_combine; [|exact Hnth].
    rewrite nth_error_seq.
    assert (Hlt : (i < List.length ls)%nat)
      by (apply nth_error_Some; congruence).
    apply Nat.ltb_lt in Hlt. now rewrite Hlt. }
  eexists. eexists. split; [reflexivity|]. split.
  - rewrite nth_error_app1.
    + rewrite nth_error_map, Hi. reflexivity.
    + rewrite length_map, enumerate_length. apply nth_error_Some. congruence.
  - simpl. repeat split;
      try apply rewritten_cell; apply rewritten_amount.
Qed.

(** ** The report, the forecast and the store, on every pandas and on the
    reference one *)

Lemma cell_defined (t : pivot) (m : period) (c : label) (z : num) :
  cell t m c = Some z -> In m (index t) /\ In c (columns t).
Proof.
  unfold cell.
  destruct (position m (index t)) as [i|] eqn:Hi; [|discriminate].
  destruct (position c (columns t)) as [j|] eqn:Hj; [|discriminate].
  intros _. split; eapply position_occurs; eauto.
Qed.

(** The empty sum and the fill value are exact. *)
Lemma fill_is_exact_sum (z : num) :
  z = Int 0 \/ z = Flt 0 -> exact z = exact_total [].
Proof. intros [-> | ->]; vm_compute; reflexivity. Qed.

(** C3. On a file with at least one valid row, [predict_the_next_month]
    returns the prediction message with pandas' mean of the totals per
    month, to two decimals: there is one total for each month of a valid
    row, the months in increasing order, and the total of a month is pandas'
    sum of the Amounts of the valid rows of that month, whatever their
    category.  With one month of data the only total is the sum of all the
    valid Amounts, and the prediction is the mean of that one total.  The
    valid rows are those whose Date and Amount were read.  On the reference
    pandas the mean of one total is that total over 1 and the mean of two
    totals is their sum halved, in doubles; totals of 100 and 300
    give 200.00; one month with 0.1 and 0.025 gives its total 0.125, shown as
    0.12; and rows of January around a row of February are grouped by month,
    giving 150.06 for 0.1, 300 and 0.025. *)
Theorem forecast_is_mean_of_monthly_totals :
  (forall (P : Pandas) (ls : list line),
      let vr := valid_rows (read_table ls) in
      let totals := monthly_totals (read_table ls) in
      vr <> [] ->
      totals <> []
      /\ keys_sorted (map fst totals)
      /\ (forall m, In m (map fst totals)
                    <-> exists r, In r vr /\ Month r = m)
      /\ (forall m total_m,
             In (m, total_m) totals ->
             amounts_in vr m <> [] /\ total_m = group_sum (amounts_in vr m))
      /\ predict_the_next_month (Csv ls)
         = prediction_message (series_mean (map snd totals))
      /\ (forall m, (forall r, In r vr -> Month r = m) ->
                    totals = [(m, group_sum (map Amount vr))]
                    /\ predict_the_next_month (Csv ls)
                       = prediction_message
                           (series_mean [group_sum (map Amount vr)])))
  /\ (forall x : num,
         series_mean (Pandas := ReferencePandas) [x]
         = ((0 + to_float x) / 1)%float)
  /\ (forall x y : num,
         series_mean (Pandas := ReferencePandas) [x; y]
         = ((0 + to_float x + to_float y) / 2)%float)
  /\ (monthly_totals (H := ReferencePandas)
                     (read_table (H := ReferencePandas) clean_lines)
      = [(to_period jan15, Int 100); (to_period feb03, Int 300)]
      /\ predict_the_next_month (H := ReferencePandas) (Csv clean_lines)
         = "Based on your spending history, your predicted total expenses for next month are: $200.00")
  /\ (monthly_totals (H := ReferencePandas)
                     (read_table (H := ReferencePandas) one_month_lines)
      = [(to_period jan15, Flt 0.125)]
      /\ series_mean (Pandas := ReferencePandas) [Flt 0.125] = 0.125%float
      /\ predict_the_next_month (H := ReferencePandas) (Csv one_month_lines)
         = "Based on your spending history, your predicted total expenses for next month are: $0.12")
  /\ (monthly_totals (H := ReferencePandas)
                     (read_table (H := ReferencePandas) three_rows_lines)
      = [(to_period jan15, Flt 0.125); (to_period feb03, Flt 300)]
      /\ predict_the_next_month (H := ReferencePandas) (Csv three_rows_lines)
         = "Based on your spending history, your predicted total expenses for next month are: $150.06").
Proof.
  split; [intros P ls; exact (@forecast_from_totals P ls)|].
  split; [intros x; reflexivity|].
  split; [intros x y; reflexivity|].
  repeat split; vm_compute; reflexivity.
Qed.

(** C5. A row whose Date fails [pd.to_datetime] within the Date column, or
    whose Amount fails [pd.to_numeric], is not among the valid rows; the
    report and the forecast are computed from the valid rows alone (every
    cell is pandas' sum of Amounts of valid rows or the fill value, every
    monthly total pandas' sum of Amounts of valid rows), and both functions
    return their normal result, a table without a message and the prediction
    message.  On the reference pandas, of the four rows of the mixed file
    the rows 0 and 1 are valid, and the report and the forecast are those of
    these two rows; in the file that starts with a row dated month first,
    the rows dated year first fail too, and the report is empty. *)
Theorem malformed_row_excluded :
  (forall (P : Pandas) (ls : list line) (i : nat),
      date_fails (read_table ls) i \/ amount_fails (read_table ls) i ->
      let vr := valid_rows (read_table ls) in
      ~ In i (map Index vr)
      /\ (forall r, In r vr -> Index r <> i)
      /\ view_report (Csv ls) = (None, Some (report_table (read_table ls)))
      /\ (forall m c z,
             cell (report_table (read_table ls)) m c = Some z ->
             match amounts_at vr m c with
             | [] => z = Int 0 \/ z = Flt 0
             | l => z = group_sum l
             end)
      /\ (forall m total_m,
             In (m, total_m) (monthly_totals (read_table ls)) ->
             amounts_in vr m <> [] /\ total_m = group_sum (amounts_in vr m))
      /\ predict_the_next_month (Csv ls)
         = prediction_message (mean (map snd (monthly_totals (read_table ls)))))
  /\ (map Index (valid_rows (H := ReferencePandas)
                            (read_table (H := ReferencePandas) mixed_lines))
      = [0%nat; 1%nat]
      /\ view_report (H := ReferencePandas) (Csv mixed_lines)
         = (None, Some (mkPivot [to_period jan15; to_period feb03]
                                [LStr "Food"; LStr "Rent"]
                                [[Flt 100; Flt 0]; [Flt 0; Flt 300]]))
      /\ predict_the_next_month (H := ReferencePandas) (Csv mixed_lines)
         = "Based on your spending history, your predicted total expenses for next month are: $200.00")
  /\ (valid_rows (H := ReferencePandas)
                 (read_table (H := ReferencePandas) month_first_lines) = []
      /\ view_report (H := ReferencePandas) (Csv month_first_lines)
         = (None, Some (mkPivot [] [] []))
      /\ predict_the_next_month (H := ReferencePandas) (Csv month_first_lines)
         = "Based on your spending history, your predicted total expenses for next month are: $nan").
Proof.
  split.
  - intros P ls i Hbad vr.
    pose proof (valid_rows_exclude ls i Hbad) as Hout.
    split; [exact Hout|].
    split.
    { intros r Hr Hi. apply Hout. rewrite <- Hi. now apply in_map. }
    split; [reflexivity|].
    split.
    { intros m c z Hcell.
      destruct (cell_defined _ _ _ _ Hcell) as [Hm Hc].
      destruct (report_cell (read_table ls) m c Hm Hc) as [Hsome Hnone].
      fold vr in Hsome, Hnone.
      destruct (amounts_at vr m c) as [|a l] eqn:Ha.
      - destruct (Hnone eq_refl) as [z' [Hz' Hfill]]. congruence.
      - rewrite Hsome in Hcell by discriminate. congruence. }
    split; [|reflexivity].
    intros m total_m Hin.
    apply find_group_In in Hin; [|apply monthly_totals_sorted].
    rewrite monthly_total_is_sum in Hin. fold vr in Hin.
    destruct (amounts_in vr m); [discriminate|].
    injection Hin as <-. split; [discriminate|reflexivity].
  - repeat split; vm_compute; reflexivity.
Qed.

(** C7 (amended). Each cell of the report at a month and a category of the
    table is pandas' sum of the Amounts of the valid rows of that month and
    category, in the order of the rows: a float64 sum, which rounds, or an
    int64 sum, which wraps around.  It is their exact sum whenever pandas'
    sum of them is exact, and it is 0 for a month and a category with no
    valid row.  On the reference pandas the cells of the mixed file are 100,
    0, 0 and 300; the cell for 0.1 and 0.2 is the double
    0.30000000000000004, and the cell for 9223372036854775807 and 1 is
    -9223372036854775808. *)
Theorem report_cell_is_sum :
  (forall (P : Pandas) (ls : list line) (t : pivot) (m : period) (c : label),
      view_report (Csv ls) = (None, Some t) ->
      In m (index t) -> In c (columns t) ->
      let vr := valid_rows (read_table ls) in
      (amounts_at vr m c <> [] ->
       cell t m c = Some (group_sum (amounts_at vr m c))
       /\ (sums_exactly (amounts_at vr m c) = true ->
           cell_is_exact_sum t vr m c))
      /\ (amounts_at vr m c = [] ->
          (cell t m c = Some (Int 0) \/ cell t m c = Some (Flt 0))
          /\ cell_is_exact_sum t vr m c))
  /\ view_report (H := ReferencePandas) (Csv mixed_lines)
     = (None, Some (mkPivot [to_period jan15; to_period feb03]
                            [LStr "Food"; LStr "Rent"]
                            [[Flt 100; Flt 0]; [Flt 0; Flt 300]]))
  /\ view_report (H := ReferencePandas) (Csv tenths_lines)
     = (None, Some (mkPivot [to_period jan15] [LStr "Food"]
                            [[Flt 0.30000000000000004]]))
  /\ (0.1 + 0.2)%float = 0.30000000000000004%float
  /\ view_report (H := ReferencePandas) (Csv wrapping_lines)
     = (None, Some (mkPivot [to_period jan15] [LStr "Food"]
                            [[Int (-9223372036854775808)]])).
Proof.
  split.
  - intros P ls t m c. rewrite view_report_csv. intros [= <-] Hm Hc vr.
    destruct (report_cell (read_table ls) m c Hm Hc) as [Hsome Hnone].
    fold vr in Hsome, Hnone. split.
    + intros Hne. split; [now apply Hsome|].
      intros Hexact. unfold cell_is_exact_sum. rewrite (Hsome Hne).
      now destruct (sums_exactly_spec _ Hne Hexact) as [_ [_ [_ ->]]].
    + intros Hnil. destruct (Hnone Hnil) as [z [Hz Hfill]].
      split; [destruct Hfill as [-> | ->]; auto|].
      unfold cell_is_exact_sum. rewrite Hz, Hnil.
      now apply fill_is_exact_sum.
  - repeat split; vm_compute; reflexivity.
Qed.

(** C8 (amended). For a month of the report in which every valid row has a
    category, the forecaster's total of the month and the cells of the
    month's row are pandas' sums of the same Amounts: the total is the sum of
    the valid Amounts of the month, each cell the sum of those of its
    category (or the fill value 0), and the Amounts of the categories, taken
    together, are the Amounts of the month, each counted once.  The total
    and the exact sum of the cells are the same number whenever these sums
    are exact.  On the reference pandas the rows of the clean file are
    (100, 0) and (0, 300) and the totals 100 and 300. *)
Theorem forecast_total_is_report_row_sum :
  (forall (P : Pandas) (ls : list line) (t : pivot) (m : period)
          (cells_m : list num),
      let vr := valid_rows (read_table ls) in
      (forall r, In r vr -> Month r = m -> has_category (Category r) = true) ->
      view_report (Csv ls) = (None, Some t) ->
      table_row t m = Some cells_m ->
      exists total_m fill,
        find_group m (monthly_totals (read_table ls)) = Some total_m
        /\ total_m = group_sum (amounts_in vr m)
        /\ (fill = Int 0 \/ fill = Flt 0)
        /\ cells_m = map (fun c => match amounts_at vr m c with
                                   | [] => fill
                                   | l => group_sum l
                                   end) (columns t)
        /\ Permutation (List.concat (map (amounts_at vr m) (columns t)))
                       (amounts_in vr m)
        /\ (sums_exactly (amounts_in vr m) = true ->
            forallb (fun c => sums_exactly (amounts_at vr m c)) (columns t)
            = true ->
            exact total_m = exact_total cells_m))
  /\ view_report (H := ReferencePandas) (Csv clean_lines)
     = (None, Some (mkPivot [to_period jan15; to_period feb03]
                            [LStr "Food"; LStr "Rent"]
                            [[Int 100; Int 0]; [Int 0; Int 300]]))
  /\ monthly_totals (H := ReferencePandas)
                    (read_table (H := ReferencePandas) clean_lines)
     = [(to_period jan15, Int 100); (to_period feb03, Int 300)].
Proof.
  split.
  - intros P ls t m cells_m.
    exact (@report_row_and_monthly_total P ls t m cells_m).
  - repeat split; vm_compute; reflexivity.
Qed.

(** C2 (amended). Appending N valid expenses to no file and reading the file
    back gives exactly N records in the order of the appends, numbered from
    0, each with the date (as its ISO text), the amount and the category
    that were appended; the description comes back as appended unless it is
    an NA marker of [read_csv], such as the empty description, which comes
    back missing.  When no description is such a marker the records read
    back are the appended ones.  An expense is valid when [read_csv] keeps
    its date text and its category as text, when its amount is read back
    from its printed form as the same double, and when its description is an
    NA marker or a text that [read_csv] keeps as text.  On the reference
    pandas a lunch of 12.5 and a rent of 300 with no description are valid,
    the file written holds 12.5 and 300.0, and the records come back as
    said. *)
Theorem append_then_read_back :
  (forall (P : Pandas) (es : list expense),
      na_text EmptyString = true ->
      Forall (fun e => valid_expense e = true) es ->
      file_holds (append_all es Missing) es
      /\ read_back (append_all es Missing)
         = Ok (map (fun ie => stored (fst ie) (snd ie)) (enumerate es))
      /\ (Forall (fun e => reads_as_text (e_description e) = true) es ->
          round_trip es))
  /\ map (valid_expense (H := ReferencePandas)) [lunch; undescribed]
     = [true; true]
  /\ append_all (H := ReferencePandas) [lunch; undescribed] Missing
     = Csv [mkLine "2024-01-15" "12.5" "Food" "lunch";
            mkLine "2024-02-03" "300.0" "Rent" EmptyString]
  /\ read_back (H := ReferencePandas)
               (append_all (H := ReferencePandas) [lunch; undescribed] Missing)
     = Ok [mkRow 0 (Str "2024-01-15") tt (Num (Flt 12.5)) (Str "Food")
                 (Str "lunch");
           mkRow 1 (Str "2024-02-03") tt (Num (Flt 300)) (Str "Rent") NaN].
Proof.
  split; [intros P es; exact (@valid_expenses_read_back P es)|].
  repeat split; vm_compute; reflexivity.
Qed.

(** C1 (the code at the failing input). With a row of the current month
    whose Amount is not a number, the Amount column is read as text, the
    sum of the month is the text "300abc", subtracting it raises, and the
    page shows the error; with the malformed row dropped, as the report and
    the forecast drop it, it would show 9200.00. *)
Theorem remaining_budget_fails_on_malformed_amount :
  total_expenses (H := ReferencePandas) (Csv mixed_lines) feb10
  = Ok (Str "300abc")
  /\ budget_page (H := ReferencePandas) salary (Csv mixed_lines) feb10
     = [st_success "Your monthly income: $10000.00";
        st_success "Budget after savings: $9500.00";
        st_header "Remaining Monthly Budget";
        st_error "An error occurred while calculating the remaining budget: unsupported operand type(s) for -: 'float' and 'str'"]
  /\ format_2f (tolerant_remaining_budget (H := ReferencePandas)
                                          9500 mixed_lines feb10)
     = "9200.00".
Proof. repeat split; vm_compute; reflexivity. Qed.

(** * Runs on the reference pandas *)

Section RunFacts.
#[local] Existing Instance ReferencePandas.

Example mixed_forecast :
  predict_the_next_month (Csv mixed_lines)
  = "Based on your spending history, your predicted total expenses for next month are: $200.00".
Proof. vm_compute. reflexivity. Qed.

(** The forecast rounds the double, not the decimal that was typed. *)
Example forecast_rounds_the_double :
  predict_the_next_month (Csv [mkLine "2024-01-15" "2.675" "Food" "x"])
  = "Based on your spending history, your predicted total expenses for next month are: $2.67".
Proof. vm_compute. reflexivity. Qed.

(** The format of the first date decides for the column: the same two rows
    give another report and another forecast in the other order. *)
Example date_format_of_first_row :
  view_report (Csv two_formats_lines)
  = (None, Some (mkPivot [to_period feb03] [LStr "Rent"] [[Int 300]]))
  /\ predict_the_next_month (Csv two_formats_lines)
     = "Based on your spending history, your predicted total expenses for next month are: $300.00"
  /\ predict_the_next_month (Csv (rev two_formats_lines))
     = "Based on your spending history, your predicted total expenses for next month are: $100.00".
Proof. repeat split; vm_compute; reflexivity. Qed.

(** An int64 total wraps around. *)
Example forecast_wraps_around :
  predict_the_next_month (Csv wrapping_lines)
  = "Based on your spending history, your predicted total expenses for next month are: $-9223372036854775808.00".
Proof. vm_compute. reflexivity. Qed.

(** A row with a bad date alone does not disturb the section. *)
Example remaining_budget_with_bad_date :
  budget_page salary
              (Csv [mkLine "2024-02-03" "300" "Rent" "flat";
                    mkLine "not-a-date" "5" "Food" "x"]) feb10
  = [st_success "Your monthly income: $10000.00";
     st_success "Budget after savings: $9500.00";
     st_header "Remaining Monthly Budget";
     st_success "Remaining budget for this month: $9200.00"].
Proof. vm_compute. reflexivity. Qed.

(** A malformed Amount in another month breaks the section too. *)
Example remaining_budget_other_month :
  budget_page salary
              (Csv [mkLine "2024-02-03" "300" "Rent" "flat";
                    mkLine "2023-07-01" "abc" "Food" "x"]) feb10
  = [st_success "Your monthly income: $10000.00";
     st_success "Budget after savings: $9500.00";
     st_header "Remaining Monthly Budget";
     st_error "An error occurred while calculating the remaining budget: unsupported operand type(s) for -: 'float' and 'str'"].
Proof. vm_compute. reflexivity. Qed.

Example remaining_budget_on_clean_file :
  budget_page salary (Csv clean_lines) feb10
  = [st_success "Your monthly income: $10000.00";
     st_success "Budget after savings: $9500.00";
     st_header "Remaining Monthly Budget";
     st_success "Remaining budget for this month: $9200.00"].
Proof. vm_compute. reflexivity. Qed.

(** The page computes in doubles: a budget of 1 after 0.1 and 0.025, and a
    yearly income of 0.06. *)
Example budget_page_in_doubles :
  budget_page (mkSidebar 12 0) (Csv one_month_lines) jan15
  = [st_success "Your monthly income: $1.00";
     st_success "Budget after savings: $1.00";
     st_header "Remaining Monthly Budget";
     st_success "Remaining budget for this month: $0.88"]
  /\ budget_page (mkSidebar 0.06 0) Missing jan15
     = [st_success "Your monthly income: $0.01";
        st_success "Budget after savings: $0.01";
        st_header "Remaining Monthly Budget";
        st_success "Remaining budget for this month: $0.01"].
Proof. split; vm_compute; reflexivity. Qed.

(** Rewriting the file changes older cells that were read as numbers or
    booleans: an Amount 5 becomes 5.0, a description true becomes True, an
    NA marker becomes the empty field; a Category 7 stays. *)
Example older_rows_rewritten :
  append (Csv [mkLine "2024-01-15" "5" "7" "true";
               mkLine "2024-01-16" "6" "8" "N/A"]) lunch
  = Csv [mkLine "2024-01-15" "5.0" "7" "True";
         mkLine "2024-01-16" "6.0" "8" EmptyString;
         mkLine "2024-01-15" "12.5" "Food" "lunch"].
Proof. vm_compute. reflexivity. Qed.

(** Short decimal amounts are read back as written. *)
Example short_amounts_round_trip :
  map amount_round_trips [0.1; 0.01; 12.5; 99.99; 300; 1234567.89]%float
  = [true; true; true; true; true; true].
Proof. vm_compute. reflexivity. Qed.

(** An unreadable file whose error text contains the word the tab looks
    for. *)
Example add_expense_tab_misled :
  add_expense_tab true lunch (Unreadable "file not successfully parsed")
  = (Unreadable "file not successfully parsed",
     [st_header "Add a New Expense";
      st_success "Error adding expense: file not successfully parsed"]).
Proof. reflexivity. Qed.

(** ** The main properties at concrete inputs *)

Lemma append_then_read_back_witness :
  na_text EmptyString = true
  /\ Forall (fun e => valid_expense e = true) [lunch; undescribed]
  /\ read_back (append_all [lunch; undescribed] Missing)
     = Ok [stored 0 lunch; stored 1 undescribed]
  /\ Forall (fun e => reads_as_text (e_description e) = true) [lunch]
  /\ round_trip [lunch].
Proof.
  assert (Hempty : na_text EmptyString = true) by reflexivity.
  assert (Hvalid : Forall (fun e => valid_expense e = true)
                          [lunch; undescribed])
    by (repeat constructor).
  assert (Hvalid1 : Forall (fun e => valid_expense e = true) [lunch])
    by (repeat constructor).
  assert (Htext : Forall (fun e => reads_as_text (e_description e) = true)
                         [lunch])
    by (repeat constructor).
  split; [exact Hempty|]. split; [exact Hvalid|].
  split.
  { exact (proj1 (proj2 (proj1 append_then_read_back ReferencePandas
                               [lunch; undescribed] Hempty Hvalid))). }
  split; [exact Htext|].
  exact (proj2 (proj2 (proj1 append_then_read_back ReferencePandas
                             [lunch] Hempty Hvalid1)) Htext).
Defined.

(** C2 (counterexample). An expense with the description left empty is read
    back with no description, not with the empty text; an expense of
    0.1 + 0.2, written 0.30000000000000004, is read back with the amount
    0.3, a different double; a category 5 is read back as the integer 5, and
    a description True as the boolean. *)
Lemma appended_record_not_read_back :
  ~ round_trip [undescribed]
  /\ read_back (append_all [undescribed] Missing)
     = Ok [mkRow 0 (Str "2024-02-03") tt (Num (Flt 300)) (Str "Rent") NaN]
  /\ ~ round_trip [three_tenths]
  /\ e_amount three_tenths = (0.1 + 0.2)%float
  /\ append_all [three_tenths] Missing
     = Csv [mkLine "2024-01-15" "0.30000000000000004" "Food" "snack"]
  /\ read_back (append_all [three_tenths] Missing)
     = Ok [mkRow 0 (Str "2024-01-15") tt (Num (Flt 0.3)) (Str "Food")
                 (Str "snack")]
  /\ PrimFloat.Leibniz.eqb 0.3 (0.1 + 0.2) = false
  /\ ~ round_trip [mkExpense jan15 12.5 "5" "lunch"]
  /\ read_back (append_all [mkExpense jan15 12.5 "5" "lunch"] Missing)
     = Ok [mkRow 0 (Str "2024-01-15") tt (Num (Flt 12.5)) (Num (Int 5))
                 (Str "lunch")]
  /\ ~ round_trip [mkExpense jan15 12.5 "Food" "True"]
  /\ read_back (append_all [mkExpense jan15 12.5 "Food" "True"] Missing)
     = Ok [mkRow 0 (Str "2024-01-15") tt (Num (Flt 12.5)) (Str "Food")
                 (Bool true)].
Proof.
  split.
  { unfold round_trip. intros Hrt.
    apply (f_equal (fun r => match r with
                             | Ok [r] => Some (Description r)
                             | _ => None
                             end)) in Hrt.
    vm_compute in Hrt. discriminate. }
  split; [vm_compute; reflexivity|].
  split.
  { unfold round_trip. intros Hrt.
    apply (f_equal (fun r => match r with
                             | Ok [r] =>
                                 match Amount r with
                                 | Num (Flt a) =>
                                     PrimFloat.Leibniz.eqb a 0.3
                                 | _ => false
                                 end
                             | _ => false
                             end)) in Hrt.
    vm_compute in Hrt. discriminate. }
  split; [vm_compute; reflexivity|]. split; [vm_compute; reflexivity|].
  split; [vm_compute; reflexivity|]. split; [vm_compute; reflexivity|].
  split.
  { unfold round_trip. intros Hrt.
    apply (f_equal (fun r => match r with
                             | Ok [r] => Some (Category r)
                             | _ => None
                             end)) in Hrt.
    vm_compute in Hrt. discriminate. }
  split; [vm_compute; reflexivity|].
  split; [|vm_compute; reflexivity].
  unfold round_trip. intros Hrt.
  apply (f_equal (fun r => match r with
                           | Ok [r] => Some (Description r)
                           | _ => None
                           end)) in Hrt.
  vm_compute in Hrt. discriminate.
Qed.

Lemma forecast_is_mean_of_monthly_totals_witness :
  valid_rows (read_table three_rows_lines) <> []
  /\ monthly_totals (read_table three_rows_lines)
     = [(to_period jan15, Flt 0.125); (to_period feb03, Flt 300)]
  /\ predict_the_next_month (Csv three_rows_lines)
     = prediction_message
         (series_mean (map snd (monthly_totals (read_table three_rows_lines))))
  /\ (forall r, In r (valid_rows (read_table one_month_lines)) ->
                Month r = to_period jan15)
  /\ monthly_totals (read_table one_month_lines)
     = [(to_period jan15,
         group_sum (map Amount (valid_rows (read_table one_month_lines))))].
Proof.
  assert (Hne : valid_rows (read_table three_rows_lines) <> [])
    by (vm_compute; discriminate).
  assert (Hne1 : valid_rows (read_table one_month_lines) <> [])
    by (vm_compute; discriminate).
  assert (Hall : forall r, In r (valid_rows (read_table one_month_lines)) ->
                           Month r = to_period jan15).
  { intros r Hin. vm_compute in Hin.
    destruct Hin as [<-|[<-|[]]]; reflexivity. }
  split; [exact Hne|]. split; [vm_compute; reflexivity|].
  split.
  { exact (proj1 (proj2 (proj2 (proj2 (proj2
             (proj1 forecast_is_mean_of_monthly_totals ReferencePandas
                    three_rows_lines Hne)))))). }
  split; [exact Hall|].
  exact (proj1 (proj2 (proj2 (proj2 (proj2 (proj2
           (proj1 forecast_is_mean_of_monthly_totals ReferencePandas
                  one_month_lines Hne1))))) (to_period jan15) Hall)).
Defined.

Lemma malformed_row_excluded_witness :
  date_fails (read_table mixed_lines) 2
  /\ amount_fails (read_table mixed_lines) 3
  /\ ~ In 2%nat (map Index (valid_rows (read_table mixed_lines)))
  /\ ~ In 3%nat (map Index (valid_rows (read_table mixed_lines)))
  /\ date_fails (read_table month_first_lines) 1
  /\ ~ In 1%nat (map Index (valid_rows (read_table month_first_lines))).
Proof.
  assert (Hdate : date_fails (read_table mixed_lines) 2).
  { eexists. split; [|split].
    - vm_compute. right. right. left. reflexivity.
    - reflexivity.
    - reflexivity. }
  assert (Hamount : amount_fails (read_table mixed_lines) 3).
  { eexists. split; [|split].
    - vm_compute. right. right. left. reflexivity.
    - reflexivity.
    - reflexivity. }
  assert (Hfirst : date_fails (read_table month_first_lines) 1).
  { eexists. split; [|split].
    - vm_compute. right. left. reflexivity.
    - reflexivity.
    - reflexivity. }
  split; [exact Hdate|]. split; [exact Hamount|].
  split.
  { exact (proj1 (proj1 malformed_row_excluded ReferencePandas mixed_lines 2%nat
                        (or_introl Hdate))). }
  split.
  { exact (proj1 (proj1 malformed_row_excluded ReferencePandas mixed_lines 3%nat
                        (or_intror Hamount))). }
  split; [exact Hfirst|].
  exact (proj1 (proj1 malformed_row_excluded ReferencePandas month_first_lines
                      1%nat (or_introl Hfirst))).
Defined.

Lemma missing_file_is_no_data_witness :
  remaining_budget (fst (set_your_budget salary)) = Some 9500%float
  /\ remaining_budget_try (fst (set_your_budget salary)) Missing feb10
     = Ok [st_success ("Remaining budget for this month: $"
                       ++ format_2f 9500)].
Proof.
  assert (Hrb : remaining_budget (fst (set_your_budget salary))
                = Some 9500%float) by (vm_compute; reflexivity).
  split; [exact Hrb|].
  exact (proj2 (proj2 (proj2 (missing_file_is_no_data feb10))) _ _ Hrb).
Defined.

Lemma report_cell_is_sum_witness :
  let t := report_table (read_table mixed_lines) in
  let vr := valid_rows (read_table mixed_lines) in
  view_report (Csv mixed_lines) = (None, Some t)
  /\ In (to_period feb03) (index t)
  /\ In (LStr "Rent") (columns t)
  /\ In (LStr "Food") (columns t)
  /\ amounts_at vr (to_period feb03) (LStr "Rent") = [Flt 300]
  /\ sums_exactly (amounts_at vr (to_period feb03) (LStr "Rent")) = true
  /\ cell t (to_period feb03) (LStr "Rent")
     = Some (group_sum (amounts_at vr (to_period feb03) (LStr "Rent")))
  /\ cell_is_exact_sum t vr (to_period feb03) (LStr "Rent")
  /\ amounts_at vr (to_period feb03) (LStr "Food") = []
  /\ (cell t (to_period feb03) (LStr "Food") = Some (Int 0)
      \/ cell t (to_period feb03) (LStr "Food") = Some (Flt 0)).
Proof.
  intros t vr.
  assert (Hview : view_report (Csv mixed_lines) = (None, Some t))
    by reflexivity.
  assert (Hm : In (to_period feb03) (index t))
    by (vm_compute; right; left; reflexivity).
  assert (Hrent : In (LStr "Rent") (columns t))
    by (vm_compute; right; left; reflexivity).
  assert (Hfood : In (LStr "Food") (columns t))
    by (vm_compute; left; reflexivity).
  assert (Hsome : amounts_at vr (to_period feb03) (LStr "Rent") = [Flt 300])
    by (vm_compute; reflexivity).
  assert (Hne : amounts_at vr (to_period feb03) (LStr "Rent") <> [])
    by (rewrite Hsome; discriminate).
  assert (Hexact : sums_exactly (amounts_at vr (to_period feb03) (LStr "Rent"))
                   = true)
    by (vm_compute; reflexivity).
  assert (Hnone : amounts_at vr (to_period feb03) (LStr "Food") = [])
    by (vm_compute; reflexivity).
  repeat (split; [assumption|]).
  split.
  { exact (proj1 (proj1 (proj1 report_cell_is_sum ReferencePandas mixed_lines t
                               (to_period feb03) (LStr "Rent")
                               Hview Hm Hrent) Hne)). }
  split.
  { exact (proj2 (proj1 (proj1 report_cell_is_sum ReferencePandas mixed_lines t
                               (to_period feb03) (LStr "Rent")
                               Hview Hm Hrent) Hne) Hexact). }
  split; [exact Hnone|].
  exact (proj1 (proj2 (proj1 report_cell_is_sum ReferencePandas mixed_lines t
                             (to_period feb03) (LStr "Food")
                             Hview Hm Hfood) Hnone)).
Defined.

(** C7 (counterexample). One month, one category, the amounts 0.1 and 0.2:
    the cell is the double 0.30000000000000004, which is not the sum of the
    two doubles.  With the amounts 9223372036854775807 and 1 the cell is
    -9223372036854775808. *)
Lemma report_cell_not_exact_sum :
  view_report (Csv tenths_lines)
  = (None, Some (report_table (read_table tenths_lines)))
  /\ amounts_at (valid_rows (read_table tenths_lines)) (to_period jan15)
                (LStr "Food") = [Flt 0.1; Flt 0.2]
  /\ cell (report_table (read_table tenths_lines)) (to_period jan15)
          (LStr "Food") = Some (Flt 0.30000000000000004)
  /\ ~ cell_is_exact_sum (report_table (read_table tenths_lines))
                         (valid_rows (read_table tenths_lines))
                         (to_period jan15) (LStr "Food")
  /\ amounts_at (valid_rows (read_table wrapping_lines)) (to_period jan15)
                (LStr "Food") = [Int 9223372036854775807; Int 1]
  /\ cell (report_table (read_table wrapping_lines)) (to_period jan15)
          (LStr "Food") = Some (Int (-9223372036854775808))
  /\ ~ cell_is_exact_sum (report_table (read_table wrapping_lines))
                         (valid_rows (read_table wrapping_lines))
                         (to_period jan15) (LStr "Food").
Proof.
  split; [reflexivity|].
  split; [vm_compute; reflexivity|].
  split; [vm_compute; reflexivity|].
  split.
  { unfold cell_is_exact_sum.
    replace (cell (report_table (read_table tenths_lines)) (to_period jan15)
                  (LStr "Food"))
      with (Some (Flt 0.30000000000000004)) by (vm_compute; reflexivity).
    intros Heq. apply (f_equal (option_map this)) in Heq.
    vm_compute in Heq. discriminate. }
  split; [vm_compute; reflexivity|].
  split; [vm_compute; reflexivity|].
  unfold cell_is_exact_sum.
  replace (cell (report_table (read_table wrapping_lines)) (to_period jan15)
                (LStr "Food"))
    with (Some (Int (-9223372036854775808))) by (vm_compute; reflexivity).
  intros Heq. apply (f_equal (option_map this)) in Heq.
  vm_compute in Heq. discriminate.
Qed.

Lemma forecast_total_is_report_row_sum_witness :
  let t := report_table (read_table clean_lines) in
  let vr := valid_rows (read_table clean_lines) in
  (forall r, In r vr -> Month r = to_period feb03 ->
             has_category (Category r) = true)
  /\ view_report (Csv clean_lines) = (None, Some t)
  /\ table_row t (to_period feb03) = Some [Int 0; Int 300]
  /\ sums_exactly (amounts_in vr (to_period feb03)) = true
  /\ forallb (fun c => sums_exactly (amounts_at vr (to_period feb03) c))
             (columns t) = true
  /\ exists total_m,
      find_group (to_period feb03) (monthly_totals (read_table clean_lines))
      = Some total_m
      /\ total_m = group_sum (amounts_in vr (to_period feb03))
      /\ exact total_m = exact_total [Int 0; Int 300].
Proof.
  intros t vr.
  assert (Hall : forall r, In r vr -> Month r = to_period feb03 ->
                           has_category (Category r) = true).
  { intros r Hin _. vm_compute in Hin.
    destruct Hin as [<-|[<-|[]]]; reflexivity. }
  assert (Hview : view_report (Csv clean_lines) = (None, Some t))
    by reflexivity.
  assert (Hrow : table_row t (to_period feb03) = Some [Int 0; Int 300])
    by (vm_compute; reflexivity).
  assert (Hmonth : sums_exactly (amounts_in vr (to_period feb03)) = true)
    by (vm_compute; reflexivity).
  assert (Hcells : forallb (fun c => sums_exactly
                                       (amounts_at vr (to_period feb03) c))
                           (columns t) = true)
    by (vm_compute; reflexivity).
  repeat (split; [assumption|]).
  destruct (proj1 forecast_total_is_report_row_sum ReferencePandas
                  clean_lines t (to_period feb03) [Int 0; Int 300]
                  Hall Hview Hrow)
    as [total_m [fill [Hfind [Htotal [_ [_ [_ Hexact]]]]]]].
  exists total_m. split; [exact Hfind|]. split; [exact Htotal|].
  exact (Hexact Hmonth Hcells).
Defined.

(** C8 (counterexample). Two valid rows in 2024-01, of amounts 10 and 5, the
    second with an empty Category: the report row of the month holds 10
    (under Food), the forecaster's total of the month is 15.  And a month
    with 0.1 of Food, 0.1 of Rent and 0.4 of Food, every row categorised: the
    row holds 0.5 and 0.1, which add up to 0.6 in doubles and to no double
    exactly, and the forecaster's total is 0.6000000000000001. *)
Lemma report_row_and_total_disagree :
  table_row (report_table (read_table uncategorised_lines)) (to_period jan15)
  = Some [Int 10]
  /\ find_group (to_period jan15)
                (monthly_totals (read_table uncategorised_lines))
     = Some (Int 15)
  /\ ~ totals_agree uncategorised_lines
  /\ table_row (report_table (read_table rounding_lines)) (to_period jan15)
     = Some [Flt 0.5; Flt 0.1]
  /\ find_group (to_period jan15) (monthly_totals (read_table rounding_lines))
     = Some (Flt 0.6000000000000001)
  /\ (0.5 + 0.1)%float = 0.6%float
  /\ PrimFloat.Leibniz.eqb 0.6 0.6000000000000001 = false
  /\ ~ totals_agree rounding_lines.
Proof.
  split; [vm_compute; reflexivity|]. split; [vm_compute; reflexivity|].
  split.
  { intros Hagree.
    assert (Hrow : table_row (report_table (read_table uncategorised_lines))
                             (to_period jan15) = Some [Int 10])
      by (vm_compute; reflexivity).
    destruct (Hagree _ _ _ eq_refl Hrow) as [total_m [Hfind Hexact]].
    vm_compute in Hfind. injection Hfind as <-.
    apply (f_equal (option_map this)) in Hexact.
    vm_compute in Hexact. discriminate. }
  split; [vm_compute; reflexivity|]. split; [vm_compute; reflexivity|].
  split; [vm_compute; reflexivity|]. split; [vm_compute; reflexivity|].
  intros Hagree.
  assert (Hrow : table_row (report_table (read_table rounding_lines))
                           (to_period jan15) = Some [Flt 0.5; Flt 0.1])
    by (vm_compute; reflexivity).
  destruct (Hagree _ _ _ eq_refl Hrow) as [total_m [Hfind Hexact]].
  vm_compute in Hfind. injection Hfind as <-.
  apply (f_equal (option_map this)) in Hexact.
  vm_compute in Hexact. discriminate.
Qed.

(** ** The further properties at concrete inputs *)

Lemma adds_expense_rewrites_older_rows_witness :
  nth_error [mkLine "2024-01-15" "12.5" "Food" "N/A"] 0
  = Some (mkLine "2024-01-15" "12.5" "Food" "N/A")
  /\ append (Csv [mkLine "2024-01-15" "12.5" "Food" "N/A"]) undescribed
     = Csv [mkLine "2024-01-15" "12.5" "Food" EmptyString;
            mkLine "2024-02-03" "300.0" "Rent" EmptyString]
  /\ exists ls' l',
      append (Csv [mkLine "2024-01-15" "12.5" "Food" "N/A"]) undescribed
      = Csv ls'
      /\ nth_error ls' 0 = Some l'
      /\ rewritten "Food" (l_Category l')
      /\ rewritten "N/A" (l_Description l').
Proof.
  assert (Hnth : nth_error [mkLine "2024-01-15" "12.5" "Food" "N/A"] 0
                 = Some (mkLine "2024-01-15" "12.5" "Food" "N/A"))
    by reflexivity.
  split; [exact Hnth|]. split; [vm_compute; reflexivity|].
  destruct (adds_expense_rewrites_older_rows undescribed _ _ _ Hnth)
    as [ls' [l' [Happ [Hl' [_ [_ [Hcat Hdesc]]]]]]].
  exists ls', l'. auto.
Defined.

Lemma report_is_sorted_and_rectangular_witness :
  let t := report_table (read_table mixed_lines) in
  view_report (Csv mixed_lines) = (None, Some t)
  /\ keys_sorted (index t) /\ keys_sorted (columns t).
Proof.
  intros t.
  assert (Hview : view_report (Csv mixed_lines) = (None, Some t))
    by reflexivity.
  split; [exact Hview|].
  destruct (report_is_sorted_and_rectangular _ _ Hview) as [Hi [Hc _]].
  auto.
Defined.

(** A row dated month first before a row dated year first: the second row is
    not valid, and brings neither its month nor its category. *)
Lemma report_months_and_categories_witness :
  let t := report_table (read_table two_formats_lines) in
  view_report (Csv two_formats_lines) = (None, Some t)
  /\ index t = [to_period feb03]
  /\ columns t = [LStr "Rent"]
  /\ map Index (valid_rows (read_table two_formats_lines)) = [0%nat]
  /\ (forall c, In c (columns t)
                <-> exists r, In r (valid_rows (read_table two_formats_lines))
                              /\ group_key (Category r) = Some c).
Proof.
  intros t.
  assert (Hview : view_report (Csv two_formats_lines) = (None, Some t))
    by reflexivity.
  split; [exact Hview|].
  split; [vm_compute; reflexivity|]. split; [vm_compute; reflexivity|].
  split; [vm_compute; reflexivity|].
  apply (proj2 (report_months_and_categories _ _ Hview)).
Defined.

(** A file of malformed rows only. *)
Lemma forecast_without_valid_rows_witness :
  valid_rows (read_table [mkLine "not-a-date" "5" "Food" "x";
                          mkLine "2024-02-04" "abc" "Food" "y"]) = []
  /\ predict_the_next_month
       (Csv [mkLine "not-a-date" "5" "Food" "x";
             mkLine "2024-02-04" "abc" "Food" "y"])
     = "Based on your spending history, your predicted total expenses for next month are: $nan".
Proof.
  assert (Hnone : valid_rows
                    (read_table [mkLine "not-a-date" "5" "Food" "x";
                                 mkLine "2024-02-04" "abc" "Food" "y"]) = [])
    by (vm_compute; reflexivity).
  split; [exact Hnone|]. exact (forecast_without_valid_rows _ Hnone).
Defined.

Lemma budget_page_shape_witness :
  (0 <? yearly_income (mkSidebar 0 500))%float = false
  /\ budget_page (mkSidebar 0 500) (Csv mixed_lines) feb10
     = [st_warning "Please enter your yearly income to calculate your budget."]
  /\ (0 <? yearly_income (mkSidebar 0.06 0))%float = true
  /\ exists s,
      (budget_page (mkSidebar 0.06 0) Missing jan15
       = [st_success ("Your monthly income: $" ++ format_2f (0.06 / 12)%float);
          st_success ("Budget after savings: $"
                      ++ format_2f (0.06 / 12 - 0)%float);
          st_header "Remaining Monthly Budget";
          st_success ("Remaining budget for this month: $" ++ s)])
      \/ (budget_page (mkSidebar 0.06 0) Missing jan15
          = [st_success ("Your monthly income: $"
                         ++ format_2f (0.06 / 12)%float);
             st_success ("Budget after savings: $"
                         ++ format_2f (0.06 / 12 - 0)%float);
             st_header "Remaining Monthly Budget";
             st_error ("An error occurred while calculating the remaining budget: "
                       ++ s)]).
Proof.
  assert (Hzero : (0 <? yearly_income (mkSidebar 0 500))%float = false)
    by reflexivity.
  assert (Hpos : (0 <? yearly_income (mkSidebar 0.06 0))%float = true)
    by reflexivity.
  split; [exact Hzero|].
  split.
  { exact (proj1 (budget_page_shape (mkSidebar 0 500) (Csv mixed_lines) feb10)
                 Hzero). }
  split; [exact Hpos|].
  exact (proj2 (budget_page_shape (mkSidebar 0.06 0) Missing jan15) Hpos).
Defined.

Lemma remaining_budget_on_numeric_amounts_witness :
  let g := mkGlobals (Some 1%float) (Some 1%float) in
  numeric_dtype (column_dtype (map l_Amount one_month_lines)) = true
  /\ remaining_budget g = Some 1%float
  /\ current_month_amounts (read_table one_month_lines) jan15
     = [Num (Flt 0.1); Num (Flt 0.025)]
  /\ series_total [Flt 0.1; Flt 0.025] = Flt 0.125
  /\ format_2f (1 - 0.125) = "0.88"
  /\ exists xs,
      numbers_of (current_month_amounts (read_table one_month_lines) jan15)
      = Some xs
      /\ remaining_budget_try g (Csv one_month_lines) jan15
         = Ok [st_success ("Remaining budget for this month: $"
                           ++ format_2f
                                (1 - to_float (match xs with
                                               | [] => Int 0
                                               | _ => series_total xs
                                               end))%float)].
Proof.
  intros g.
  assert (Hnum : numeric_dtype (column_dtype (map l_Amount one_month_lines))
                 = true) by reflexivity.
  assert (Hrb : remaining_budget g = Some 1%float) by reflexivity.
  split; [exact Hnum|]. split; [exact Hrb|].
  split; [vm_compute; reflexivity|]. split; [vm_compute; reflexivity|].
  split; [vm_compute; reflexivity|].
  destruct (remaining_budget_on_numeric_amounts g one_month_lines jan15 1
                                                Hnum Hrb)
    as [xs [Hxs [_ Hshown]]]; [simpl; lia | simpl; lia |].
  exists xs. split; [exact Hxs | exact Hshown].
Defined.

Lemma remaining_budget_try_text_amount_witness :
  let g := fst (set_your_budget salary) in
  let r := mkRow 3 (Str "2024-02-04") tt (Str "abc") (Str "Food") (Str "y") in
  remaining_budget g = Some 9500%float
  /\ nth_error (read_table mixed_lines) 3 = Some r
  /\ nth_error (to_datetime (map Date (read_table mixed_lines))) 3
     = Some (Some (mkDate 2024 2 4))
  /\ month_astype_str (option_map to_period (Some (mkDate 2024 2 4)))
     = strftime_Y_m feb10
  /\ exists msg,
      remaining_budget_try g (Csv mixed_lines) feb10 = Raise (TypeError msg).
Proof.
  intros g r.
  assert (Hrb : remaining_budget g = Some 9500%float)
    by (vm_compute; reflexivity).
  assert (Hrow : nth_error (read_table mixed_lines) 3 = Some r)
    by (vm_compute; reflexivity).
  assert (Hdate : nth_error (to_datetime (map Date (read_table mixed_lines))) 3
                  = Some (Some (mkDate 2024 2 4)))
    by (vm_compute; reflexivity).
  assert (Hmonth : month_astype_str
                     (option_map to_period (Some (mkDate 2024 2 4)))
                   = strftime_Y_m feb10) by reflexivity.
  repeat (split; [assumption|]).
  exact (remaining_budget_try_text_amount g mixed_lines feb10 9500 3 r
                                          (Some (mkDate 2024 2 4)) "abc"
                                          Hrb Hrow Hdate Hmonth eq_refl).
Defined.
End RunFacts.
